(** * DIGITAL_CITY_TWIN: the scenario impact engine of [backend/main.py]

  A shallow embedding of the FastAPI backend: the Python functions
  [classify_severity], [distance_km], [compute_length_from_points],
  [nearest_node], [compute_od_time], [generate_alert_from_rainfall] and
  [simulate] become Rocq functions, and the properties the specification
  states about them are proved (or refuted) on these functions.

  Conventions of the embedding.
  - A Python [float] is an IEEE-754 binary64 number, [spec_float] with
    precision 53 and maximal exponent 1024; every arithmetic operation is
    the correctly rounded one of the standard library's [SpecFloat].
  - A Python [int] is a [Z].
  - A Python exception is a value of [exn]; code that can raise returns an
    [outcome].
  - The road graph is a mutable networkx object: it lives in a store of
    objects and is named by a reference. *)

From Stdlib Require Import ZArith List Bool String Ascii Lia DecimalString.
From Stdlib Require Import Floats.SpecFloat.
From stdpp Require Import base gmap strings.
Import ListNotations.

Local Open Scope Z_scope.

(* ===================================================================== *)
(** * Binary64 floating point *)
(* ===================================================================== *)

Module F.

Definition float : Type := spec_float.

Definition prec : Z := 53.
Definition emax : Z := 1024.

Definition add : float -> float -> float := SFadd prec emax.
Definition sub : float -> float -> float := SFsub prec emax.
Definition mul : float -> float -> float := SFmul prec emax.
Definition div : float -> float -> float := SFdiv prec emax.
Definition sqrt : float -> float := SFsqrt prec emax.
Definition opp : float -> float := SFopp.
Definition abs : float -> float := SFabs.

(** Python's [<], [<=] and [==] on floats: false as soon as a NaN is
    involved. *)
Definition ltb : float -> float -> bool := SFltb.
Definition leb : float -> float -> bool := SFleb.
Definition eqb : float -> float -> bool := SFeqb.

(** The float nearest to an integer (ties to even); an infinity when the
    integer is out of range. *)
Definition of_Z (z : Z) : float := binary_normalize prec emax z 0 false.

(** The float a decimal literal [n/d] denotes: the correctly rounded
    quotient of two exactly representable integers. *)
Definition dec (n d : Z) : float := div (of_Z n) (of_Z d).

Definition zero : float := S754_zero false.

Definition is_nan (x : float) : bool :=
  match x with S754_nan => true | _ => false end.

Definition is_zero (x : float) : bool :=
  match x with S754_zero _ => true | _ => false end.

Definition is_finite (x : float) : bool :=
  match x with S754_zero _ | S754_finite _ _ _ => true | _ => false end.

(** Non-negative numbers: [+0.0], [-0.0], the positive finite floats and
    [+inf]. *)
Definition nonneg (x : float) : bool :=
  match x with
  | S754_zero _ => true
  | S754_finite s _ _ => negb s
  | S754_infinity s => negb s
  | S754_nan => false
  end.

(** Strictly positive finite numbers. *)
Definition pos_finite (x : float) : bool :=
  match x with S754_finite false _ _ => true | _ => false end.

(** The floor of the exact value of a float, when it has one. *)
Definition floor (x : float) : option Z :=
  match x with
  | S754_zero _ => Some 0
  | S754_finite s m e =>
      let v := if s then Z.neg m else Z.pos m in
      Some (if 0 <=? e then v * 2 ^ e else v / 2 ^ (- e))
  | _ => None
  end.

(** The exact value of a float truncated toward zero. *)
Definition trunc (x : float) : option Z :=
  match x with
  | S754_zero _ => Some 0
  | S754_finite s m e =>
      let a := if 0 <=? e then Z.pos m * 2 ^ e else Z.pos m / 2 ^ (- e) in
      Some (if s then - a else a)
  | _ => None
  end.

(** The integer nearest to [m * 2^e] for a non-negative [m], ties to the
    even integer. *)
Definition nearest_even (m e : Z) : Z :=
  if 0 <=? e then m * 2 ^ e
  else
    let d := 2 ^ (- e) in
    let q := m / d in
    let r := m mod d in
    match 2 * r ?= d with
    | Lt => q
    | Gt => q + 1
    | Eq => if Z.even q then q else q + 1
    end.

(** The integer nearest to the exact value of a float, ties to even. *)
Definition round_half_even (x : float) : option Z :=
  match x with
  | S754_zero _ => Some 0
  | S754_finite s m e =>
      let a := nearest_even (Z.pos m) e in
      Some (if s then - a else a)
  | _ => None
  end.

(** The place of a float that is not a NaN in the order of the floats:
    class (negative infinity, negative, zero, positive, positive infinity),
    then exponent, then mantissa. *)
Definition key (x : float) : Z * Z * Z :=
  match x with
  | S754_infinity true => (-2, 0, 0)
  | S754_finite true m e => (-1, - e, Z.neg m)
  | S754_zero _ | S754_nan => (0, 0, 0)
  | S754_finite false m e => (1, e, Z.pos m)
  | S754_infinity false => (2, 0, 0)
  end.

Definition lex (a b : Z * Z * Z) : comparison :=
  match fst (fst a) ?= fst (fst b) with
  | Eq =>
      match snd (fst a) ?= snd (fst b) with
      | Eq => snd a ?= snd b
      | c => c
      end
  | c => c
  end.

(** A finite float of magnitude below [2^B]. *)
Definition mag_le (x : float) (B : Z) : Prop :=
  match x with
  | S754_zero _ => True
  | S754_finite _ m e =>
      e <= 971 /\ exists j, 0 <= j /\ Z.pos m < 2 ^ j /\ j + e <= B
  | _ => False
  end.

(** A float that is not a NaN and has the sign [s]. *)
Definition sign_is (x : float) (s : bool) : Prop :=
  match x with
  | S754_zero s' | S754_finite s' _ _ | S754_infinity s' => s' = s
  | S754_nan => False
  end.

End F.

Abbreviation float := F.float.

(* ===================================================================== *)
(** * Python values, exceptions and built-ins *)
(* ===================================================================== *)

Inductive exn : Type :=
  | ZeroDivisionError
  | OverflowError
  | ValueError
  | RuntimeError (msg : string)
  | GeometryError.

Inductive outcome (A : Type) : Type :=
  | Ret (a : A)
  | Raise (e : exn).
Arguments Ret {A} a.
Arguments Raise {A} e.

Definition obind {A B : Type} (x : outcome A) (k : A -> outcome B) : outcome B :=
  match x with
  | Ret a => k a
  | Raise e => Raise e
  end.

Definition returns {A : Type} (x : outcome A) : bool :=
  match x with Ret _ => true | Raise _ => false end.

Declare Scope outcome_scope.
Delimit Scope outcome_scope with outcome.
Notation "'let!' x ':=' c 'in' k" := (obind c (fun x => k))
  (at level 10, x name, c at level 100, k at level 200) : outcome_scope.

Module Py.

(** [float(n)] for an [int]: raises [OverflowError] when [n] rounds out of
    the binary64 range. *)
Definition float_of_int (n : Z) : outcome float :=
  match F.of_Z n with
  | S754_infinity _ => Raise OverflowError
  | x => Ret x
  end.

(** [x / y] on floats: raises when the divisor is zero. *)
Definition truediv (x y : float) : outcome float :=
  if F.is_zero y then Raise ZeroDivisionError else Ret (F.div x y).

(** [a / b] on ints: the correctly rounded quotient of the two integers. *)
Definition int_truediv (a b : Z) : outcome float :=
  match b with
  | Z0 => Raise ZeroDivisionError
  | _ =>
      match a with
      | Z0 => Ret (S754_zero (b <? 0))
      | _ =>
          match F.div (S754_finite (a <? 0) (Z.to_pos (Z.abs a)) 0)
                      (S754_finite (b <? 0) (Z.to_pos (Z.abs b)) 0) with
          | S754_infinity _ => Raise OverflowError
          | x => Ret x
          end
      end
  end.

(** [round(x)] with one argument: nearest integer, ties to even. *)
Definition round (x : float) : outcome Z :=
  match x with
  | S754_nan => Raise ValueError
  | S754_infinity _ => Raise OverflowError
  | _ => match F.round_half_even x with Some z => Ret z | None => Raise ValueError end
  end.

(** [int(x)]: truncation toward zero. *)
Definition int (x : float) : outcome Z :=
  match x with
  | S754_nan => Raise ValueError
  | S754_infinity _ => Raise OverflowError
  | _ => match F.trunc x with Some z => Ret z | None => Raise ValueError end
  end.

(** [min(a, b)] and [max(a, b)]: the first argument is kept unless the
    second compares strictly better. *)
Definition min (a b : float) : float := if F.ltb b a then b else a.
Definition max (a b : float) : float := if F.ltb a b then b else a.

(** [bool(x)] for a float: [x != 0.0]. *)
Definition truthy (x : float) : bool := negb (F.is_zero x).


(** [format(x, ".2f")]: the exact value rounded to hundredths, ties to
    even. *)
Definition two_digits (n : Z) : string :=
  let s := NilZero.string_of_uint (N.to_uint (Z.to_N n)) in
  if n <? 10 then String "0" s else s.

Definition format_2f (x : float) : string :=
  match x with
  | S754_nan => "nan"
  | S754_infinity s => if s then "-inf" else "inf"
  | S754_zero s => if s then "-0.00" else "0.00"
  | S754_finite s m e =>
      let h := F.nearest_even (100 * Z.pos m) e in
      ((if s then "-" else "") ++ NilZero.string_of_uint (N.to_uint (Z.to_N (h / 100)))
        ++ "." ++ two_digits (h mod 100))%string
  end.

End Py.

(* ===================================================================== *)
(** * Data model (the pydantic models and the loaded datasets) *)
(* ===================================================================== *)

Record LatLng : Type := { lat : float; lng : float }.

Inductive Intervention : Type := road | drain | green | restriction.

Record ScenarioRequest : Type := {
  scenarioName : option string;
  interventionType : Intervention;
  rainfall : Z;
  approxLength : option float;
  lanes : option Z;
  roadPoints : list LatLng;
  origin : option LatLng;
  destination : option LatLng
}.

Record TrafficResult : Type := {
  minutesChange : float;
  baselineMinutes : option float;
  scenarioMinutes : option float
}.

Record FloodResult : Type := {
  baselineHighRiskCells : Z;
  scenarioHighRiskCells : Z;
  baselinePop : Z;
  scenarioPop : Z
}.

Record ScenarioResponse : Type := {
  traffic : TrafficResult;
  flood : FloodResult;
  notes : string
}.

Inductive Severity : Type := low | moderate | high | critical.

(** JSON-serialisable values, and the cells of a GeoDataFrame row: native
    values, numpy scalars (they have an [item()] method) and other objects,
    known by their [str()]. *)
Inductive native : Type :=
  | NNone
  | NBool (b : bool)
  | NInt (z : Z)
  | NFloat (x : float)
  | NStr (s : string).

Inductive cell : Type :=
  | CNative (v : native)
  | CNumpy (item : native)
  | CObject (repr : string).

(** A point geometry, [(x, y) = (lng, lat)]. *)
Record Point : Type := { px : float; py : float }.

(** One row of [flood_points]: its geometry (which may be missing) and its
    other columns. *)
Record Hotspot : Type := {
  geometry : option Point;
  columns : list (string * cell)
}.

Record AlertPoint : Type := {
  ap_lat : option float;
  ap_lng : option float;
  ap_properties : gmap string native
}.

Record Alert : Type := {
  severity : Severity;
  affected_count : Z;
  affected_points : list AlertPoint;
  message : string;
  recommended_actions : list string;
  rainfall_mm : float
}.

(** The road network: a networkx [MultiDiGraph]. Parallel edges are kept
    apart; every edge carries its [travel_time] in seconds. *)
Abbreviation node := Z.

Record Edge : Type := { e_src : node; e_dst : node; travel_time : float }.

Record MultiDiGraph : Type := { g_nodes : list node; g_edges : list Edge }.

(** An overlay edge [(u, v, length_km, speed)]. *)
Definition TempEdge : Type := (node * node * float * float)%type.

(* ===================================================================== *)
(** * The object store and the state-and-exception monad *)
(* ===================================================================== *)

(** Graph objects are mutable and shared by reference. A reference that the
    store does not hold reads as the empty graph; the code only ever uses
    references it got from the store. *)
Abbreviation loc := positive.

Abbreviation store := (gmap loc MultiDiGraph).

Definition M (A : Type) : Type := store -> outcome A * store.

Definition mret {A : Type} (a : A) : M A := fun h => (Ret a, h).

Definition mbind {A B : Type} (c : M A) (k : A -> M B) : M B :=
  fun h =>
    match c h with
    | (Ret a, h') => k a h'
    | (Raise e, h') => (Raise e, h')
    end.

Definition lift {A : Type} (x : outcome A) : M A := fun h => (x, h).

Declare Scope M_scope.
Delimit Scope M_scope with M.
Notation "'do' x <- c ; k" := (mbind c (fun x => k))
  (at level 10, x name, c at level 100, k at level 200) : M_scope.
Notation "'do' ' p <- c ; k" := (mbind c (fun x => match x with p => k end))
  (at level 10, p pattern, c at level 100, k at level 200) : M_scope.

(* ===================================================================== *)
(** * The libraries the backend calls *)
(* ===================================================================== *)

Module Nx.

Definition empty_graph : MultiDiGraph := {| g_nodes := []; g_edges := [] |}.

Definition read (l : loc) : M MultiDiGraph :=
  fun h => (Ret (default empty_graph (h !! l)), h).

(** [len(G)], the number of nodes; a graph is truthy when it has nodes. *)
Definition truthy (g : MultiDiGraph) : bool :=
  match g_nodes g with [] => false | _ :: _ => true end.

Definition has_node (g : MultiDiGraph) (n : node) : bool :=
  existsb (Z.eqb n) (g_nodes g).

Definition with_node (n : node) (ns : list node) : list node :=
  if existsb (Z.eqb n) ns then ns else ns ++ [n].

(** [G.add_edge(u, v, travel_time=t)] on the graph value: the end points
    become nodes when they are not yet, and a new parallel edge is added;
    no existing edge is replaced. *)
Definition with_edge (g : MultiDiGraph) (u v : node) (t : float) : MultiDiGraph :=
  {| g_nodes := with_node v (with_node u (g_nodes g));
     g_edges := g_edges g ++ [ {| e_src := u; e_dst := v; travel_time := t |} ] |}.

(** [G.add_edge(...)] mutates the object [G] refers to. *)
Definition add_edge (G : loc) (u v : node) (t : float) : M unit :=
  fun h => (Ret tt, <[G := with_edge (default empty_graph (h !! G)) u v t]> h).

(** [G.copy()] allocates a new graph object with the same nodes and edges. *)
Definition copy (G : loc) : M loc :=
  fun h =>
    let G' := fresh (dom h) in
    (Ret G', <[G' := default empty_graph (h !! G)]> h).

(** The simple edge paths from [cur] to [tgt] of at most [fuel] edges that
    avoid the nodes of [visited]. *)
Fixpoint simple_paths (fuel : nat) (es : list Edge) (visited : list node)
    (cur tgt : node) : list (list Edge) :=
  if Z.eqb cur tgt then [[]]
  else
    match fuel with
    | O => []
    | S fuel' =>
        flat_map
          (fun e =>
             if Z.eqb (e_src e) cur && negb (existsb (Z.eqb (e_dst e)) visited)
             then map (cons e)
                    (simple_paths fuel' es (e_dst e :: visited) (e_dst e) tgt)
             else [])
          es
    end.

(** [nx.path_weight]: the cost starts at 0 and the travel times are added
    along the route. *)
Definition path_weight (route : list Edge) : float :=
  fold_left (fun cost e => F.add cost (travel_time e)) route F.zero.

(** The least of a list of floats, as Python's [min] finds it. *)
Definition lightest (ws : list float) : option float :=
  match ws with
  | [] => None
  | w :: ws' => Some (fold_left Py.min ws' w)
  end.

(** Modelled from the spec: [nx.shortest_path(G, u, v, weight="travel_time")]
    followed by [nx.path_weight] is networkx code, not code of this
    repository. The contract of section 4.2 is modelled: the accumulated
    travel time of a route of least travel time from [u] to [v], where a
    route may use any of the parallel edges between two nodes; [None] when
    an end point is not a node of [G] or no route exists (networkx raises
    [NodeNotFound] or [NetworkXNoPath]). A simple path has at most as many
    edges as the graph, so that many steps are explored. *)
Definition route_time (g : MultiDiGraph) (u v : node) : option float :=
  if has_node g u && has_node g v then
    lightest
      (map path_weight
         (simple_paths (length (g_edges g)) (g_edges g) [u] u v))
  else None.

End Nx.

Module Shapely.

(** Modelled from the spec: [LineString(coords)] is shapely code. Section
    4.3 states that the buffer query fails when the polyline has fewer than
    2 points; the backend only builds a line from a non-empty path, so the
    failing case is the path of exactly one point. *)
Definition LineString (coords : list Point) : outcome (list Point) :=
  match coords with
  | [_] => Raise GeometryError
  | _ => Ret coords
  end.

End Shapely.

(* ===================================================================== *)
(** * Constants of the source, as binary64 numbers *)
(* ===================================================================== *)

Definition f0_01 : float := Eval vm_compute in F.dec 1 100.
Definition f0_05 : float := Eval vm_compute in F.dec 5 100.
Definition f0_15 : float := Eval vm_compute in F.dec 15 100.
Definition f0_40 : float := Eval vm_compute in F.dec 40 100.
Definition f0_70 : float := Eval vm_compute in F.dec 70 100.
Definition f0_6 : float := Eval vm_compute in F.dec 6 10.
Definition f1 : float := Eval vm_compute in F.of_Z 1.
Definition f2 : float := Eval vm_compute in F.of_Z 2.
Definition f8 : float := Eval vm_compute in F.of_Z 8.
Definition f10 : float := Eval vm_compute in F.of_Z 10.
Definition f12 : float := Eval vm_compute in F.of_Z 12.
Definition f15 : float := Eval vm_compute in F.of_Z 15.
Definition f20 : float := Eval vm_compute in F.of_Z 20.
Definition f25 : float := Eval vm_compute in F.of_Z 25.
Definition f50 : float := Eval vm_compute in F.of_Z 50.
Definition f60 : float := Eval vm_compute in F.of_Z 60.
Definition f100 : float := Eval vm_compute in F.of_Z 100.
Definition f3600 : float := Eval vm_compute in F.of_Z 3600.
Definition f6371 : float := Eval vm_compute in F.of_Z 6371.

(** [math.pi] and the factor of [math.radians]. *)
Definition f_pi : float := S754_finite false 7074237752028440 (-51).
Definition deg_to_rad : float := Eval vm_compute in F.div f_pi (F.of_Z 180).

(* ===================================================================== *)
(** * The backend: helpers *)
(* ===================================================================== *)

Module Main.

Local Open Scope outcome_scope.
Local Open Scope M_scope.

(** [to_native]: [None] stays, a value with an [item()] method is unwrapped,
    a native value is kept, anything else is turned into its [str()]. *)
Definition to_native (value : cell) : native :=
  match value with
  | CNative v => v
  | CNumpy item => item
  | CObject repr => NStr repr
  end.

(** [row.items()] without the geometry column, which [row_properties_safe]
    skips; later columns of the same name overwrite earlier ones. *)
Definition row_properties_safe (row : Hotspot) : gmap string native :=
  fold_left (fun d kv => <[fst kv := to_native (snd kv)]> d) (columns row) ∅.

Definition classify_severity (rainfall_mm : float) : Severity :=
  if F.ltb rainfall_mm f10 then low
  else if F.ltb rainfall_mm f25 then moderate
  else if F.ltb rainfall_mm f50 then high
  else critical.

Section Backend.

(** The two datasets loaded at start-up: [None] when loading failed. *)
Variable flood_points : option (list Hotspot).
Variable road_graph : option loc.

(** The C library's [sin], [cos], [atan2] and [pow]. *)
Variables m_sin m_cos : float -> float.
Variables m_atan2 m_pow : float -> float -> float.

(** [ox.distance.nearest_nodes(G, X=[lng], Y=[lat])[0]]; [None] stands for
    any exception the call raises. *)
Variable ox_nearest_nodes : MultiDiGraph -> float -> float -> option node.

(** Membership of a hotspot in the region [to_crs(3857).buffer(r).to_crs(4326)]
    around a line, and in the window [pts.cx[minx:maxx, miny:maxy]]. *)
Variable within_buffer : list Point -> Z -> Hotspot -> bool.
Variable cx : float -> float -> float -> float -> Hotspot -> bool.

(** [math.sin], [math.cos]: a domain error at an infinity. *)
Definition math_sin (x : float) : outcome float :=
  match x with S754_infinity _ => Raise ValueError | _ => Ret (m_sin x) end.

Definition math_cos (x : float) : outcome float :=
  match x with S754_infinity _ => Raise ValueError | _ => Ret (m_cos x) end.

(** [math.sqrt]: a domain error below zero. *)
Definition math_sqrt (x : float) : outcome float :=
  if F.ltb x F.zero then Raise ValueError else Ret (F.sqrt x).

(** [x ** 2] on a float: an overflow of a finite base raises. *)
Definition square (x : float) : outcome float :=
  let r := m_pow x f2 in
  match r with
  | S754_infinity _ => if F.is_finite x then Raise OverflowError else Ret r
  | _ => Ret r
  end.

Definition radians (x : float) : float := F.mul x deg_to_rad.

Definition distance_km (a b : LatLng) : outcome float :=
  let R := f6371 in
  let dlat := radians (F.sub (lat b) (lat a)) in
  let dlon := radians (F.sub (lng b) (lng a)) in
  let lat1 := radians (lat a) in
  let lat2 := radians (lat b) in
  let! s1 := math_sin (F.div dlat f2) in
  let! s1q := square s1 in
  let! c1 := math_cos lat1 in
  let! c2 := math_cos lat2 in
  let! s2 := math_sin (F.div dlon f2) in
  let! s2q := square s2 in
  let h := F.add s1q (F.mul (F.mul c1 c2) s2q) in
  let! rh := math_sqrt h in
  let! r1h := math_sqrt (F.sub f1 h) in
  let c := F.mul f2 (m_atan2 rh r1h) in
  Ret (F.mul R c).

(** The loop of [compute_length_from_points]: [total += distance_km(prev, p)]
    for each further point [p]. *)
Fixpoint sum_segments (total : float) (prev : LatLng) (rest : list LatLng)
    : outcome float :=
  match rest with
  | [] => Ret total
  | p :: rest' =>
      let! d := distance_km prev p in
      sum_segments (F.add total d) p rest'
  end.

Definition compute_length_from_points (points : list LatLng) : outcome float :=
  match points with
  | [] | [_] => Ret F.zero
  | p0 :: rest => sum_segments F.zero p0 rest
  end.

Definition nearest_node (lat lng : float) : M (option node) :=
  match road_graph with
  | None => mret None
  | Some rg => do g <- Nx.read rg; mret (ox_nearest_nodes g lng lat)
  end.

(** The loop of [compute_od_time] over the overlay edges. *)
Fixpoint add_temp_edges (G : loc) (temp_edges : list TempEdge) : M unit :=
  match temp_edges with
  | [] => mret tt
  | (u, v, length_km, speed) :: rest =>
      do q <- lift (Py.truediv length_km speed);
      let t := F.mul q f3600 in
      do _ <- Nx.add_edge G u v t;
      do _ <- Nx.add_edge G v u t;
      add_temp_edges G rest
  end.

(** [temp_edges=None] and the empty list are both falsy: the empty list
    stands for both. *)
Definition compute_od_time (origin dest : LatLng) (temp_edges : list TempEdge)
    : M (option float) :=
  match road_graph with
  | None => mret None
  | Some rg =>
      do G <- Nx.copy rg;
      do _ <- add_temp_edges G temp_edges;
      do u <- nearest_node (lat origin) (lng origin);
      do v <- nearest_node (lat dest) (lng dest);
      match u, v with
      | Some u, Some v => do g <- Nx.read G; mret (Nx.route_time g u v)
      | _, _ => mret None
      end
  end.

(* ===================================================================== *)
(** * The backend: alerts *)
(* ===================================================================== *)

Definition messages (s : Severity) : string :=
  match s with
  | low => "Low flood risk."
  | moderate => "Moderate risk — localized hotspots possible."
  | high => "High risk — many hotspots likely to be affected."
  | critical => "Critical risk — widespread inundation possible."
  end.

Definition actions (s : Severity) : list string :=
  match s with
  | low => ["Monitor rainfall trends"]
  | moderate => ["Prepare pumps and alert local teams"]
  | high => ["Issue city-wide advisories"; "Mobilize maintenance teams"]
  | critical => ["Activate emergency operations"; "Prepare evacuations"]
  end%string.

(** The fraction of hotspots a rainfall activates. *)
Definition activation_fraction (rainfall_mm : float) : float :=
  if F.ltb rainfall_mm f10 then f0_05
  else if F.ltb rainfall_mm f25 then f0_15
  else if F.ltb rainfall_mm f50 then f0_40
  else if F.ltb rainfall_mm f100 then f0_70
  else f1.

(** The body of the loop over the affected rows. *)
Definition out_point (row : Hotspot) : AlertPoint :=
  {| ap_lat := option_map py (geometry row);
     ap_lng := option_map px (geometry row);
     ap_properties := row_properties_safe row |}.

(** [pts = flood_points], restricted to the window when [bbox] is a list of
    four numbers. *)
Definition restrict (pts : list Hotspot) (bbox : option (list float))
    : list Hotspot :=
  match bbox with
  | Some [minx; miny; maxx; maxy] => List.filter (cx minx maxx miny maxy) pts
  | _ => pts
  end.

Definition generate_alert_from_rainfall (rainfall_mm : float)
    (bbox : option (list float)) : outcome Alert :=
  match flood_points with
  | None => Raise (RuntimeError "Flood points dataset not loaded on server.")
  | Some all_pts =>
      let pts := restrict all_pts bbox in
      let total := Z.of_nat (length pts) in
      if total =? 0 then
        Ret {| severity := low;
               affected_count := 0;
               affected_points := [];
               message := "No known hotspots for selected area.";
               recommended_actions := ["Monitor rainfall"%string];
               rainfall_mm := rainfall_mm |}
      else
        let frac := activation_fraction rainfall_mm in
        let! ftotal := Py.float_of_int total in
        let! n := Py.int (F.mul ftotal frac) in
        let affected_count := Z.max 1 n in
        let affected := firstn (Z.to_nat affected_count) pts in
        let out_points := map out_point affected in
        let severity := classify_severity rainfall_mm in
        Ret {| severity := severity;
               affected_count := affected_count;
               affected_points := out_points;
               message := messages severity;
               recommended_actions := actions severity;
               rainfall_mm := rainfall_mm |}
  end.

(* ===================================================================== *)
(** * The backend: scenario simulation *)
(* ===================================================================== *)

(** [req.approxLength or compute_length_from_points(req.roadPoints)]. *)
Definition intervention_length (req : ScenarioRequest) : outcome float :=
  match approxLength req with
  | Some x =>
      if Py.truthy x then Ret x
      else compute_length_from_points (roadPoints req)
  | None => compute_length_from_points (roadPoints req)
  end.

(** [req.lanes or 1]. *)
Definition lane_count (req : ScenarioRequest) : Z :=
  match lanes req with
  | Some n => if n =? 0 then 1 else n
  | None => 1
  end.

(** The [else] branch of the traffic block: the heuristic change. *)
Definition heuristic_minutes (req : ScenarioRequest) (length_km : float)
    (lanes : Z) : outcome float :=
  let! flanes := Py.float_of_int lanes in
  let minutes_change :=
    F.opp (Py.min f20 (F.mul (F.mul length_km flanes) f0_6)) in
  match interventionType req with
  | restriction => Ret (F.div (F.abs minutes_change) f2)
  | _ => Ret minutes_change
  end.

(** [bool(road_graph)]. *)
Definition road_graph_truthy : M bool :=
  match road_graph with
  | None => mret false
  | Some rg => do g <- Nx.read rg; mret (Nx.truthy g)
  end.

(** The scenario time of the traffic block: the baseline time unless the
    path is non-empty, the road graph is non-empty and both ends of the path
    resolve to nodes. *)
Definition scenario_seconds (req : ScenarioRequest) (o d : LatLng)
    (length_km : float) (base_sec : option float) : M (option float) :=
  match roadPoints req with
  | [] => mret base_sec
  | p0 :: rest =>
      do truthy <- road_graph_truthy;
      if truthy then
        let pn := List.last rest p0 in
        do u <- nearest_node (lat p0) (lng p0);
        do v <- nearest_node (lat pn) (lng pn);
        match u, v with
        | Some u, Some v => compute_od_time o d [(u, v, length_km, f60)]
        | _, _ => mret base_sec
        end
      else mret base_sec
  end.

(** The traffic block: [(minutes_change, baseline_minutes, scenario_minutes)]. *)
Definition traffic_model (req : ScenarioRequest) (length_km : float) (lanes : Z)
    : M (float * option float * option float) :=
  match origin req, destination req with
  | Some o, Some d =>
      do base_sec <- compute_od_time o d [];
      do scen_sec <- scenario_seconds req o d length_km base_sec;
      match base_sec, scen_sec with
      | Some b, Some s =>
          let baseline_minutes := F.div b f60 in
          let scenario_minutes := F.div s f60 in
          mret (F.sub scenario_minutes baseline_minutes,
                Some baseline_minutes, Some scenario_minutes)
      | _, _ =>
          do minutes_change <- lift (heuristic_minutes req length_km lanes);
          mret (minutes_change, None, None)
      end
  | _, _ => mret (F.zero, None, None)
  end.

Definition baseline_cells : Z := 1000.
Definition baseline_pop : Z := 500000.

(** The spatial branch of the flood block. *)
Definition spatial_delta (req : ScenarioRequest) (pts : list Hotspot)
    : outcome Z :=
  let! line := Shapely.LineString
                 (map (fun p => {| px := lng p; py := lat p |}) (roadPoints req)) in
  let affected := List.filter (within_buffer line 100) pts in
  let affected_count := Z.of_nat (length affected) in
  Ret match interventionType req with
      | road => affected_count
      | drain => - 2 * affected_count
      | green => - affected_count
      | restriction => - 2 * affected_count
      end.

(** The length-based fallback of the flood block. *)
Definition fallback_delta (req : ScenarioRequest) (length_km : float)
    : outcome Z :=
  let! frain := Py.float_of_int (rainfall req) in
  let rf := Py.max f0_01 (F.div frain f100) in
  match interventionType req with
  | road => Py.round (F.mul (F.mul length_km rf) f10)
  | drain => let! r := Py.round (F.mul (F.mul length_km rf) f15) in Ret (- r)
  | green => let! r := Py.round (F.mul (F.mul length_km rf) f8) in Ret (- r)
  | restriction =>
      let! r := Py.round (F.mul (F.mul length_km rf) f12) in Ret (- r)
  end.

Definition delta_cells (req : ScenarioRequest) (length_km : float) : outcome Z :=
  match flood_points, roadPoints req with
  | Some pts, _ :: _ => spatial_delta req pts
  | _, _ => fallback_delta req length_km
  end.

(** The flood block: [(scenario_cells, scenario_pop)]. *)
Definition flood_model (req : ScenarioRequest) (length_km : float)
    : outcome (Z * Z) :=
  let! delta := delta_cells req length_km in
  let scenario_cells := Z.max 0 (baseline_cells + delta) in
  let! ratio := Py.int_truediv scenario_cells baseline_cells in
  let! scenario_pop := Py.int (F.mul (F.of_Z baseline_pop) ratio) in
  Ret (scenario_cells, scenario_pop).

Definition simulate (req : ScenarioRequest) : M ScenarioResponse :=
  do length_km <- lift (intervention_length req);
  let lanes := lane_count req in
  do '(minutes_change, baseline_minutes, scenario_minutes) <-
    traffic_model req length_km lanes;
  do '(scenario_cells, scenario_pop) <- lift (flood_model req length_km);
  let notes :=
    ("Intervention length " ++ Py.format_2f length_km ++ " km.")%string in
  mret {| traffic := {| minutesChange := minutes_change;
                        baselineMinutes := baseline_minutes;
                        scenarioMinutes := scenario_minutes |};
          flood := {| baselineHighRiskCells := baseline_cells;
                      scenarioHighRiskCells := scenario_cells;
                      baselinePop := baseline_pop;
                      scenarioPop := scenario_pop |};
          notes := notes |}.

End Backend.

End Main.

Import Main.

(* ===================================================================== *)
(** * The backend: the rainfall forecast *)
(* ===================================================================== *)

(** A number of the JSON feed, or [null]. *)
Inductive jnum : Type :=
  | JNull
  | JInt (n : Z)
  | JFloat (x : float).

(** The answer of the forecast service as [r.json()] gives it: the [hourly]
    object and its [time] and [rain] arrays, each possibly missing. *)
Record Hourly : Type := {
  h_time : option (list string);
  h_rain : option (list jnum)
}.

Record ForecastData : Type := { hourly : option Hourly }.

(** A [datetime]: its wall clock in microseconds and, for an aware one, the
    offset of its time zone from UTC. *)
Record datetime : Type := { wall : Z; utcoffset : option Z }.

(** The instant of an aware [datetime]; aware datetimes compare by it. *)
Definition instant (dt : datetime) : Z := wall dt - default 0 (utcoffset dt).

(** What a call can raise: a built-in exception, or an error of the HTTP
    request ([requests.get], [raise_for_status], [r.json()]) with its
    [str()]. *)
Inductive raised : Type :=
  | Builtin (e : exn)
  | RequestError (detail : string).

Inductive attempt (A : Type) : Type :=
  | Got (a : A)
  | Failed (r : raised).
Arguments Got {A} a.
Arguments Failed {A} r.

Definition of_outcome {A : Type} (x : outcome A) : attempt A :=
  match x with
  | Ret a => Got a
  | Raise e => Failed (Builtin e)
  end.

(** Code that sends HTTP requests: the state is the number of requests sent
    so far. *)
Definition IO (A : Type) : Type := nat -> attempt A * nat.

Definition io_ret {A : Type} (a : A) : IO A := fun n => (Got a, n).

Definition io_bind {A B : Type} (c : IO A) (k : A -> IO B) : IO B :=
  fun n =>
    match c n with
    | (Got a, n') => k a n'
    | (Failed r, n') => (Failed r, n')
    end.

(** What the endpoint [/api/flood/forecast] answers: the dictionary of the
    alerts by horizon, or a JSON response with a status code and a detail. *)
Inductive ForecastResponse : Type :=
  | Forecasts (out : list (string * Alert))
  | JSONResponse (status_code : Z) (detail : string).

Module Forecast.

Local Open Scope outcome_scope.

Section Forecast.

Variable flood_points : option (list Hotspot).
Variable cx : float -> float -> float -> float -> Hotspot -> bool.

(** The request sent as the [n]-th one, [requests.get(url, params, timeout)]
    followed by [raise_for_status()] and [json()], and the clock read after
    it, [datetime.now(timezone.utc)]. *)
Variable http_get : nat -> float -> float -> attempt ForecastData.
Variable utcnow : nat -> datetime.

(** [datetime.fromisoformat]; [None] stands for the exception it raises. *)
Variable fromisoformat : string -> option datetime.

(** [str(e)] for the built-in exceptions other than [RuntimeError]. *)
Variable builtin_str : exn -> string.

(** [float(rr or 0.0)]. *)
Definition rain_value (rr : jnum) : outcome float :=
  match rr with
  | JNull => Ret F.zero
  | JInt n => if n =? 0 then Ret F.zero else Py.float_of_int n
  | JFloat x => if Py.truthy x then Ret x else Ret F.zero
  end.

(** [dt.replace(tzinfo=timezone.utc)] for a naive [dt]. *)
Definition as_utc (dt : datetime) : datetime :=
  match utcoffset dt with
  | None => {| wall := wall dt; utcoffset := Some 0 |}
  | Some _ => dt
  end.

(** The loop of [get_forecast_rainfall] over [zip(times, rains)]. *)
Fixpoint sum_rain (now : datetime) (hours : Z) (total : float) (count : Z)
    (samples : list (string * jnum)) : outcome float :=
  match samples with
  | [] => Ret total
  | (t_str, rr) :: rest =>
      match fromisoformat t_str with
      | None => sum_rain now hours total count rest
      | Some dt =>
          let dt := as_utc dt in
          if (instant now <=? instant dt) && (count <? hours) then
            let! x := rain_value rr in
            sum_rain now hours (F.add total x) (count + 1) rest
          else sum_rain now hours total count rest
      end
  end.

(** [get_forecast_rainfall] from [data = r.json()] on. *)
Definition rain_total (data : ForecastData) (now : datetime) (hours : Z)
    : outcome float :=
  let hourly := default {| h_time := None; h_rain := None |} (hourly data) in
  let times := default [] (h_time hourly) in
  let rains := default [] (h_rain hourly) in
  match times, rains with
  | [], _ | _, [] => Ret F.zero
  | _, _ => sum_rain now hours F.zero 0 (combine times rains)
  end.

Definition get_forecast_rainfall (lat lng : float) (hours : Z) : IO float :=
  fun n =>
    match http_get n lat lng with
    | Failed r => (Failed r, S n)
    | Got data => (of_outcome (rain_total data (utcnow n) hours), S n)
    end.

Definition horizons : list (string * Z) :=
  [("day1", 24); ("day2", 48); ("day3", 72)]%string.

Definition city_lat : float := Eval vm_compute in F.dec 17385 1000.
Definition city_lng : float := Eval vm_compute in F.dec 784867 10000.

(** The loop of [flood_forecast] over the horizons. *)
Fixpoint forecast_days (hs : list (string * Z)) (out : list (string * Alert))
    : IO (list (string * Alert)) :=
  match hs with
  | [] => io_ret out
  | (key, hrs) :: rest =>
      io_bind (get_forecast_rainfall city_lat city_lng hrs) (fun rainfall =>
      io_bind (fun n =>
                 (of_outcome
                    (Main.generate_alert_from_rainfall flood_points cx rainfall None),
                  n))
              (fun alert => forecast_days rest (out ++ [(key, alert)])))
  end.

(** [str(e)]. *)
Definition str_raised (r : raised) : string :=
  match r with
  | Builtin (RuntimeError msg) => msg
  | Builtin e => builtin_str e
  | RequestError detail => detail
  end.

Definition flood_forecast : nat -> ForecastResponse * nat :=
  fun n =>
    match forecast_days horizons [] n with
    | (Got out, n') => (Forecasts out, n')
    | (Failed r, n') => (JSONResponse 500 (str_raised r), n')
    end.

End Forecast.

End Forecast.

Import Forecast.

(** Functional update of the request's explicit length. *)
Definition with_length (req : ScenarioRequest) (l : option float) : ScenarioRequest :=
  {| scenarioName := scenarioName req;
     interventionType := interventionType req;
     rainfall := rainfall req;
     approxLength := l;
     lanes := lanes req;
     roadPoints := roadPoints req;
     origin := origin req;
     destination := destination req |}.

(** The value of the traffic heuristic:
    [-min(20, length_km * lanes * 0.6)], and for a restriction its absolute
    value halved. *)
Definition heuristic_value (kind : Intervention) (length_km : float) (lanes : Z)
    : float :=
  let m := F.opp (Py.min f20 (F.mul (F.mul length_km (F.of_Z lanes)) f0_6)) in
  match kind with
  | restriction => F.div (F.abs m) f2
  | _ => m
  end.

(** The risk-cell change of the spatial branch for [count] hotspots. *)
Definition signed_count (kind : Intervention) (count : Z) : Z :=
  match kind with
  | road => count
  | drain => - 2 * count
  | green => - count
  | restriction => - 2 * count
  end.

(** The factor [k] of the length-based fallback. *)
Definition fallback_factor (kind : Intervention) : float :=
  match kind with
  | road => f10
  | drain => f15
  | green => f8
  | restriction => f12
  end.

(** The graph a copy of [g] becomes once the overlay edges are added: each
    overlay contributes its edge and the reverse edge, with the same travel
    time. *)
Definition overlay_time (te : TempEdge) : float :=
  let '(_, _, length_km, speed) := te in F.mul (F.div length_km speed) f3600.

Definition with_overlay (g : MultiDiGraph) (temp_edges : list TempEdge)
    : MultiDiGraph :=
  fold_left
    (fun g te =>
       let '(u, v, _, _) := te in
       Nx.with_edge (Nx.with_edge g u v (overlay_time te)) v u (overlay_time te))
    temp_edges g.

Definition overlay_edges (temp_edges : list TempEdge) : list Edge :=
  flat_map
    (fun te =>
       let '(u, v, _, _) := te in
       [ {| e_src := u; e_dst := v; travel_time := overlay_time te |};
         {| e_src := v; e_dst := u; travel_time := overlay_time te |} ])
    temp_edges.

Definition speed_of (te : TempEdge) : float := snd te.

Definition valid_overlay (te : TempEdge) : bool :=
  let '(_, _, length_km, speed) := te in F.nonneg length_km && F.pos_finite speed.

(** [route es u v p]: the edges of [p] are edges of [es] and lead, one
    after the other, from [u] to [v]. *)
Fixpoint route (es : list Edge) (u v : node) (p : list Edge) : Prop :=
  match p with
  | [] => u = v
  | e :: p' => In e es /\ e_src e = u /\ route es (e_dst e) v p'
  end.

(** A route from [u] is simple when it enters no node twice and never comes
    back to [u]. *)
Definition simple_route (u : node) (p : list Edge) : Prop :=
  List.NoDup (u :: map e_dst p).

(** An order on optional travel times in which no route is the longest. *)
Definition time_le (a b : option float) : Prop :=
  match b with
  | None => True
  | Some tb => exists ta, a = Some ta /\ F.leb ta tb = true
  end.

(* ===================================================================== *)
(** * A concrete deployment, for the examples *)
(* ===================================================================== *)

(** The activation fraction as the spec writes it, in hundredths: below 10
    mm 0.05, below 25 mm 0.15, below 50 mm 0.40, below 100 mm 0.70, else
    1.0. *)
Definition fraction_percent (rainfall_mm : float) : Z :=
  if F.ltb rainfall_mm f10 then 5
  else if F.ltb rainfall_mm f25 then 15
  else if F.ltb rainfall_mm f50 then 40
  else if F.ltb rainfall_mm f100 then 70
  else 100.

(** The affected count as the spec writes it, [max(1, floor(total * fraction))],
    the floor taken of the exact product. *)
Definition spec_affected_count (total : Z) (rainfall_mm : float) : Z :=
  Z.max 1 (total * fraction_percent rainfall_mm / 100).

Module LibmExample.

(** A C library cut down to small angles: the sine of an angle is the
    angle, the cosine of a finite angle is 1 and of anything else a NaN, the
    square is the product and the arc tangent of [y / x] is [y]. *)
Definition sin (x : float) : float := x.
Definition cos (x : float) : float := if F.is_finite x then f1 else S754_nan.
Definition pow (x y : float) : float := F.mul x x.
Definition atan2 (y x : float) : float := y.

End LibmExample.

Module Example.

(** The examples give an explicit length or a path of fewer than two
    points, so the C library is never reached. *)
Definition libm1 (x : float) : float := S754_nan.
Definition libm2 (x y : float) : float := S754_nan.

(** A resolver in the manner of osmnx: it refuses a NaN coordinate and an
    empty graph; west of longitude 10 it answers node 1, else node 2. *)
Definition resolver (g : MultiDiGraph) (x y : float) : option node :=
  if F.is_nan x || F.is_nan y then None
  else if Nx.truthy g then (if F.ltb x f10 then Some 1 else Some 2)
  else None.

(** A hotspot is within the buffer of a line when it sits on a vertex of
    the line. *)
Definition on_vertex (line : list Point) (r : Z) (h : Hotspot) : bool :=
  match geometry h with
  | Some p => existsb (fun q => F.eqb (px q) (px p) && F.eqb (py q) (py p)) line
  | None => false
  end.

(** The window of [pts.cx]: the points between the bounds, bounds included. *)
Definition window (minx maxx miny maxy : float) (h : Hotspot) : bool :=
  match geometry h with
  | Some p =>
      F.leb minx (px p) && F.leb (px p) maxx &&
      F.leb miny (py p) && F.leb (py p) maxy
  | None => false
  end.

Definition place (la lo : Z) : LatLng := {| lat := F.of_Z la; lng := F.of_Z lo |}.

Definition hotspot (i : Z) : Hotspot :=
  {| geometry := Some {| px := F.of_Z i; py := F.of_Z 17 |};
     columns := [("id"%string, CNumpy (NInt i)); ("name"%string, CNative (NStr "nala"))] |}.

Definition hotspots (n : nat) : list Hotspot := map hotspot (map Z.of_nat (seq 0 n)).

(** Two nodes and one edge of 1000 seconds from node 1 to node 2. *)
Definition two_nodes : MultiDiGraph :=
  {| g_nodes := [1; 2];
     g_edges := [ {| e_src := 1; e_dst := 2; travel_time := F.of_Z 1000 |} ] |}.

Definition rg : loc := 1%positive.
Definition heap : store := {[ rg := two_nodes ]}.

Definition alert (pts : option (list Hotspot)) :=
  generate_alert_from_rainfall pts window.

Definition od_time (g : option loc) := compute_od_time g resolver.

Definition run (pts : option (list Hotspot)) (g : option loc) :=
  simulate pts g libm1 libm1 libm2 libm2 resolver on_vertex.

Definition request (kind : Intervention) (rain : Z) (len : option float)
    (path : list LatLng) (od : option (LatLng * LatLng)) : ScenarioRequest :=
  {| scenarioName := None;
     interventionType := kind;
     rainfall := rain;
     approxLength := len;
     lanes := Some 2;
     roadPoints := path;
     origin := option_map fst od;
     destination := option_map snd od |}.

(** A drain along one degree of latitude, sent with an explicit length of
    0.0, an origin and a destination; and the backend without datasets on
    the small-angle C library. *)
Definition meridian_request : ScenarioRequest :=
  request drain 40 (Some F.zero) [place 17 78; place 18 78]
    (Some (place 17 0, place 17 20)).

Definition run_small_angle :=
  simulate None None LibmExample.sin LibmExample.cos LibmExample.atan2
    LibmExample.pow resolver on_vertex.

Definition length_small_angle :=
  compute_length_from_points LibmExample.sin LibmExample.cos LibmExample.atan2
    LibmExample.pow.

End Example.

(* ===================================================================== *)
(** * Further notions for the properties below *)
(* ===================================================================== *)

(** The tiers of severity in their order. *)
Definition severity_rank (s : Severity) : Z :=
  match s with
  | low => 0
  | moderate => 1
  | high => 2
  | critical => 3
  end.

(** The last value a column list gives to a key. *)
Fixpoint last_value (k : string) (cols : list (string * cell)) : option cell :=
  match cols with
  | [] => None
  | (k', v) :: rest =>
      match last_value k rest with
      | Some v' => Some v'
      | None => if String.eqb k' k then Some v else None
      end
  end.

(** The samples of a feed that count at [now]: those whose time stamp reads
    and is not before [now]. *)
Definition eligible (fromisoformat : string -> option datetime) (now : datetime)
    (samples : list (string * jnum)) : list jnum :=
  flat_map
    (fun s =>
       match fromisoformat (fst s) with
       | Some dt => if instant now <=? instant (as_utc dt) then [snd s] else []
       | None => []
       end)
    samples.

(** The values of a list of samples added up from [total], in order. *)
Fixpoint sum_values (total : float) (vals : list jnum) : outcome float :=
  match vals with
  | [] => Ret total
  | rr :: rest =>
      obind (rain_value rr) (fun x => sum_values (F.add total x) rest)
  end.

(** The samples of a feed, [zip(times, rains)], missing keys read as empty. *)
Definition samples_of (data : ForecastData) : list (string * jnum) :=
  match hourly data with
  | Some h => combine (default [] (h_time h)) (default [] (h_rain h))
  | None => []
  end.

(** A rain value that is a non-negative number within the floats. *)
Definition rain_ok (rr : jnum) : bool :=
  match rr with
  | JNull => true
  | JInt n => (0 <=? n) && (n <? 2 ^ 1023)
  | JFloat x => F.nonneg x
  end.

Module ForecastExample.

(** Time stamps of the form ["h"], the hour [h] of the day as one digit,
    without time zone; anything else does not read. *)
Definition read_hour (s : string) : option datetime :=
  match s with
  | String c EmptyString =>
      let d := Z.of_nat (nat_of_ascii c) - 48 in
      if (0 <=? d) && (d <=? 9)
      then Some {| wall := d * 3600000000; utcoffset := None |}
      else None
  | _ => None
  end.

Definition noon_minus (h : Z) : datetime :=
  {| wall := h * 3600000000; utcoffset := Some 0 |}.

Definition feed : ForecastData :=
  {| hourly := Some {| h_time := Some ["1"; "2"; "x"; "3"; "4"]%string;
                       h_rain := Some [JFloat (F.of_Z 9); JFloat (F.of_Z 1);
                                       JFloat (F.of_Z 7); JNull; JInt 2] |} |}.

(** Every request is answered with [feed] and the clock stands at 2
    o'clock. *)
Definition service (n : nat) (lat lng : float) : attempt ForecastData := Got feed.
Definition down (n : nat) (lat lng : float) : attempt ForecastData :=
  Failed (RequestError "503 Server Error").
Definition clock (n : nat) : datetime := noon_minus 2.
Definition no_str (e : exn) : string := "".

End ForecastExample.

(** A float above zero: positive and finite, or the positive infinity. *)
Definition above_zero (y : float) : bool :=
  match y with
  | S754_finite false _ _ | S754_infinity false => true
  | _ => false
  end.

(** A feed whose rain values are all non-negative numbers within the
    floats, or [null]. *)
Definition feed_ok (data : ForecastData) : Prop :=
  Forall (fun s => rain_ok (snd s) = true) (samples_of data).
(* ===================================================================== *)
(** * Evaluation of the program on closed inputs *)
(* ===================================================================== *)

(** Runs the program of a goal [exists r, prog = Ret r /\ _] and gives the
    value it returns. *)
Ltac returns_value :=
  match goal with
  | |- exists r, ?prog = Ret r /\ _ =>
      let v := eval vm_compute in prog in
      match v with
      | Ret ?a => exists a; split; [vm_compute; reflexivity|]
      end
  end.

(** Runs the program of a goal [exists r, prog = (Ret r, h) /\ _] and gives
    the value it returns. *)
Ltac returns_response :=
  match goal with
  | |- exists r, ?prog = (Ret r, ?h) /\ _ =>
      let v := eval vm_compute in (fst prog) in
      match v with
      | Ret ?a => exists a; split; [vm_compute; reflexivity|]
      end
  end.

(* ===================================================================== *)
(** * The order of the floats *)
(* ===================================================================== *)

Module FOrder.

Lemma compare_key (x y : float) :
  F.is_nan x = false -> F.is_nan y = false ->
  SFcompare x y = Some (F.lex (F.key x) (F.key y)).
Proof.
  destruct x as [sx|sx| |sx mx ex], y as [sy|sy| |sy my ey];
    try discriminate; intros _ _;
    try (destruct sx; reflexivity); try (destruct sy; reflexivity);
    try (destruct sx, sy; reflexivity).
  destruct sx, sy; try reflexivity; unfold F.lex; cbn.
  rewrite Z.compare_opp, (Z.compare_antisym ex ey).
  destruct (ex ?= ey); reflexivity.
Qed.

Lemma ltb_key (x y : float) :
  F.ltb x y = true <->
  F.is_nan x = false /\ F.is_nan y = false /\ F.lex (F.key x) (F.key y) = Lt.
Proof.
  unfold F.ltb, SFltb.
  destruct (F.is_nan x) eqn:Hx; [destruct x; try discriminate; cbn; intuition discriminate|].
  destruct (F.is_nan y) eqn:Hy;
    [destruct x, y; try discriminate; cbn; intuition discriminate|].
  rewrite (compare_key _ _ Hx Hy).
  destruct (F.lex _ _); intuition (auto; discriminate).
Qed.

Lemma leb_key (x y : float) :
  F.leb x y = true <->
  F.is_nan x = false /\ F.is_nan y = false /\ F.lex (F.key x) (F.key y) <> Gt.
Proof.
  unfold F.leb, SFleb.
  destruct (F.is_nan x) eqn:Hx; [destruct x; try discriminate; cbn; intuition discriminate|].
  destruct (F.is_nan y) eqn:Hy;
    [destruct x, y; try discriminate; cbn; intuition discriminate|].
  rewrite (compare_key _ _ Hx Hy).
  destruct (F.lex _ _); intuition (auto; try discriminate; congruence).
Qed.

(** [lex] is the lexicographic order of triples of integers. *)
Lemma lex_Lt (a b : Z * Z * Z) :
  F.lex a b = Lt <->
  fst (fst a) < fst (fst b) \/
  (fst (fst a) = fst (fst b) /\
   (snd (fst a) < snd (fst b) \/ (snd (fst a) = snd (fst b) /\ snd a < snd b))).
Proof.
  unfold F.lex.
  destruct (Z.compare_spec (fst (fst a)) (fst (fst b)));
    destruct (Z.compare_spec (snd (fst a)) (snd (fst b)));
    destruct (Z.compare_spec (snd a) (snd b));
    split; intros; try discriminate; try reflexivity; lia.
Qed.

Lemma lex_Gt (a b : Z * Z * Z) : F.lex a b = Gt <-> F.lex b a = Lt.
Proof.
  rewrite lex_Lt. unfold F.lex.
  destruct (Z.compare_spec (fst (fst a)) (fst (fst b)));
    destruct (Z.compare_spec (snd (fst a)) (snd (fst b)));
    destruct (Z.compare_spec (snd a) (snd b));
    split; intros; try discriminate; try reflexivity; lia.
Qed.

Lemma ltb_false_leb (x y : float) :
  F.is_nan x = false -> F.is_nan y = false -> F.ltb x y = false -> F.leb y x = true.
Proof.
  intros Hx Hy H. apply leb_key. repeat split; auto.
  rewrite lex_Gt. intros Hlt.
  assert (F.ltb x y = true) by (apply ltb_key; auto). congruence.
Qed.

Lemma leb_ltb_false (x y : float) : F.leb x y = true -> F.ltb y x = false.
Proof.
  intros H. apply leb_key in H as (Hx & Hy & H).
  destruct (F.ltb y x) eqn:E; [|reflexivity].
  apply ltb_key in E as (_ & _ & E). apply lex_Gt in E. contradiction.
Qed.

Lemma leb_refl (x : float) : F.is_nan x = false -> F.leb x x = true.
Proof.
  intros Hx. apply leb_key. repeat split; auto.
  rewrite lex_Gt, lex_Lt. lia.
Qed.

Lemma leb_trans (x y z : float) :
  F.leb x y = true -> F.leb y z = true -> F.leb x z = true.
Proof.
  rewrite !leb_key, !lex_Gt, !lex_Lt.
  intros (Hx & Hy & H1) (_ & Hz & H2). repeat split; auto. lia.
Qed.

Lemma ltb_leb_trans (x y z : float) :
  F.ltb x y = true -> F.leb y z = true -> F.ltb x z = true.
Proof.
  rewrite !ltb_key, !leb_key, !lex_Gt, !lex_Lt.
  intros (Hx & Hy & H1) (_ & Hz & H2). repeat split; auto. lia.
Qed.

Lemma ltb_leb (x y : float) : F.ltb x y = true -> F.leb x y = true.
Proof.
  rewrite ltb_key, leb_key, lex_Gt, !lex_Lt.
  intros (Hx & Hy & H1). repeat split; auto. lia.
Qed.

Lemma leb_not_nan (x y : float) :
  F.leb x y = true -> F.is_nan x = false /\ F.is_nan y = false.
Proof. rewrite leb_key. tauto. Qed.

Lemma leb_ltb_trans (x y z : float) :
  F.leb x y = true -> F.ltb y z = true -> F.ltb x z = true.
Proof.
  rewrite !ltb_key, !leb_key, !lex_Gt, !lex_Lt.
  intros (Hx & Hy & H1) (_ & Hz & H2). repeat split; auto. lia.
Qed.

Lemma ltb_total (x y : float) :
  F.is_nan x = false -> F.is_nan y = false ->
  F.ltb x y = true \/ F.leb y x = true.
Proof.
  intros Hx Hy. destruct (F.ltb x y) eqn:E; [now left|right].
  now apply ltb_false_leb.
Qed.

(** Negation turns the order around. *)
Lemma leb_opp (x y : float) :
  F.leb x y = true -> F.leb (F.opp y) (F.opp x) = true.
Proof.
  assert (Hk : forall z, F.key (F.opp z) =
                         (- fst (fst (F.key z)), - snd (fst (F.key z)), - snd (F.key z))).
  { intros [s|s| |s m e]; try destruct s; cbn; try reflexivity;
      now rewrite ?Z.opp_involutive. }
  assert (Hn : forall z, F.is_nan (F.opp z) = F.is_nan z) by (now intros []).
  rewrite !leb_key, !Hn, !lex_Gt, !lex_Lt, !Hk. cbn [fst snd].
  intros (Hx & Hy & H). repeat split; auto. lia.
Qed.

(** Zero is below every non-negative float. *)
Lemma zero_leb (s : bool) (x : float) :
  F.nonneg x = true -> F.leb (S754_zero s) x = true.
Proof. destruct x as [s'|[]| |[] m e]; try discriminate; reflexivity. Qed.

Lemma nonneg_leb_zero (x : float) :
  F.nonneg x = true -> F.leb (F.opp x) F.zero = true.
Proof. destruct x as [s'|[]| |[] m e]; try discriminate; reflexivity. Qed.

End FOrder.

(* ===================================================================== *)
(** * Rounding: signs and magnitudes *)
(* ===================================================================== *)

Module FRound.

Lemma digits2_size (p : positive) : digits2_pos p = Pos.size p.
Proof. induction p; cbn; congruence. Qed.

(** A positive number of [d] binary digits lies below [2^d]. *)
Lemma digits_upper (p : positive) : Z.pos p < 2 ^ Z.pos (digits2_pos p).
Proof.
  rewrite digits2_size.
  pose proof (Pos.size_gt p) as H.
  apply Pos2Z.pos_lt_pos in H. now rewrite Pos2Z.inj_pow in H.
Qed.

Lemma digits_lower (p : positive) : 2 ^ Z.pos (digits2_pos p) <= 2 * Z.pos p.
Proof.
  rewrite digits2_size.
  pose proof (Pos.size_le p) as H.
  apply Pos2Z.pos_le_pos in H. now rewrite Pos2Z.inj_pow in H.
Qed.

(** [Zdigits2 m <= k] for every [0 <= m < 2^k]. *)
Lemma Zdigits2_le (m k : Z) : 0 <= k -> 0 <= m < 2 ^ k -> 0 <= Zdigits2 m <= k.
Proof.
  intros Hk [H0 H]. destruct m as [|p|p]; cbn; try lia.
  split; [lia|].
  destruct (Z_lt_le_dec k (Z.pos (digits2_pos p))) as [Hlt|]; [|assumption].
  exfalso. pose proof (digits_lower p) as Hl.
  assert (2 ^ (k + 1) <= 2 ^ Z.pos (digits2_pos p)) by (apply Z.pow_le_mono_r; lia).
  rewrite Z.pow_add_r in * by lia. lia.
Qed.

Lemma shr_1_m (mrs : shr_record) :
  0 <= shr_m mrs -> shr_m (shr_1 mrs) = shr_m mrs / 2.
Proof.
  destruct mrs as [m r s]; cbn. intros H.
  rewrite <- Z.div2_div.
  destruct m as [|[p|p|]|p]; try reflexivity; lia.
Qed.

Lemma iter_shr_m (p : positive) : forall mrs,
  0 <= shr_m mrs -> shr_m (SpecFloat.iter_pos shr_1 p mrs) = shr_m mrs / 2 ^ Z.pos p.
Proof.
  induction p as [p IH|p IH|]; intros mrs H; cbn [SpecFloat.iter_pos].
  - assert (H1 : 0 <= shr_m (shr_1 mrs)) by (rewrite shr_1_m by auto; apply Z.div_pos; lia).
    assert (H2 : 0 <= shr_m (SpecFloat.iter_pos shr_1 p (shr_1 mrs)))
      by (rewrite IH by auto; apply Z.div_pos; lia).
    rewrite IH, IH, shr_1_m by auto.
    rewrite !Z.div_div by lia. f_equal.
    replace (Z.pos p~1) with (1 + Z.pos p + Z.pos p) by lia.
    rewrite !Z.pow_add_r by lia. ring.
  - assert (H2 : 0 <= shr_m (SpecFloat.iter_pos shr_1 p mrs))
      by (rewrite IH by auto; apply Z.div_pos; lia).
    rewrite IH, IH by auto.
    rewrite !Z.div_div by lia. f_equal.
    replace (Z.pos p~0) with (Z.pos p + Z.pos p) by lia.
    rewrite !Z.pow_add_r by lia. ring.
  - rewrite shr_1_m by auto. reflexivity.
Qed.


Lemma shr_record_of_loc_m (m : Z) (l : location) : shr_m (shr_record_of_loc m l) = m.
Proof. destruct l as [|[]]; reflexivity. Qed.

Lemma fexp_eq (x : Z) : fexp F.prec F.emax x = Z.max (x - 53) (-1074).
Proof. reflexivity. Qed.

(** One alignment step: the mantissa stays non-negative and the magnitude
    does not grow beyond the least exponent. *)
Lemma shr_fexp_bound (m e k : Z) (l : location) :
  0 <= k -> 0 <= m < 2 ^ k ->
  exists k',
    0 <= k' /\
    0 <= shr_m (fst (shr_fexp F.prec F.emax m e l)) < 2 ^ k' /\
    k' + snd (shr_fexp F.prec F.emax m e l) <= Z.max (k + e) (-1074) /\
    snd (shr_fexp F.prec F.emax m e l) <= Z.max e (Z.max (k + e - 53) (-1074)).
Proof.
  intros Hk Hm. unfold shr_fexp, shr. rewrite fexp_eq.
  pose proof (Zdigits2_le m k Hk Hm) as Hd.
  destruct (Z.max (Zdigits2 m + e - 53) (-1074) - e) as [|p|p] eqn:En; cbn [fst snd].
  - exists k. rewrite shr_record_of_loc_m. lia.
  - rewrite iter_shr_m by (rewrite shr_record_of_loc_m; lia).
    rewrite shr_record_of_loc_m.
    assert (Hp : 0 < 2 ^ Z.pos p) by (apply Z.pow_pos_nonneg; lia).
    exists (Z.max 0 (k - Z.pos p)). split; [lia|]. split; [|lia].
    split; [apply Z.div_pos; lia|].
    apply Z.div_lt_upper_bound; [lia|].
    destruct (Z_le_gt_dec (Z.pos p) k) as [Hle|Hgt].
    + rewrite Z.max_r by lia. rewrite <- Z.pow_add_r by lia.
      replace (Z.pos p + (k - Z.pos p)) with k by lia. lia.
    + rewrite Z.max_l by lia. rewrite Z.pow_0_r, Z.mul_1_r.
      assert (2 ^ k <= 2 ^ Z.pos p) by (apply Z.pow_le_mono_r; lia). lia.
  - exists k. rewrite shr_record_of_loc_m. lia.
Qed.

Lemma round_nearest_even_bound (m : Z) (l : location) :
  m <= round_nearest_even m l <= m + 1.
Proof. destruct l as [|[]]; cbn; try lia. destruct (Z.even m); lia. Qed.

(** Rounding a non-negative mantissa never yields a NaN and keeps the sign. *)
Lemma round_aux_sign (sx : bool) (mx ex : Z) (lx : location) :
  0 <= mx -> F.sign_is (binary_round_aux F.prec F.emax sx mx ex lx) sx.
Proof.
  intros Hm. unfold binary_round_aux.
  assert (Hk : 0 <= mx < 2 ^ mx) by (split; [lia|apply Z.pow_gt_lin_r; lia]).
  destruct (shr_fexp_bound mx ex mx lx Hm Hk) as (k1 & Hk1 & Hb1 & _).
  destruct (shr_fexp F.prec F.emax mx ex lx) as [mrs1 e1]; cbn [fst snd] in *.
  pose proof (round_nearest_even_bound (shr_m mrs1) (loc_of_shr_record mrs1)) as Hr.
  set (m1 := round_nearest_even _ _) in *.
  assert (Hm1 : 0 <= m1 < 2 ^ (k1 + 1))
    by (rewrite Z.pow_add_r, Z.pow_1_r by lia; lia).
  destruct (shr_fexp_bound m1 e1 (k1 + 1) loc_Exact ltac:(lia) Hm1) as (k2 & Hk2 & Hb2 & _).
  destruct (shr_fexp F.prec F.emax m1 e1 loc_Exact) as [mrs2 e2]; cbn [fst snd] in *.
  destruct (shr_m mrs2) as [|p|p]; cbn; try lia; auto.
  destruct (e2 <=? F.emax - F.prec); cbn; auto.
Qed.

(** Rounding does not overflow below the largest exponent. *)
Lemma round_aux_finite (sx : bool) (mx ex k : Z) (lx : location) :
  0 <= k -> 0 <= mx < 2 ^ k -> k + ex <= 1023 -> ex <= 971 ->
  F.mag_le (binary_round_aux F.prec F.emax sx mx ex lx) (Z.max (k + ex) (-1074) + 1).
Proof.
  intros Hk Hm Hke He. unfold binary_round_aux.
  destruct (shr_fexp_bound mx ex k lx Hk Hm) as (k1 & Hk1 & Hb1 & Hs1 & He1).
  destruct (shr_fexp F.prec F.emax mx ex lx) as [mrs1 e1]; cbn [fst snd] in *.
  pose proof (round_nearest_even_bound (shr_m mrs1) (loc_of_shr_record mrs1)) as Hr.
  set (m1 := round_nearest_even _ _) in *.
  assert (Hm1 : 0 <= m1 < 2 ^ (k1 + 1))
    by (rewrite Z.pow_add_r, Z.pow_1_r by lia; lia).
  destruct (shr_fexp_bound m1 e1 (k1 + 1) loc_Exact ltac:(lia) Hm1)
    as (k2 & Hk2 & Hb2 & Hs2 & He2).
  destruct (shr_fexp F.prec F.emax m1 e1 loc_Exact) as [mrs2 e2]; cbn [fst snd] in *.
  destruct (shr_m mrs2) as [|p|p]; cbn; try lia; auto.
  assert (Hle : e2 <= 971) by lia.
  replace (e2 <=? F.emax - F.prec) with true
    by (symmetry; apply Z.leb_le; unfold F.emax, F.prec; lia).
  cbn. split; [lia|]. exists k2. lia.
Qed.


Lemma iter_xO (d m : positive) : Z.pos (Pos.iter xO m d) = Z.pos m * 2 ^ Z.pos d.
Proof.
  induction d as [|d IH] using Pos.peano_ind.
  - cbn. lia.
  - rewrite Pos.iter_succ, Pos2Z.inj_xO, IH, Pos2Z.inj_succ, Z.pow_succ_r by lia. ring.
Qed.

Lemma shl_align_spec (mx : positive) (ex ex' : Z) :
  snd (shl_align mx ex ex') <= ex /\
  Z.pos (fst (shl_align mx ex ex')) =
    Z.pos mx * 2 ^ (ex - snd (shl_align mx ex ex')).
Proof.
  unfold shl_align. destruct (ex' - ex) as [|d|d] eqn:E; cbn [fst snd].
  - rewrite Z.sub_diag. lia.
  - rewrite Z.sub_diag. lia.
  - rewrite iter_xO. split; [lia|]. f_equal. f_equal. lia.
Qed.

Lemma binary_round_sign (sx : bool) (mx : positive) (ex : Z) :
  F.sign_is (binary_round F.prec F.emax sx mx ex) sx.
Proof.
  unfold binary_round.
  destruct (shl_align mx ex _) as [mz ez]. apply round_aux_sign. lia.
Qed.

Lemma binary_round_finite (sx : bool) (mx : positive) (ex k : Z) :
  0 <= k -> Z.pos mx < 2 ^ k -> k + ex <= 1023 -> ex <= 971 ->
  F.mag_le (binary_round F.prec F.emax sx mx ex) (Z.max (k + ex) (-1074) + 1).
Proof.
  intros Hk Hm Hke He. unfold binary_round.
  pose proof (shl_align_spec mx ex (fexp F.prec F.emax (Z.pos (digits2_pos mx) + ex)))
    as [Hez Hmz].
  destruct (shl_align mx ex _) as [mz ez]; cbn [fst snd] in *.
  replace (k + ex) with ((k + (ex - ez)) + ez) by lia.
  apply round_aux_finite; try lia.
  rewrite Hmz, Z.pow_add_r by lia.
  assert (0 < 2 ^ (ex - ez)) by (apply Z.pow_pos_nonneg; lia). nia.
Qed.

(** The conversion of an integer below [2^K] in absolute value is finite. *)
Lemma of_Z_finite (z K : Z) :
  0 <= K <= 1023 -> Z.abs z < 2 ^ K -> F.mag_le (F.of_Z z) (K + 1).
Proof.
  intros HK Hz. unfold F.of_Z, binary_normalize.
  destruct z as [|p|p]; cbn [F.mag_le]; auto.
  - replace K with (Z.max (K + 0) (-1074)) at 1 by lia.
    apply binary_round_finite; lia.
  - replace K with (Z.max (K + 0) (-1074)) at 1 by lia.
    apply binary_round_finite; lia.
Qed.

Lemma of_Z_sign (z : Z) : 0 <= z -> F.nonneg (F.of_Z z) = true.
Proof.
  intros Hz. unfold F.of_Z, binary_normalize. destruct z as [|p|p]; try lia; auto.
  pose proof (binary_round_sign false p 0) as H.
  destruct (binary_round _ _ _ _ _); cbn in *; subst; auto; contradiction.
Qed.

Lemma mag_le_finite (x : float) (B : Z) : F.mag_le x B -> F.is_finite x = true.
Proof. destruct x; cbn; tauto. Qed.

Lemma float_of_int_ok (z K : Z) :
  0 <= K <= 1023 -> Z.abs z < 2 ^ K -> Py.float_of_int z = Ret (F.of_Z z).
Proof.
  intros HK Hz. unfold Py.float_of_int.
  pose proof (of_Z_finite z K HK Hz) as H.
  destruct (F.of_Z z); cbn in H; try contradiction; reflexivity.
Qed.

(** The product of a bounded float with a positive float of non-positive
    exponent is finite. *)
Lemma mul_finite (x : float) (A : Z) (sy : bool) (my : positive) (ey jy : Z) :
  F.mag_le x A -> ey <= 0 -> 0 <= jy -> Z.pos my < 2 ^ jy -> A + jy + ey <= 1023 ->
  F.mag_le (F.mul x (S754_finite sy my ey)) (Z.max (A + jy + ey) (-1074) + 1).
Proof.
  intros Hx Hey Hjy Hmy HA.
  destruct x as [s|s| |s m e]; cbn in Hx; try contradiction.
  - exact I.
  - destruct Hx as (He & j & Hj & Hm & Hje). unfold F.mul, SFmul.
    assert (Hb : 0 <= Z.pos (m * my) < 2 ^ (j + jy)).
    { split; [lia|]. rewrite Pos2Z.inj_mul, Z.pow_add_r by lia.
      apply Z.mul_lt_mono_nonneg; lia. }
    pose proof (round_aux_finite (xorb s sy) (Z.pos (m * my)) (e + ey) (j + jy)
                  loc_Exact ltac:(lia) Hb ltac:(lia) ltac:(lia)) as H.
    destruct (binary_round_aux _ _ _ _ _ _); cbn in *; auto.
    destruct H as (He' & j' & Hj' & Hm' & Hje'). split; [lia|]. exists j'. lia.
Qed.

Lemma mul_nonneg (x y : float) :
  F.nonneg x = true -> F.pos_finite y = true -> F.nonneg (F.mul x y) = true.
Proof.
  destruct x as [sx|sx| |sx mx ex], y as [sy|sy| |sy my ey]; try discriminate;
    destruct sy; try discriminate; cbn; intros Hx _;
    try (destruct sx; try discriminate; reflexivity).
  apply negb_true_iff in Hx; subst sx. 
  pose proof (round_aux_sign false (Z.pos (mx * my)) (ex + ey) loc_Exact ltac:(lia)) as H.
  cbn [xorb]. destruct (binary_round_aux _ _ _ _ _ _); cbn in *; subst; auto; contradiction.
Qed.

Lemma add_nonneg (x y : float) :
  F.nonneg x = true -> F.nonneg y = true -> F.nonneg (F.add x y) = true.
Proof.
  destruct x as [sx|sx| |sx mx ex], y as [sy|sy| |sy my ey]; try discriminate; cbn;
    intros Hx Hy; auto;
    try (apply negb_true_iff in Hx; subst sx);
    try (apply negb_true_iff in Hy; subst sy); auto;
    try (destruct sx; reflexivity); try (destruct sx, sy; reflexivity).
  cbn [cond_Zopp]. unfold binary_normalize.
  destruct (Z.pos _ + Z.pos _) as [|p|p] eqn:E; try lia; auto.
  pose proof (binary_round_sign false p (Z.min ex ey)) as H.
  destruct (binary_round _ _ _ _ _); cbn in *; subst; auto; contradiction.
Qed.

Lemma div_nonneg (x y : float) :
  F.nonneg x = true -> F.pos_finite y = true -> F.nonneg (F.div x y) = true.
Proof.
  destruct x as [sx|sx| |sx mx ex], y as [sy|sy| |sy my ey]; try discriminate;
    destruct sy; try discriminate; cbn; intros Hx _;
    try (destruct sx; try discriminate; reflexivity).
  apply negb_true_iff in Hx; subst sx. cbn [xorb].
  unfold SFdiv_core_binary.
  set (e' := Z.min _ _). set (m' := match _ with Z0 => _ | Z.pos _ => _ | Z.neg _ => _ end).
  assert (Hm' : 0 <= m').
  { subst m'. destruct (ex - ey - e'); try lia. apply Z.shiftl_nonneg. lia. }
  pose proof (Z_div_mod m' (Z.pos my) ltac:(lia)) as Hdm.
  destruct (Z.div_eucl m' (Z.pos my)) as [q r].
  assert (Hq : 0 <= q) by nia.
  pose proof (round_aux_sign false q e' (new_location (Z.pos my) r) Hq) as H.
  destruct (binary_round_aux _ _ _ _ _ _); cbn in *; subst; auto; contradiction.
Qed.

Lemma nonneg_not_nan (x : float) : F.nonneg x = true -> F.is_nan x = false.
Proof. destruct x; cbn; auto; discriminate. Qed.

(** On a non-negative finite float, truncation is the floor. *)
Lemma trunc_floor (x : float) : F.nonneg x = true -> F.trunc x = F.floor x.
Proof.
  destruct x as [s|s| |s m e]; cbn; auto.
  intros H. apply negb_true_iff in H; subst s. reflexivity.
Qed.

Lemma int_floor (x : float) :
  F.nonneg x = true -> F.is_finite x = true ->
  exists n, F.floor x = Some n /\ 0 <= n /\ Py.int x = Ret n.
Proof.
  destruct x as [s|s| |s m e]; cbn [F.nonneg F.is_finite]; try discriminate;
    intros H _.
  - exists 0. split; [reflexivity|]. split; [lia|reflexivity].
  - apply negb_true_iff in H; subst s. eexists. split; [reflexivity|].
    split; [|reflexivity].
    destruct (0 <=? e) eqn:E;
      [apply Z.mul_nonneg_nonneg; [lia|apply Z.pow_nonneg; lia]|].
    apply Z.leb_gt in E.
    apply Z.div_pos; [lia|apply Z.pow_pos_nonneg; lia].
Qed.

End FRound.

Module FArith.

Lemma mul_comm (x y : float) : F.mul x y = F.mul y x.
Proof.
  destruct x as [sx|sx| |sx mx ex], y as [sy|sy| |sy my ey]; cbn;
    rewrite ?(xorb_comm sx sy); try reflexivity.
  now rewrite (Pos.mul_comm mx my), (Z.add_comm ex ey).
Qed.

(** The quotient of two positive floats is finite when the dividend's
    magnitude, reduced by the divisor's exponent, is in range. *)
Lemma div_finite (mx my : positive) (ex ey jx : Z) :
  0 <= jx -> Z.pos mx < 2 ^ jx -> jx + ex - ey <= 1023 -> ex - ey <= 971 ->
  F.mag_le (F.div (S754_finite false mx ex) (S754_finite false my ey))
           (Z.max (jx + ex - ey) (-1074) + 1).
Proof.
  intros Hj Hm HB He. unfold F.div, SFdiv, SFdiv_core_binary. cbn [xorb].
  set (e' := Z.min _ _).
  assert (He' : e' <= ex - ey) by (subst e'; lia).
  set (s := ex - ey - e').
  set (m' := match s with Z0 => _ | Z.pos _ => _ | Z.neg _ => _ end).
  assert (Hm' : 0 <= m' < 2 ^ (jx + s)).
  { assert (Hs : 0 <= s) by (subst s; lia).
    assert (m' = Z.pos mx * 2 ^ s) as ->.
    { subst m'. destruct s eqn:Es; try lia.
      now rewrite Z.shiftl_mul_pow2 by lia. }
    rewrite Z.pow_add_r by lia.
    assert (0 < 2 ^ s) by (apply Z.pow_pos_nonneg; lia). nia. }
  pose proof (Z_div_mod m' (Z.pos my) ltac:(lia)) as Hdm.
  destruct (Z.div_eucl m' (Z.pos my)) as [q r].
  assert (Hq : 0 <= q < 2 ^ (jx + s)) by nia.
  replace (jx + ex - ey) with ((jx + s) + e') by (subst s; lia).
  apply FRound.round_aux_finite; subst s; try lia.
Qed.

(** The true division of a non-negative integer by a positive one. *)
Lemma int_truediv_finite (a b K : Z) :
  0 <= K <= 1023 -> 0 <= a < 2 ^ K -> 0 < b ->
  exists x, Py.int_truediv a b = Ret x /\
            F.nonneg x = true /\ F.mag_le x (K + 1).
Proof.
  intros HK Ha Hb. unfold Py.int_truediv.
  destruct b as [|pb|pb]; try lia. destruct a as [|pa|pa]; try lia.
  - eexists. split; [reflexivity|]. split; [reflexivity|exact I].
  - cbn [Z.ltb Z.compare Z.abs Z.to_pos].
    pose proof (div_finite pa pb 0 0 K ltac:(lia) ltac:(lia) ltac:(lia) ltac:(lia)) as Hfin.
    pose proof (FRound.div_nonneg (S754_finite false pa 0) (S754_finite false pb 0)
                  eq_refl eq_refl) as Hnn.
    replace (Z.max (K + 0 - 0) (-1074) + 1) with (K + 1) in Hfin by lia.
    destruct (F.div _ _) as [s|s| |s m e]; cbn in Hfin; try contradiction;
      eexists; (split; [reflexivity|]); split; auto.
Qed.

End FArith.

(* ===================================================================== *)
(** * Severity classification *)
(* ===================================================================== *)

Lemma not_below (a b r : float) :
  F.leb a b = true -> F.leb b r = true -> F.ltb r a = false.
Proof.
  intros Hab Hbr. apply FOrder.leb_ltb_false. eapply FOrder.leb_trans; eauto.
Qed.

(** C4. [classify_severity] is the threshold function: a rainfall below 10
    is low; from 10 and below 25, moderate; from 25 and below 50, high; from
    50 on, critical. At the boundaries: 9.99 is low, 10 moderate, 24.99
    moderate, 25 high, 49.99 high and 50 critical. *)
Theorem classify_severity_thresholds :
  (forall r, F.ltb r f10 = true -> classify_severity r = low) /\
  (forall r, F.leb f10 r = true -> F.ltb r f25 = true ->
             classify_severity r = moderate) /\
  (forall r, F.leb f25 r = true -> F.ltb r f50 = true ->
             classify_severity r = high) /\
  (forall r, F.leb f50 r = true -> classify_severity r = critical) /\
  classify_severity (F.dec 999 100) = low /\
  classify_severity (F.of_Z 10) = moderate /\
  classify_severity (F.dec 2499 100) = moderate /\
  classify_severity (F.of_Z 25) = high /\
  classify_severity (F.dec 4999 100) = high /\
  classify_severity (F.of_Z 50) = critical.
Proof.
  unfold classify_severity. repeat split.
  - intros r H. now rewrite H.
  - intros r H1 H2.
    rewrite (FOrder.leb_ltb_false _ _ H1), H2. reflexivity.
  - intros r H1 H2.
    rewrite (not_below f10 f25 r), (FOrder.leb_ltb_false _ _ H1), H2; auto.
  - intros r H.
    rewrite (not_below f10 f50 r), (not_below f25 f50 r),
      (FOrder.leb_ltb_false _ _ H); auto.
Qed.

(* ===================================================================== *)
(** * Rainfall alerts *)
(* ===================================================================== *)

Section AlertFacts.

Variable cx : float -> float -> float -> float -> Hotspot -> bool.

Lemma activation_fraction_shape (r : float) :
  exists my ey,
    activation_fraction r = S754_finite false my ey /\ ey <= 0 /\ Z.pos my < 2 ^ 53.
Proof.
  unfold activation_fraction.
  destruct (F.ltb r f10); [|destruct (F.ltb r f25); [|destruct (F.ltb r f50);
    [|destruct (F.ltb r f100)]]];
    (eexists; eexists; split; [reflexivity|split; [lia|reflexivity]]).
Qed.

(** The alert over a non-empty restricted collection. *)
Lemma alert_nonempty (all_pts : list Hotspot) (bbox : option (list float)) (r : float) :
  restrict cx all_pts bbox <> [] ->
  Z.of_nat (length (restrict cx all_pts bbox)) < 2 ^ 64 ->
  exists n,
    F.floor (F.mul (F.of_Z (Z.of_nat (length (restrict cx all_pts bbox))))
                   (activation_fraction r)) = Some n /\
    0 <= n /\
    generate_alert_from_rainfall (Some all_pts) cx r bbox =
      Ret {| severity := classify_severity r;
             affected_count := Z.max 1 n;
             affected_points :=
               map out_point (firstn (Z.to_nat (Z.max 1 n)) (restrict cx all_pts bbox));
             message := messages (classify_severity r);
             recommended_actions := actions (classify_severity r);
             rainfall_mm := r |}.
Proof.
  intros Hne Hlen. unfold generate_alert_from_rainfall.
  set (pts := restrict cx all_pts bbox) in *.
  set (total := Z.of_nat (length pts)) in *.
  assert (Hpos : 0 < total) by (subst total; destruct pts; [congruence|cbn; lia]).
  destruct (total =? 0) eqn:E; [apply Z.eqb_eq in E; lia|].
  rewrite (FRound.float_of_int_ok total 64) by lia. cbn [obind].
  destruct (activation_fraction_shape r) as (my & ey & Hfrac & Hey & Hmy).
  assert (Hfin : F.is_finite (F.mul (F.of_Z total) (activation_fraction r)) = true).
  { rewrite Hfrac. eapply FRound.mag_le_finite.
    apply (FRound.mul_finite _ 65 false my ey 53); try lia.
    apply (FRound.of_Z_finite total 64); lia. }
  assert (Hnn : F.nonneg (F.mul (F.of_Z total) (activation_fraction r)) = true).
  { apply FRound.mul_nonneg; [apply FRound.of_Z_sign; lia|now rewrite Hfrac]. }
  destruct (FRound.int_floor _ Hnn Hfin) as (n & Hfl & Hn & Hint).
  exists n. rewrite Hint. cbn [obind]. auto.
Qed.

Lemma alert_empty (all_pts : list Hotspot) (bbox : option (list float)) (r : float) :
  restrict cx all_pts bbox = [] ->
  generate_alert_from_rainfall (Some all_pts) cx r bbox =
    Ret {| severity := low;
           affected_count := 0;
           affected_points := [];
           message := "No known hotspots for selected area.";
           recommended_actions := ["Monitor rainfall"%string];
           rainfall_mm := r |}.
Proof.
  intros H. unfold generate_alert_from_rainfall. rewrite H. reflexivity.
Qed.

(** C5, what the code does. Over a non-empty (possibly window-restricted)
    collection of [total] hotspots, the activation fraction follows the
    breakpoints (below 10: 0.05, below 25: 0.15, below 50: 0.40, below 100:
    0.70, else 1.0), the affected count is [max(1, n)] for [n] the floor of
    the binary64 product [total * fraction], which [int()] truncates, and
    the affected points are the first [affected_count] hotspots in
    collection order. The floor of the rounded product can be one below the
    floor of the exact product. *)
Theorem generate_alert_first_affected
    (all_pts : list Hotspot) (bbox : option (list float)) (r : float) :
  restrict cx all_pts bbox <> [] ->
  Z.of_nat (length (restrict cx all_pts bbox)) < 2 ^ 64 ->
  ((F.ltb r f10 = true -> activation_fraction r = F.dec 5 100) /\
   (F.ltb r f10 = false -> F.ltb r f25 = true ->
      activation_fraction r = F.dec 15 100) /\
   (F.ltb r f25 = false -> F.ltb r f50 = true ->
      activation_fraction r = F.dec 40 100) /\
   (F.ltb r f50 = false -> F.ltb r f100 = true ->
      activation_fraction r = F.dec 70 100) /\
   (F.ltb r f100 = false -> activation_fraction r = F.of_Z 1)) /\
  exists n a,
    F.floor (F.mul (F.of_Z (Z.of_nat (length (restrict cx all_pts bbox))))
                   (activation_fraction r)) = Some n /\
    generate_alert_from_rainfall (Some all_pts) cx r bbox = Ret a /\
    affected_count a = Z.max 1 n /\
    affected_points a =
      map out_point
        (firstn (Z.to_nat (affected_count a)) (restrict cx all_pts bbox)).
Proof.
  intros Hne Hlen. split.
  - assert (Hlt : forall a b, F.leb a b = true -> F.ltb r b = false ->
                              F.ltb r a = false).
    { intros a b Hab Hrb. destruct (F.ltb r a) eqn:E; [|reflexivity].
      rewrite (FOrder.ltb_leb_trans r a b E Hab) in Hrb. discriminate. }
    unfold activation_fraction. repeat split.
    + intros H. now rewrite H.
    + intros H1 H2. now rewrite H1, H2.
    + intros H1 H2. now rewrite (Hlt f10 f25), H1, H2.
    + intros H1 H2. now rewrite (Hlt f10 f50), (Hlt f25 f50), H1, H2.
    + intros H. now rewrite (Hlt f10 f100), (Hlt f25 f100), (Hlt f50 f100), H.
  - destruct (alert_nonempty all_pts bbox r Hne Hlen) as (n & Hfl & _ & Ha).
    eexists; eexists. split; [exact Hfl|]. split; [exact Ha|]. split; reflexivity.
Qed.

(** C6, as the code has it. An alert over a non-empty collection carries the
    message and the recommended actions of the tables for its severity, the
    severity of [classify_severity]; the alert over an empty collection is
    the fixed one: severity low, count 0, no points, the message "No known
    hotspots for selected area." and the single action "Monitor rainfall". *)
Theorem alert_messages_and_actions
    (all_pts : list Hotspot) (bbox : option (list float)) (r : float) :
  Z.of_nat (length (restrict cx all_pts bbox)) < 2 ^ 64 ->
  exists a,
    generate_alert_from_rainfall (Some all_pts) cx r bbox = Ret a /\
    (restrict cx all_pts bbox <> [] ->
       severity a = classify_severity r /\
       message a = messages (severity a) /\
       recommended_actions a = actions (severity a)) /\
    (restrict cx all_pts bbox = [] ->
       a = {| severity := low;
              affected_count := 0;
              affected_points := [];
              message := "No known hotspots for selected area.";
              recommended_actions := ["Monitor rainfall"%string];
              rainfall_mm := r |}) /\
    actions low = ["Monitor rainfall trends"%string] /\
    actions moderate = ["Prepare pumps and alert local teams"%string] /\
    actions high =
      ["Issue city-wide advisories"%string; "Mobilize maintenance teams"%string] /\
    actions critical =
      ["Activate emergency operations"%string; "Prepare evacuations"%string].
Proof.
  intros Hlen. destruct (restrict cx all_pts bbox) as [|p pts] eqn:E.
  - eexists. split; [apply alert_empty; exact E|].
    split; [congruence|]. split; [reflexivity|]. repeat split.
  - assert (Hne : restrict cx all_pts bbox <> []) by (rewrite E; discriminate).
    rewrite <- E in Hlen.
    destruct (alert_nonempty all_pts bbox r Hne Hlen) as (n & _ & _ & Ha).
    eexists. split; [exact Ha|].
    split; [intros _; repeat split|]. split; [discriminate|]. repeat split.
Qed.

End AlertFacts.

(** C5, at 20 hotspots and 30 mm of rain: 8 hotspots are affected. *)
Lemma generate_alert_first_affected_witness :
  Example.hotspots 20 <> [] /\
  exists a,
    Example.alert (Some (Example.hotspots 20)) (F.of_Z 30) None = Ret a /\
    affected_count a = 8 /\
    affected_points a = map out_point (firstn 8 (Example.hotspots 20)).
Proof.
  split; [discriminate|].
  destruct (generate_alert_first_affected Example.window (Example.hotspots 20)
              None (F.of_Z 30)) as (_ & n & a & Hn & Ha & Hc & Hp).
  - discriminate.
  - reflexivity.
  - exists a. split; [exact Ha|].
    assert (n = 8) by (vm_compute in Hn; congruence). subst n.
    split; [exact Hc|]. rewrite Hp, Hc. reflexivity.
Defined.

(** The fraction of the code is the binary64 number nearest to the fraction
    of the spec. *)
Lemma activation_fraction_percent (r : float) :
  activation_fraction r = F.dec (fraction_percent r) 100.
Proof.
  unfold activation_fraction, fraction_percent.
  destruct (F.ltb r f10); [reflexivity|].
  destruct (F.ltb r f25); [reflexivity|].
  destruct (F.ltb r f50); [reflexivity|].
  destruct (F.ltb r f100); reflexivity.
Qed.

(** The alert at [rain] mm over the first [total] example hotspots, without
    a window: the count is read off the floor of the binary64 product. *)
Ltac count_affected total rain :=
  let n := fresh "n" in
  let Hfl := fresh "Hfl" in
  let Ha := fresh "Ha" in
  destruct (alert_nonempty Example.window (Example.hotspots total) None rain)
    as (n & Hfl & _ & Ha);
  [discriminate | vm_compute; reflexivity |];
  vm_compute in Hfl; injection Hfl as <-;
  eexists; split; [exact Ha|];
  split; [reflexivity|];
  cbn [affected_points]; rewrite length_map, length_firstn;
  vm_compute; reflexivity.

(** C5 as the spec has it fails in the 0.70 tier: at 60 mm of rain over 90
    hotspots the exact product is 63 and the spec's count is 63, while the
    binary64 product [90 * 0.7] is 62.99999999999999 and the code affects 62
    hotspots; likewise 118 for 119 over 170 hotspots and 125 for 126 over
    180. *)
Lemma affected_count_below_exact_floor :
  activation_fraction (F.of_Z 60) = F.dec 70 100 /\
  F.ltb (F.mul (F.of_Z 90) (F.dec 70 100)) (F.of_Z 63) = true /\
  (spec_affected_count 90 (F.of_Z 60) = 63 /\
   exists a,
     Example.alert (Some (Example.hotspots 90)) (F.of_Z 60) None = Ret a /\
     affected_count a = 62 /\ length (affected_points a) = 62%nat) /\
  (spec_affected_count 170 (F.of_Z 60) = 119 /\
   exists a,
     Example.alert (Some (Example.hotspots 170)) (F.of_Z 60) None = Ret a /\
     affected_count a = 118 /\ length (affected_points a) = 118%nat) /\
  (spec_affected_count 180 (F.of_Z 60) = 126 /\
   exists a,
     Example.alert (Some (Example.hotspots 180)) (F.of_Z 60) None = Ret a /\
     affected_count a = 125 /\ length (affected_points a) = 125%nat).
Proof.
  split; [vm_compute; reflexivity|]. split; [vm_compute; reflexivity|].
  split; [|split].
  - split; [vm_compute; reflexivity|]. count_affected 90%nat (F.of_Z 60).
  - split; [vm_compute; reflexivity|]. count_affected 170%nat (F.of_Z 60).
  - split; [vm_compute; reflexivity|]. count_affected 180%nat (F.of_Z 60).
Qed.

(** C6 as the spec has it fails on the empty collection: the alert has
    severity low, yet neither its actions nor its message are those of the
    tables for low. *)
Lemma empty_alert_not_from_tables :
  exists a,
    Example.alert (Some []) (F.of_Z 5) None = Ret a /\
    severity a = low /\
    recommended_actions a = ["Monitor rainfall"%string] /\
    recommended_actions a <> actions (severity a) /\
    message a <> messages (severity a).
Proof.
  returns_value. cbn. repeat split; discriminate.
Qed.

(** C6, amended, at 20 hotspots and 30 mm of rain. *)
Lemma alert_messages_and_actions_witness :
  exists a,
    Example.alert (Some (Example.hotspots 20)) (F.of_Z 30) None = Ret a /\
    severity a = high /\
    message a = "High risk — many hotspots likely to be affected."%string /\
    recommended_actions a =
      ["Issue city-wide advisories"%string; "Mobilize maintenance teams"%string].
Proof.
  destruct (alert_messages_and_actions Example.window (Example.hotspots 20)
              None (F.of_Z 30)) as (a & Ha & Hne & _).
  - reflexivity.
  - exists a. split; [exact Ha|].
    destruct Hne as (Hs & Hm & Hr); [discriminate|].
    assert (Hh : severity a = high) by (rewrite Hs; reflexivity).
    rewrite Hm, Hr, Hh. repeat split.
Defined.

(* ===================================================================== *)
(** * Routing: the overlay on a copy of the road graph *)
(* ===================================================================== *)

Section RoutingFacts.

Variable road_graph : option loc.
Variable ox_nearest_nodes : MultiDiGraph -> float -> float -> option node.

Local Abbreviation nearest_node := (nearest_node road_graph ox_nearest_nodes).
Local Abbreviation compute_od_time := (compute_od_time road_graph ox_nearest_nodes).

(** The loop over the overlay edges only writes to [G]. *)
Lemma add_temp_edges_frame (G : loc) (temp_edges : list TempEdge) :
  forall (h : store) (l : loc),
    l <> G -> snd (add_temp_edges G temp_edges h) !! l = h !! l.
Proof.
  induction temp_edges as [|[[[u v] len] sp] rest IH]; intros h l Hl; [reflexivity|].
  cbn [add_temp_edges]. unfold mbind, lift.
  destruct (Py.truediv len sp) as [q|e]; [|reflexivity].
  unfold Nx.add_edge. rewrite IH by assumption.
  now rewrite !lookup_insert_ne by congruence.
Qed.

(** With no zero speed the loop completes, and [G] then holds the graph with
    the overlay. *)
Lemma add_temp_edges_ok (G : loc) (temp_edges : list TempEdge) :
  Forall (fun te => F.is_zero (speed_of te) = false) temp_edges ->
  forall (h : store) (g : MultiDiGraph),
    h !! G = Some g ->
    add_temp_edges G temp_edges h = (Ret tt, <[G := with_overlay g temp_edges]> h).
Proof.
  induction 1 as [|[[[u v] len] sp] rest Hsp _ IH]; intros h g Hg.
  - cbn. now rewrite insert_id.
  - cbn [add_temp_edges]. unfold mbind, lift, Py.truediv.
    cbn in Hsp. rewrite Hsp. unfold Nx.add_edge.
    rewrite Hg, lookup_insert_eq. cbn [default from_option id].
    erewrite IH by apply lookup_insert_eq.
    now rewrite !insert_insert_eq.
Qed.

Lemma with_overlay_edges (temp_edges : list TempEdge) :
  forall g, g_edges (with_overlay g temp_edges) = g_edges g ++ overlay_edges temp_edges.
Proof.
  induction temp_edges as [|[[[u v] len] sp] rest IH]; intros g.
  - cbn. now rewrite app_nil_r.
  - cbn [with_overlay fold_left overlay_edges flat_map].
    change (fold_left _ rest ?g0) with (with_overlay g0 rest).
    rewrite IH. cbn. now rewrite <- !app_assoc.
Qed.

Lemma with_node_keeps (n m : node) (ns : list node) :
  existsb (Z.eqb m) ns = true -> existsb (Z.eqb m) (Nx.with_node n ns) = true.
Proof.
  intros H. unfold Nx.with_node. destruct (existsb (Z.eqb n) ns); [assumption|].
  rewrite existsb_app, H. reflexivity.
Qed.

Lemma with_overlay_nodes (temp_edges : list TempEdge) :
  forall g n, Nx.has_node g n = true ->
              Nx.has_node (with_overlay g temp_edges) n = true.
Proof.
  induction temp_edges as [|[[[u v] len] sp] rest IH]; intros g n Hn; [assumption|].
  cbn [with_overlay fold_left].
  change (fold_left _ rest ?g0) with (with_overlay g0 rest).
  apply IH. unfold Nx.has_node, Nx.with_edge in *. cbn.
  now repeat apply with_node_keeps.
Qed.

(** What [compute_od_time] does on a loaded road graph when no overlay speed
    is zero: it allocates one new graph, the copy with the overlay, and
    routes on it between the nodes the road graph resolves. *)
Lemma compute_od_time_loaded (rg : loc) (g : MultiDiGraph) (origin dest : LatLng)
    (temp_edges : list TempEdge) (h : store) :
  road_graph = Some rg -> h !! rg = Some g ->
  Forall (fun te => F.is_zero (speed_of te) = false) temp_edges ->
  compute_od_time origin dest temp_edges h =
    (Ret match ox_nearest_nodes g (lng origin) (lat origin),
               ox_nearest_nodes g (lng dest) (lat dest) with
         | Some u, Some v => Nx.route_time (with_overlay g temp_edges) u v
         | _, _ => None
         end,
     <[fresh (dom h) := with_overlay g temp_edges]> h).
Proof.
  intros Hrg Hg Hsp. unfold Main.compute_od_time, Main.nearest_node.
  rewrite Hrg. unfold mbind at 1. unfold Nx.copy. rewrite Hg. cbn [default from_option id].
  assert (HG : fresh (dom h) <> rg).
  { intros E. pose proof (is_fresh (dom h)) as Hf. rewrite E in Hf.
    apply Hf, elem_of_dom. rewrite Hg. eauto. }
  set (G := fresh (dom h)) in *.
  unfold mbind at 1.
  rewrite (add_temp_edges_ok G temp_edges Hsp _ g) by apply lookup_insert_eq.
  rewrite insert_insert_eq.
  unfold mbind, mret, Nx.read.
  rewrite lookup_insert_ne, Hg by congruence. cbn [default from_option id].
  destruct (ox_nearest_nodes g (lng origin) (lat origin)),
           (ox_nearest_nodes g (lng dest) (lat dest));
    cbn beta; rewrite ?lookup_insert_eq; reflexivity.
Qed.

Lemma compute_od_time_unloaded (origin dest : LatLng) (temp_edges : list TempEdge)
    (h : store) :
  road_graph = None -> compute_od_time origin dest temp_edges h = (Ret None, h).
Proof. intros H. unfold Main.compute_od_time. now rewrite H. Qed.

(** C9. [compute_od_time] never mutates the network it is given: every
    graph object of the store, the road graph among them, is the same after
    the call as before. The overlay goes on a copy, a graph object that did
    not exist before: each overlay edge [(u, v, length_km, speed)] is there
    as the two edges [u -> v] and [v -> u] of travel time
    [(length_km / speed) * 3600]. *)
Theorem compute_od_time_frame (origin dest : LatLng) (temp_edges : list TempEdge)
    (h : store) :
  (forall l, is_Some (h !! l) ->
             snd (compute_od_time origin dest temp_edges h) !! l = h !! l) /\
  (forall rg g,
     road_graph = Some rg -> h !! rg = Some g ->
     Forall (fun te => F.is_zero (speed_of te) = false) temp_edges ->
     exists G copy,
       h !! G = None /\
       snd (compute_od_time origin dest temp_edges h) = <[G := copy]> h /\
       g_edges copy = g_edges g ++ overlay_edges temp_edges /\
       overlay_edges temp_edges =
         flat_map
           (fun te =>
              let '(u, v, length_km, speed) := te in
              let t := F.mul (F.div length_km speed) (F.of_Z 3600) in
              [ {| e_src := u; e_dst := v; travel_time := t |};
                {| e_src := v; e_dst := u; travel_time := t |} ])
           temp_edges).
Proof.
  split.
  - intros l Hl. unfold Main.compute_od_time.
    destruct road_graph as [rg|]; [|reflexivity].
    assert (Hfresh : l <> fresh (dom h)).
    { intros E. pose proof (is_fresh (dom h)) as Hf. rewrite <- E in Hf.
      apply Hf, elem_of_dom. exact Hl. }
    unfold mbind at 1. unfold Nx.copy.
    set (h1 := <[fresh (dom h) := _]> h).
    assert (H1 : h1 !! l = h !! l) by (subst h1; now rewrite lookup_insert_ne).
    unfold mbind at 1.
    pose proof (add_temp_edges_frame (fresh (dom h)) temp_edges h1 l Hfresh) as H2.
    destruct (add_temp_edges (fresh (dom h)) temp_edges h1) as [[[]|e] h2];
      cbn [snd] in *; [|congruence].
    unfold Main.nearest_node, mbind, mret, Nx.read.
    repeat match goal with
           | |- context [match ox_nearest_nodes ?a ?b ?c with _ => _ end] =>
               destruct (ox_nearest_nodes a b c)
           end; cbn; congruence.
  - intros rg g Hrg Hg Hsp.
    exists (fresh (dom h)), (with_overlay g temp_edges).
    split; [apply not_elem_of_dom, is_fresh|].
    rewrite (compute_od_time_loaded rg g) by assumption. cbn [snd].
    split; [reflexivity|]. split; [apply with_overlay_edges|].
    unfold overlay_edges. apply flat_map_ext. intros [[[u v] len] sp]. reflexivity.
Qed.

End RoutingFacts.

(* ===================================================================== *)
(** * Routing: more edges, no longer routes *)
(* ===================================================================== *)

Module Paths.

Lemma simple_paths_mono (es es' : list Edge) (tgt : node) :
  incl es es' ->
  forall (fuel fuel' : nat) (visited : list node) (cur : node) (p : list Edge),
    (fuel <= fuel')%nat ->
    In p (Nx.simple_paths fuel es visited cur tgt) ->
    In p (Nx.simple_paths fuel' es' visited cur tgt).
Proof.
  intros Hincl. induction fuel as [|fuel IH]; intros fuel' visited cur p Hle Hin.
  - destruct fuel'; cbn in *; destruct (cur =? tgt); auto; contradiction.
  - destruct fuel' as [|fuel']; [lia|]. cbn in *.
    destruct (cur =? tgt); [assumption|].
    apply in_flat_map in Hin as (e & He & Hp). apply in_flat_map.
    exists e. split; [auto|].
    destruct (_ && _); [|contradiction].
    apply in_map_iff in Hp as (q & <- & Hq). apply in_map, IH; [lia|assumption].
Qed.

Lemma simple_paths_edges (es : list Edge) (tgt : node) :
  forall (fuel : nat) (visited : list node) (cur : node) (p : list Edge),
    In p (Nx.simple_paths fuel es visited cur tgt) -> incl p es.
Proof.
  induction fuel as [|fuel IH]; intros visited cur p Hin; cbn in Hin;
    destruct (cur =? tgt).
  - destruct Hin as [<-|[]]. intros e [].
  - contradiction.
  - destruct Hin as [<-|[]]. intros e [].
  - apply in_flat_map in Hin as (e & He & Hp).
    destruct (_ && _); [|contradiction].
    apply in_map_iff in Hp as (q & <- & Hq).
    intros e' [<-|He']; [assumption|]. eapply IH; eauto.
Qed.

Lemma visited_false (n : node) (visited : list node) :
  existsb (Z.eqb n) visited = false <-> ~ In n visited.
Proof.
  split.
  - intros H Hin. assert (existsb (Z.eqb n) visited = true); [|congruence].
    apply existsb_exists. exists n. split; [assumption|apply Z.eqb_refl].
  - intros H. destruct (existsb (Z.eqb n) visited) eqn:E; [|reflexivity].
    apply existsb_exists in E as (m & Hm & Heq). apply Z.eqb_eq in Heq. now subst.
Qed.

(** Every path the search finds is a route that enters no node twice and
    none of the visited nodes. *)
Lemma simple_paths_sound (es : list Edge) (tgt : node) :
  forall (fuel : nat) (visited : list node) (cur : node) (p : list Edge),
    In p (Nx.simple_paths fuel es visited cur tgt) ->
    route es cur tgt p /\ List.NoDup (map e_dst p) /\
    (forall n, In n (map e_dst p) -> ~ In n visited).
Proof.
  assert (Hnil : forall visited cur p, (cur =? tgt) = true -> In p [[]] ->
            route es cur tgt p /\ List.NoDup (map e_dst p) /\
            (forall n, In n (map e_dst p) -> ~ In n visited)).
  { intros visited cur p Heq [<-|[]]. apply Z.eqb_eq in Heq. cbn.
    split; [assumption|]. split; [constructor|]. intros n []. }
  induction fuel as [|fuel IH]; intros visited cur p Hin; cbn in Hin;
    destruct (cur =? tgt) eqn:Heq; try (now apply Hnil); try contradiction.
  apply in_flat_map in Hin as (e & He & Hp).
  destruct (e_src e =? cur) eqn:Hsrc; [|contradiction].
  destruct (existsb (Z.eqb (e_dst e)) visited) eqn:Hvis; [contradiction|].
  cbn in Hp. apply in_map_iff in Hp as (q & <- & Hq).
  apply IH in Hq as (Hroute & Hnodup & Hfresh).
  apply Z.eqb_eq in Hsrc. apply visited_false in Hvis. cbn. repeat split; auto.
  - constructor; [|assumption]. intros Hin. apply (Hfresh _ Hin). now left.
  - intros n [<-|Hn]; [assumption|]. intros Hv. apply (Hfresh _ Hn). now right.
Qed.

Lemma route_ends (es : list Edge) (v : node) :
  forall (p : list Edge) (u : node),
    route es u v p -> p <> [] -> In v (map e_dst p).
Proof.
  induction p as [|e p IH]; intros u Hr Hne; [congruence|].
  destruct Hr as (_ & _ & Hr). destruct p as [|e' p'].
  - cbn in *. now left.
  - right. apply (IH (e_dst e)); [assumption|discriminate].
Qed.

(** The search finds every such route of at most [fuel] edges. *)
Lemma simple_paths_complete (es : list Edge) (tgt : node) :
  forall (p : list Edge) (fuel : nat) (visited : list node) (cur : node),
    route es cur tgt p -> List.NoDup (map e_dst p) ->
    (forall n, In n (map e_dst p) -> ~ In n visited) ->
    In cur visited -> (length p <= fuel)%nat ->
    In p (Nx.simple_paths fuel es visited cur tgt).
Proof.
  induction p as [|e p IH]; intros fuel visited cur Hr Hnd Hfresh Hcur Hlen.
  - cbn in Hr. subst cur. destruct fuel; cbn; rewrite Z.eqb_refl; now left.
  - assert (Hne : (cur =? tgt) = false).
    { apply Z.eqb_neq. intros ->.
      apply (Hfresh tgt); [|assumption].
      apply (route_ends es tgt (e :: p) tgt Hr). discriminate. }
    destruct fuel as [|fuel]; [cbn in Hlen; lia|].
    cbn [Nx.simple_paths]. rewrite Hne.
    destruct Hr as (He & Hsrc & Hr). apply in_flat_map. exists e. split; [assumption|].
    assert (Hvis : existsb (Z.eqb (e_dst e)) visited = false).
    { apply visited_false. apply Hfresh. now left. }
    rewrite Hvis, (proj2 (Z.eqb_eq _ _) Hsrc). cbn [andb negb].
    apply in_map. inversion Hnd as [|? ? Hnotin Hnd']; subst.
    apply IH; auto.
    + intros n Hn [<-|Hv]; [contradiction|]. apply (Hfresh n); [now right|assumption].
    + now left.
    + cbn in Hlen. lia.
Qed.

(** The least travel time of [route_time] ranges over exactly the simple
    routes: a simple route has at most as many edges as the graph. *)
Lemma simple_paths_exact (es : list Edge) (u v : node) (p : list Edge) :
  In p (Nx.simple_paths (length es) es [u] u v) <->
  route es u v p /\ simple_route u p.
Proof.
  split.
  - intros Hin. apply simple_paths_sound in Hin as (Hr & Hnd & Hfresh).
    split; [assumption|]. constructor; [|assumption].
    intros Hin. apply (Hfresh _ Hin). now left.
  - intros (Hr & Hs). inversion Hs as [|? ? Hnotin Hnd]; subst.
    apply simple_paths_complete; auto.
    + intros n Hn [<-|[]]. contradiction.
    + now left.
    + assert (Hincl : incl p es).
      { clear -Hr. revert u Hr. induction p as [|e p IH]; intros u Hr; [intros x []|].
        destruct Hr as (He & _ & Hr). intros x [<-|Hx]; [assumption|].
        now apply (IH (e_dst e)). }
      apply NoDup_incl_length; [|assumption].
      clear -Hnd. induction p as [|e p IH]; [constructor|].
      inversion Hnd as [|? ? Hnotin Hnd']; subst. constructor; [|now apply IH].
      intros Hin. apply Hnotin. now apply in_map.
Qed.

Lemma fold_add_nonneg (p : list Edge) :
  Forall (fun e => F.nonneg (travel_time e) = true) p ->
  forall acc, F.nonneg acc = true ->
    F.nonneg (fold_left (fun cost e => F.add cost (travel_time e)) p acc) = true.
Proof.
  induction 1 as [|e p He _ IH]; intros acc Hacc; cbn; [assumption|].
  apply IH, FRound.add_nonneg; assumption.
Qed.

Lemma path_weight_nonneg (p : list Edge) :
  Forall (fun e => F.nonneg (travel_time e) = true) p ->
  F.nonneg (Nx.path_weight p) = true.
Proof. intros H. now apply fold_add_nonneg. Qed.

Lemma min_cases (a b : float) :
  F.is_nan a = false -> F.is_nan b = false ->
  (Py.min a b = a \/ Py.min a b = b) /\
  F.leb (Py.min a b) a = true /\ F.leb (Py.min a b) b = true.
Proof.
  intros Ha Hb. unfold Py.min. destruct (F.ltb b a) eqn:E.
  - split; [auto|]. split; [now apply FOrder.ltb_leb|now apply FOrder.leb_refl].
  - split; [auto|]. split; [now apply FOrder.leb_refl|now apply FOrder.ltb_false_leb].
Qed.

Lemma fold_min_spec (ws : list float) :
  Forall (fun w => F.is_nan w = false) ws ->
  forall a, F.is_nan a = false ->
    In (fold_left Py.min ws a) (a :: ws) /\
    Forall (fun w => F.leb (fold_left Py.min ws a) w = true) (a :: ws).
Proof.
  induction 1 as [|w ws Hw _ IH]; intros a Ha; cbn [fold_left].
  - split; [now left|]. constructor; [now apply FOrder.leb_refl|constructor].
  - destruct (min_cases a w Ha Hw) as (Hor & Hla & Hlw).
    assert (Hm : F.is_nan (Py.min a w) = false) by (destruct Hor as [-> | ->]; auto).
    destruct (IH _ Hm) as (Hin & Hall).
    inversion Hall as [|? ? Hhd Htl]; subst. split.
    + destruct Hin as [Hin|Hin]; [|right; right; exact Hin].
      rewrite <- Hin. destruct Hor as [-> | ->]; [now left|right; now left].
    + constructor; [eapply FOrder.leb_trans; eauto|].
      constructor; [eapply FOrder.leb_trans; eauto|assumption].
Qed.

Lemma lightest_spec (ws : list float) (t : float) :
  Forall (fun w => F.is_nan w = false) ws ->
  Nx.lightest ws = Some t ->
  In t ws /\ Forall (fun w => F.leb t w = true) ws.
Proof.
  intros Hws. destruct ws as [|a ws]; [discriminate|].
  cbn. intros [= <-]. inversion Hws; subst. now apply fold_min_spec.
Qed.

Lemma lightest_some (ws : list float) (w : float) :
  In w ws -> exists t, Nx.lightest ws = Some t.
Proof. destruct ws; [contradiction|]. cbn. eauto. Qed.

(** More edges and more nodes never make the least travel time longer. *)
Lemma route_time_mono (g g' : MultiDiGraph) (u v : node) :
  incl (g_edges g) (g_edges g') ->
  (length (g_edges g) <= length (g_edges g'))%nat ->
  (forall n, Nx.has_node g n = true -> Nx.has_node g' n = true) ->
  Forall (fun e => F.nonneg (travel_time e) = true) (g_edges g') ->
  time_le (Nx.route_time g' u v) (Nx.route_time g u v).
Proof.
  intros Hincl Hlen Hnodes Hnn. unfold Nx.route_time.
  destruct (Nx.has_node g u && Nx.has_node g v) eqn:E; [|exact I].
  apply andb_true_iff in E as [Hu Hv].
  rewrite (Hnodes u Hu), (Hnodes v Hv). cbn [andb].
  set (ps := Nx.simple_paths _ (g_edges g) _ _ _).
  set (ps' := Nx.simple_paths _ (g_edges g') _ _ _).
  assert (Hsub : incl ps ps').
  { intros p Hp. eapply simple_paths_mono; eauto. }
  assert (Hnan' : Forall (fun w => F.is_nan w = false) (map Nx.path_weight ps')).
  { apply List.Forall_forall. intros w Hw. apply in_map_iff in Hw as (p & <- & Hp).
    apply FRound.nonneg_not_nan, path_weight_nonneg.
    apply List.Forall_forall. intros e He. rewrite List.Forall_forall in Hnn.
    apply Hnn. eapply simple_paths_edges; eauto. }
  assert (Hnan : Forall (fun w => F.is_nan w = false) (map Nx.path_weight ps)).
  { rewrite List.Forall_forall in *. intros w Hw. apply Hnan'.
    apply in_map_iff in Hw as (p & <- & Hp). apply in_map, Hsub, Hp. }
  destruct (Nx.lightest (map Nx.path_weight ps)) as [t|] eqn:Et; [|exact I].
  cbn. destruct (lightest_spec _ _ Hnan Et) as (Hin & _).
  assert (Hin' : In t (map Nx.path_weight ps')).
  { apply in_map_iff in Hin as (p & <- & Hp). apply in_map, Hsub, Hp. }
  destruct (lightest_some _ _ Hin') as (t' & Et').
  exists t'. split; [exact Et'|].
  destruct (lightest_spec _ _ Hnan' Et') as (_ & Hall).
  rewrite List.Forall_forall in Hall. now apply Hall.
Qed.

Lemma overlay_time_nonneg (te : TempEdge) :
  valid_overlay te = true -> F.nonneg (overlay_time te) = true.
Proof.
  destruct te as [[[u v] len] sp]. cbn. intros H.
  apply andb_true_iff in H as [Hl Hs].
  apply FRound.mul_nonneg; [now apply FRound.div_nonneg|reflexivity].
Qed.

Lemma valid_overlay_speed (te : TempEdge) :
  valid_overlay te = true -> F.is_zero (speed_of te) = false.
Proof.
  destruct te as [[[u v] len] sp]. cbn. intros H.
  apply andb_true_iff in H as [_ Hs]. now destruct sp.
Qed.

End Paths.

Section OverlayFacts.

Variable road_graph : option loc.
Variable ox_nearest_nodes : MultiDiGraph -> float -> float -> option node.

Local Abbreviation compute_od_time := (compute_od_time road_graph ox_nearest_nodes).

(** The overlay only adds to the copy of the road graph. *)
Lemma overlay_never_slower_general (origin dest : LatLng)
    (temp_edges : list TempEdge) (h : store) :
  (forall rg, road_graph = Some rg ->
     exists g, h !! rg = Some g /\
               Forall (fun e => F.nonneg (travel_time e) = true) (g_edges g)) ->
  Forall (fun te => valid_overlay te = true) temp_edges ->
  exists base scen,
    fst (compute_od_time origin dest [] h) = Ret base /\
    fst (compute_od_time origin dest temp_edges h) = Ret scen /\
    time_le scen base.
Proof.
  intros Hrg Hov. destruct road_graph as [rg|] eqn:E.
  - destruct (Hrg rg eq_refl) as (g & Hg & Hnn).
    assert (Hsp : Forall (fun te => F.is_zero (speed_of te) = false) temp_edges).
    { rewrite List.Forall_forall in *. intros te Hte. apply Paths.valid_overlay_speed; auto. }
    rewrite (compute_od_time_loaded (Some rg) ox_nearest_nodes rg g origin dest [])
      by (auto; constructor).
    rewrite (compute_od_time_loaded (Some rg) ox_nearest_nodes rg g origin dest temp_edges)
      by auto.
    cbn [fst]. eexists; eexists. split; [reflexivity|]. split; [reflexivity|].
    destruct (ox_nearest_nodes g (lng origin) (lat origin)) as [u|]; [|exact I].
    destruct (ox_nearest_nodes g (lng dest) (lat dest)) as [v|]; [|exact I].
    change (with_overlay g []) with g.
    apply Paths.route_time_mono.
    + rewrite with_overlay_edges. apply incl_appl, incl_refl.
    + rewrite with_overlay_edges, length_app. lia.
    + intros n Hn. now apply with_overlay_nodes.
    + rewrite with_overlay_edges. apply Forall_app. split; [exact Hnn|].
      clear -Hov. induction Hov as [|[[[u' v'] len] sp] rest Hte _ IH]; cbn; [constructor|].
      pose proof (Paths.overlay_time_nonneg _ Hte) as Ht.
      repeat constructor; auto.
  - rewrite !(compute_od_time_unloaded None) by reflexivity.
    cbn. eexists; eexists. split; [reflexivity|]. split; [reflexivity|]. exact I.
Qed.

End OverlayFacts.

(** C3. Adding overlay edges never increases the shortest travel time: on
    every network whose travel times are non-negative numbers, for every
    origin and destination and every list of overlay edges of non-negative
    length and positive speed, the time with the overlay is at most the time
    without it (no route counting as the longest time). In particular, on
    the network of two nodes and one edge of 1000 s, an overlay edge between
    the same nodes of computed time 200 s (10 km at 180 km/h) brings the
    result down to 200 s. *)
Theorem overlay_never_slower :
  (forall road_graph ox_nearest_nodes origin dest temp_edges (h : store),
     (forall rg, road_graph = Some rg ->
        exists g, h !! rg = Some g /\
                  Forall (fun e => F.nonneg (travel_time e) = true) (g_edges g)) ->
     Forall (fun te => valid_overlay te = true) temp_edges ->
     exists base scen,
       fst (compute_od_time road_graph ox_nearest_nodes origin dest [] h) = Ret base /\
       fst (compute_od_time road_graph ox_nearest_nodes origin dest temp_edges h)
         = Ret scen /\
       time_le scen base) /\
  (overlay_time (1, 2, F.of_Z 10, F.of_Z 180) = F.of_Z 200 /\
   fst (Example.od_time (Some Example.rg) (Example.place 17 0) (Example.place 17 20)
          [] Example.heap) = Ret (Some (F.of_Z 1000)) /\
   exists t,
     fst (Example.od_time (Some Example.rg) (Example.place 17 0) (Example.place 17 20)
            [(1, 2, F.of_Z 10, F.of_Z 180)] Example.heap) = Ret (Some t) /\
     F.leb t (F.of_Z 200) = true).
Proof.
  split.
  - intros. now apply overlay_never_slower_general.
  - split; [reflexivity|]. split; [vm_compute; reflexivity|].
    exists (F.of_Z 200). split; vm_compute; reflexivity.
Qed.

(** C3 on the two-node network. *)
Lemma overlay_never_slower_witness :
  exists base scen,
    fst (Example.od_time (Some Example.rg) (Example.place 17 0) (Example.place 17 20)
           [] Example.heap) = Ret base /\
    fst (Example.od_time (Some Example.rg) (Example.place 17 0) (Example.place 17 20)
           [(1, 2, F.of_Z 10, F.of_Z 180)] Example.heap) = Ret scen /\
    time_le scen base.
Proof.
  apply (proj1 overlay_never_slower).
  - intros rg [= <-]. exists Example.two_nodes. split; [reflexivity|].
    repeat constructor.
  - repeat constructor.
Defined.

(* ===================================================================== *)
(** * Scenario simulation *)
(* ===================================================================== *)

Section ScenarioFacts.

Variable flood_points : option (list Hotspot).
Variable road_graph : option loc.
Variables m_sin m_cos : float -> float.
Variables m_atan2 m_pow : float -> float -> float.
Variable ox_nearest_nodes : MultiDiGraph -> float -> float -> option node.
Variable within_buffer : list Point -> Z -> Hotspot -> bool.

Local Abbreviation compute_length_from_points :=
  (compute_length_from_points m_sin m_cos m_atan2 m_pow).
Local Abbreviation intervention_length :=
  (intervention_length m_sin m_cos m_atan2 m_pow).
Local Abbreviation nearest_node := (nearest_node road_graph ox_nearest_nodes).
Local Abbreviation compute_od_time := (compute_od_time road_graph ox_nearest_nodes).
Local Abbreviation scenario_seconds := (scenario_seconds road_graph ox_nearest_nodes).
Local Abbreviation traffic_model := (traffic_model road_graph ox_nearest_nodes).
Local Abbreviation delta_cells := (delta_cells flood_points within_buffer).
Local Abbreviation flood_model := (flood_model flood_points within_buffer).
Local Abbreviation simulate :=
  (simulate flood_points road_graph m_sin m_cos m_atan2 m_pow ox_nearest_nodes
     within_buffer).

(** ** The intervention length *)

Lemma intervention_length_falsy (req : ScenarioRequest) :
  approxLength req = None \/
  (exists x, approxLength req = Some x /\ F.is_zero x = true) ->
  intervention_length req = compute_length_from_points (roadPoints req).
Proof.
  unfold Main.intervention_length.
  intros [-> | (x & -> & Hx)]; [reflexivity|].
  unfold Py.truthy. now rewrite Hx.
Qed.

Lemma compute_length_short (points : list LatLng) :
  (length points < 2)%nat -> compute_length_from_points points = Ret F.zero.
Proof. destruct points as [|p [|q rest]]; cbn; auto; lia. Qed.

(** ** The traffic block *)

Lemma nearest_node_pure (la lo : float) (h : store) :
  exists r, nearest_node la lo h = (Ret r, h).
Proof.
  unfold Main.nearest_node. destruct road_graph; cbn; eauto.
Qed.

Lemma add_temp_edges_returns (G : loc) (temp_edges : list TempEdge) :
  Forall (fun te => F.is_zero (speed_of te) = false) temp_edges ->
  forall h, exists h', add_temp_edges G temp_edges h = (Ret tt, h').
Proof.
  induction 1 as [|[[[u v] len] sp] rest Hsp _ IH]; intros h; [cbn; eauto|].
  cbn [add_temp_edges]. unfold mbind, lift, Py.truediv.
  cbn in Hsp. rewrite Hsp. unfold Nx.add_edge. apply IH.
Qed.

Lemma compute_od_time_returns (o d : LatLng) (temp_edges : list TempEdge) (h : store) :
  Forall (fun te => F.is_zero (speed_of te) = false) temp_edges ->
  exists r h', compute_od_time o d temp_edges h = (Ret r, h').
Proof.
  intros Hsp. unfold Main.compute_od_time.
  destruct road_graph as [rg|] eqn:E; [|cbn; eauto].
  unfold mbind at 1. unfold Nx.copy.
  unfold mbind at 1.
  destruct (add_temp_edges_returns (fresh (dom h)) temp_edges Hsp
              (<[fresh (dom h) := default Nx.empty_graph (h !! rg)]> h))
    as (h' & ->).
  unfold mbind at 1.
  destruct (nearest_node_pure (lat o) (lng o) h') as (u & Hu).
  rewrite E in Hu. rewrite Hu.
  unfold mbind at 1.
  destruct (nearest_node_pure (lat d) (lng d) h') as (v & Hv).
  rewrite E in Hv. rewrite Hv.
  destruct u, v; cbn; eauto.
Qed.

Lemma scenario_seconds_returns (req : ScenarioRequest) (o d : LatLng) (len : float)
    (base : option float) (h : store) :
  exists scen h', scenario_seconds req o d len base h = (Ret scen, h').
Proof.
  unfold Main.scenario_seconds. destruct (roadPoints req) as [|p0 rest]; [cbn; eauto|].
  unfold mbind at 1.
  assert (Ht : exists t, road_graph_truthy road_graph h = (Ret t, h))
    by (unfold road_graph_truthy; destruct road_graph; cbn; eauto).
  destruct Ht as (t & ->). destruct t; [|cbn; eauto].
  unfold mbind at 1.
  destruct (nearest_node_pure (lat p0) (lng p0) h) as (u & ->).
  unfold mbind at 1.
  destruct (nearest_node_pure (lat (List.last rest p0)) (lng (List.last rest p0)) h)
    as (v & ->).
  destruct u as [u|], v as [v|]; try (cbn; eauto; fail).
  apply compute_od_time_returns. repeat constructor.
Qed.


Lemma heuristic_minutes_ok (req : ScenarioRequest) (len : float) (lanes : Z) :
  Z.abs lanes < 2 ^ 1023 ->
  heuristic_minutes req len lanes =
    Ret (heuristic_value (interventionType req) len lanes).
Proof.
  intros H. unfold heuristic_minutes, heuristic_value.
  rewrite (FRound.float_of_int_ok lanes 1023) by lia. cbn [obind].
  now destruct (interventionType req).
Qed.

(** The traffic block with origin and destination: both routing calls
    return, and the block answers by their two results. *)
Lemma traffic_model_eval (req : ScenarioRequest) (o d : LatLng)
    (length_km : float) (h : store) :
  origin req = Some o -> destination req = Some d ->
  Z.abs (lane_count req) < 2 ^ 1023 ->
  exists base scen h1 h2,
    compute_od_time o d [] h = (Ret base, h1) /\
    scenario_seconds req o d length_km base h1 = (Ret scen, h2) /\
    traffic_model req length_km (lane_count req) h =
      match base, scen with
      | Some b, Some s =>
          (Ret (F.sub (F.div s f60) (F.div b f60),
                Some (F.div b f60), Some (F.div s f60)), h2)
      | _, _ =>
          (Ret (heuristic_value (interventionType req) length_km (lane_count req),
                None, None), h2)
      end.
Proof.
  intros Ho Hd Hlanes.
  destruct (compute_od_time_returns o d [] h ltac:(constructor)) as (base & h1 & Hb).
  destruct (scenario_seconds_returns req o d length_km base h1) as (scen & h2 & Hs).
  exists base, scen, h1, h2. split; [exact Hb|]. split; [exact Hs|].
  unfold Main.traffic_model. rewrite Ho, Hd.
  unfold mbind at 1. rewrite Hb. unfold mbind at 1. rewrite Hs.
  destruct base as [b|], scen as [s|]; try reflexivity;
    unfold mbind, lift, mret; now rewrite heuristic_minutes_ok.
Qed.

Lemma traffic_model_returns (req : ScenarioRequest) (length_km : float) (h : store) :
  Z.abs (lane_count req) < 2 ^ 1023 ->
  exists r h', traffic_model req length_km (lane_count req) h = (Ret r, h').
Proof.
  intros Hlanes.
  destruct (origin req) as [o|] eqn:Ho, (destination req) as [d|] eqn:Hd;
    try (unfold Main.traffic_model; rewrite Ho, ?Hd; cbn; eauto; fail).
  destruct (traffic_model_eval req o d length_km h Ho Hd Hlanes)
    as (base & scen & h1 & h2 & _ & _ & ->).
  destruct base, scen; eauto.
Qed.


(** ** The flood block *)

Lemma population_returns (cells : Z) :
  0 <= cells < 2 ^ 1000 ->
  exists ratio pop,
    Py.int_truediv cells baseline_cells = Ret ratio /\
    F.floor (F.mul (F.of_Z baseline_pop) ratio) = Some pop /\
    Py.int (F.mul (F.of_Z baseline_pop) ratio) = Ret pop.
Proof.
  intros Hc.
  destruct (FArith.int_truediv_finite cells baseline_cells 1000)
    as (ratio & Hr & Hnn & Hmag); [lia|exact Hc|reflexivity|].
  exists ratio. rewrite FArith.mul_comm.
  let v := eval vm_compute in (F.of_Z baseline_pop) in
    change (F.of_Z baseline_pop) with v.
  match goal with
  | |- context [F.mul ratio (S754_finite false ?m ?e)] =>
      pose proof (FRound.mul_finite ratio 1001 false m e 53 Hmag
                    ltac:(lia) ltac:(lia) ltac:(reflexivity) ltac:(lia)) as Hfin;
      pose proof (FRound.mul_nonneg ratio (S754_finite false m e) Hnn eq_refl) as Hpos
  end.
  apply FRound.mag_le_finite in Hfin.
  destruct (FRound.int_floor _ Hpos Hfin) as (pop & Hfl & _ & Hint).
  exists pop. auto.
Qed.

Lemma flood_model_returns (req : ScenarioRequest) (len : float) (delta : Z) :
  delta_cells req len = Ret delta -> Z.abs delta < 2 ^ 999 ->
  exists pop,
    flood_model req len = Ret (Z.max 0 (baseline_cells + delta), pop).
Proof.
  intros Hd Hb. unfold Main.flood_model. rewrite Hd. cbn [obind].
  assert (Hc : 0 <= Z.max 0 (baseline_cells + delta) < 2 ^ 1000).
  { unfold baseline_cells. change (2 ^ 1000) with (2 * 2 ^ 999).
    assert (1000 < 2 ^ 999) by reflexivity. lia. }
  destruct (population_returns _ Hc) as (ratio & pop & Hr & _ & Hp).
  rewrite Hr. cbn [obind]. rewrite Hp. cbn [obind]. eauto.
Qed.

Lemma delta_cells_single_point (pts : list Hotspot) (req : ScenarioRequest)
    (len : float) (p : LatLng) :
  flood_points = Some pts -> roadPoints req = [p] ->
  delta_cells req len = Raise GeometryError /\
  flood_model req len = Raise GeometryError.
Proof.
  intros Hfp Hpath.
  assert (Hd : delta_cells req len = Raise GeometryError).
  { unfold Main.delta_cells, spatial_delta. rewrite Hfp, Hpath. reflexivity. }
  split; [exact Hd|]. unfold Main.flood_model. now rewrite Hd.
Qed.

Lemma delta_cells_spatial (pts : list Hotspot) (req : ScenarioRequest) (len : float)
    (p0 p1 : LatLng) (rest : list LatLng) :
  flood_points = Some pts -> roadPoints req = p0 :: p1 :: rest ->
  delta_cells req len =
    Ret (signed_count (interventionType req)
           (Z.of_nat (length (List.filter
              (within_buffer
                 (map (fun p => {| px := lng p; py := lat p |}) (roadPoints req))
                 100) pts)))).
Proof.
  intros Hfp Hpath. unfold Main.delta_cells, spatial_delta.
  rewrite Hfp, Hpath. cbn [Shapely.LineString map obind].
  now destruct (interventionType req).
Qed.

Lemma signed_count_bound (kind : Intervention) (count : Z) :
  Z.abs (signed_count kind count) <= 2 * Z.abs count.
Proof. destruct kind; cbn; lia. Qed.

(** ** The whole simulation *)

(** [simulate] returns a response as soon as the intervention length is
    computed, the lane count is within the range of the floats and the risk
    cell change is computed and moderate. *)
Lemma simulate_returns (req : ScenarioRequest) (len : float) (delta : Z) (h : store) :
  intervention_length req = Ret len ->
  Z.abs (lane_count req) < 2 ^ 1023 ->
  delta_cells req len = Ret delta -> Z.abs delta < 2 ^ 999 ->
  exists resp h',
    simulate req h = (Ret resp, h') /\
    scenarioHighRiskCells (flood resp) = Z.max 0 (baseline_cells + delta) /\
    notes resp = ("Intervention length " ++ Py.format_2f len ++ " km.")%string.
Proof.
  intros Hlen Hlanes Hd Hb. unfold Main.simulate. rewrite Hlen.
  unfold mbind at 1. unfold lift at 1. unfold mbind at 1.
  destruct (traffic_model_returns req len h Hlanes) as ([[mc bm] sm] & h' & ->).
  unfold mbind at 1. unfold lift at 1.
  destruct (flood_model_returns req len delta Hd Hb) as (pop & ->).
  cbn. eexists; eexists. split; [reflexivity|]. split; reflexivity.
Qed.

(** With the dataset loaded and a path of two points or more, an explicit
    length and a lane count in range, [simulate] returns. *)
Lemma simulate_returns_spatial (req : ScenarioRequest) (pts : list Hotspot)
    (x : float) (p0 p1 : LatLng) (rest : list LatLng) (h : store) :
  flood_points = Some pts -> Z.of_nat (length pts) < 2 ^ 64 ->
  roadPoints req = p0 :: p1 :: rest ->
  approxLength req = Some x -> F.is_zero x = false ->
  Z.abs (lane_count req) < 2 ^ 1023 ->
  exists resp h', simulate req h = (Ret resp, h').
Proof.
  intros Hfp Hn Hpath Hx Hnz Hlanes.
  assert (Hlen : intervention_length req = Ret x).
  { unfold Main.intervention_length, Py.truthy. now rewrite Hx, Hnz. }
  pose proof (delta_cells_spatial pts req x p0 p1 rest Hfp Hpath) as Hd.
  destruct (simulate_returns req x _ h Hlen Hlanes Hd) as (resp & h' & Hs & _).
  - pose proof (List.filter_length_le
                  (within_buffer
                     (map (fun p => {| px := lng p; py := lat p |}) (roadPoints req))
                     100) pts) as Hle.
    pose proof (signed_count_bound (interventionType req)
                  (Z.of_nat (length (List.filter
                     (within_buffer
                        (map (fun p => {| px := lng p; py := lat p |})
                           (roadPoints req)) 100) pts)))) as Hsc.
    assert (2 ^ 66 < 2 ^ 999) by reflexivity.
    change (2 ^ 66) with (4 * 2 ^ 64) in *. lia.
  - eauto.
Qed.

End ScenarioFacts.



(** C7. With the dataset loaded and a path of at least two points, the risk
    cell change is the count of hotspots within the 100 m buffer, signed by
    the kind of intervention: road [+count], drain [-2*count], green
    [-count], restriction [-2*count]; the scenario cells are
    [max(0, 1000 + delta)]. On a path of exactly one point the flood block
    raises instead: the line of a single point cannot be built. *)
Theorem spatial_delta_by_kind :
  (forall within_buffer pts req len p0 p1 rest,
     roadPoints req = p0 :: p1 :: rest ->
     Z.of_nat (length pts) < 2 ^ 64 ->
     exists count pop,
       count = Z.of_nat (length (List.filter
                 (within_buffer
                    (map (fun p => {| px := lng p; py := lat p |}) (roadPoints req))
                    100) pts)) /\
       delta_cells (Some pts) within_buffer req len =
         Ret (signed_count (interventionType req) count) /\
       flood_model (Some pts) within_buffer req len =
         Ret (Z.max 0 (1000 + signed_count (interventionType req) count), pop)) /\
  (forall count,
     signed_count road count = count /\
     signed_count drain count = - 2 * count /\
     signed_count green count = - count /\
     signed_count restriction count = - 2 * count) /\
  (forall within_buffer pts req len p,
     roadPoints req = [p] ->
     delta_cells (Some pts) within_buffer req len = Raise GeometryError /\
     flood_model (Some pts) within_buffer req len = Raise GeometryError) /\
  fst (Example.run (Some (Example.hotspots 3)) None
         (Example.request drain 20 None [Example.place 17 1] None) ∅)
    = Raise GeometryError.
Proof.
  split; [|split; [|split]].
  - intros within_buffer pts req len p0 p1 rest Hpath Hlen.
    eexists.
    pose proof (delta_cells_spatial (Some pts) within_buffer pts req len p0 p1 rest
                  eq_refl Hpath) as Hd.
    destruct (flood_model_returns (Some pts) within_buffer req len _ Hd) as (pop & Hp).
    { pose proof (List.filter_length_le
                    (within_buffer
                       (map (fun p => {| px := lng p; py := lat p |}) (roadPoints req))
                       100) pts) as Hle.
      pose proof (signed_count_bound (interventionType req)
                    (Z.of_nat (length (List.filter
                       (within_buffer
                          (map (fun p => {| px := lng p; py := lat p |})
                             (roadPoints req)) 100) pts)))) as Hsc.
      assert (2 ^ 66 < 2 ^ 999) by reflexivity.
      change (2 ^ 66) with (4 * 2 ^ 64) in *. lia. }
    exists pop. split; [reflexivity|]. split; [exact Hd|exact Hp].
  - intros count. cbn. repeat split; lia.
  - intros within_buffer pts req len p Hpath.
    now apply (delta_cells_single_point (Some pts) within_buffer pts req len p).
  - vm_compute. reflexivity.
Qed.

(** C8. Without the dataset or without a path the risk cell change is
    [round(length * max(0.01, rainfall/100) * k)], with [k] 10 for a road
    (added), 15 for a drain, 8 for green and 12 for a restriction
    (subtracted). For a drain of 2 km at 40 mm the change is -12, the
    scenario cells are 988 and the scenario population is 494000. The
    population is the product [500000 * (cells / 1000)] truncated, which is
    not always [round(500000 * cells / 1000)]: for a road of 1 km at 10 mm
    the cells are 1001 and the population 500499, not 500500. *)
Theorem fallback_delta_and_population :
  (forall req len,
     Z.abs (rainfall req) < 2 ^ 1023 ->
     let rf := Py.max (F.dec 1 100) (F.div (F.of_Z (rainfall req)) (F.of_Z 100)) in
     let x := F.mul (F.mul len rf) (fallback_factor (interventionType req)) in
     F.is_finite x = true ->
     exists r,
       F.round_half_even x = Some r /\
       fallback_delta req len =
         Ret (match interventionType req with road => r | _ => - r end)) /\
  (fallback_factor road = F.of_Z 10 /\ fallback_factor drain = F.of_Z 15 /\
   fallback_factor green = F.of_Z 8 /\ fallback_factor restriction = F.of_Z 12) /\
  (let req := Example.request drain 40 (Some (F.of_Z 2)) [] None in
   fallback_delta req (F.of_Z 2) = Ret (-12) /\
   exists resp,
     fst (Example.run None None req ∅) = Ret resp /\
     flood resp = {| baselineHighRiskCells := 1000; scenarioHighRiskCells := 988;
                     baselinePop := 500000; scenarioPop := 494000 |}) /\
  (let req := Example.request road 10 (Some (F.of_Z 1)) [] None in
   fallback_delta req (F.of_Z 1) = Ret 1 /\
   (exists resp,
      fst (Example.run None None req ∅) = Ret resp /\
      flood resp = {| baselineHighRiskCells := 1000; scenarioHighRiskCells := 1001;
                      baselinePop := 500000; scenarioPop := 500499 |}) /\
   Py.round (F.div (F.of_Z (500000 * 1001)) (F.of_Z 1000)) = Ret 500500).
Proof.
  split; [|split; [|split]].
  - intros req len Hrain rf x Hfin. subst rf x.
    unfold fallback_delta. rewrite (FRound.float_of_int_ok _ 1023) by lia.
    cbn [obind]. change f0_01 with (F.dec 1 100). change f100 with (F.of_Z 100).
    set (x := F.mul _ (fallback_factor _)) in *.
    assert (Hr : exists r, F.round_half_even x = Some r /\ Py.round x = Ret r).
    { destruct x; try discriminate; cbn; eauto. }
    destruct Hr as (r & Hr1 & Hr2). exists r. split; [exact Hr1|].
    subst x. destruct (interventionType req); cbn [fallback_factor] in *;
      rewrite Hr2; reflexivity.
  - repeat split.
  - cbv zeta. split; [vm_compute; reflexivity|].
    returns_value. reflexivity.
  - cbv zeta. split; [vm_compute; reflexivity|]. split.
    + returns_value. reflexivity.
    + vm_compute. reflexivity.
Qed.

(** C1. [simulate] does raise on a valid request: with the dataset loaded,
    every request whose path has exactly one point ends in an exception,
    whatever the network and the store. The point passes the guard of the
    flood block, which only refuses the empty path, and the line of a single
    point cannot be built. *)
Theorem single_point_path_raises :
  (forall pts road_graph m_sin m_cos m_atan2 m_pow ox_nearest_nodes within_buffer
          req p (h : store),
     roadPoints req = [p] ->
     exists e,
       fst (simulate (Some pts) road_graph m_sin m_cos m_atan2 m_pow
              ox_nearest_nodes within_buffer req h) = Raise e) /\
  fst (Example.run (Some (Example.hotspots 3)) (Some Example.rg)
         (Example.request road 20 None [Example.place 17 1]
            (Some (Example.place 17 0, Example.place 17 20)))
         Example.heap) = Raise GeometryError.
Proof.
  split; [|vm_compute; reflexivity].
  intros pts road_graph m_sin m_cos m_atan2 m_pow ox within_buffer req p h Hpath.
  unfold simulate.
  assert (Hlen : exists len,
            intervention_length m_sin m_cos m_atan2 m_pow req = Ret len).
  { unfold intervention_length. rewrite Hpath. cbn.
    destruct (approxLength req) as [x|]; [destruct (Py.truthy x)|]; eauto. }
  destruct Hlen as (len & Hlen). rewrite Hlen.
  unfold mbind at 1. unfold lift at 1.
  unfold mbind at 1.
  destruct (traffic_model road_graph ox req len (lane_count req) h)
    as [[[[mc bm] sm]|e] h']; [|cbn; eauto].
  unfold mbind at 1. unfold lift at 1.
  destruct (delta_cells_single_point (Some pts) within_buffer pts req len p
              eq_refl Hpath) as (_ & ->).
  cbn. eauto.
Qed.

(* ===================================================================== *)
(** * Further properties: alerts *)
(* ===================================================================== *)

(** X1. More rain never lowers the severity: for two rainfalls in order,
    the severity of the smaller one is at most the severity of the larger
    one. *)
Theorem classify_severity_monotone (r1 r2 : float) :
  F.leb r1 r2 = true ->
  severity_rank (classify_severity r1) <= severity_rank (classify_severity r2).
Proof.
  intros H.
  pose proof (FOrder.leb_ltb_trans r1 r2 f10 H) as H10.
  pose proof (FOrder.leb_ltb_trans r1 r2 f25 H) as H25.
  pose proof (FOrder.leb_ltb_trans r1 r2 f50 H) as H50.
  unfold classify_severity.
  destruct (F.ltb r2 f10); [rewrite H10 by reflexivity; cbn; lia|].
  destruct (F.ltb r2 f25);
    [rewrite H25 by reflexivity; destruct (F.ltb r1 f10); cbn; lia|].
  destruct (F.ltb r2 f50);
    [rewrite H50 by reflexivity; destruct (F.ltb r1 f10), (F.ltb r1 f25); cbn; lia|].
  destruct (F.ltb r1 f10), (F.ltb r1 f25), (F.ltb r1 f50); cbn; lia.
Qed.

Lemma classify_severity_monotone_witness :
  F.leb (F.dec 999 100) (F.of_Z 30) = true /\
  severity_rank (classify_severity (F.dec 999 100))
    <= severity_rank (classify_severity (F.of_Z 30)).
Proof.
  split; [reflexivity|].
  apply (classify_severity_monotone (F.dec 999 100) (F.of_Z 30)). reflexivity.
Defined.

(** X2. The severity of an alert and the fraction of hotspots it activates
    go by the same tiers: low with 0.05, moderate with 0.15, high with 0.40
    and critical with 0.70 or 1.0, for every rainfall, NaN included. *)
Theorem severity_matches_fraction (r : float) :
  (classify_severity r = low <-> activation_fraction r = F.dec 5 100) /\
  (classify_severity r = moderate <-> activation_fraction r = F.dec 15 100) /\
  (classify_severity r = high <-> activation_fraction r = F.dec 40 100) /\
  (classify_severity r = critical <->
     activation_fraction r = F.dec 70 100 \/ activation_fraction r = F.of_Z 1).
Proof.
  change (F.dec 5 100) with f0_05. change (F.dec 15 100) with f0_15.
  change (F.dec 40 100) with f0_40. change (F.dec 70 100) with f0_70.
  change (F.of_Z 1) with f1.
  unfold classify_severity, activation_fraction, f0_05, f0_15, f0_40, f0_70, f1.
  destruct (F.ltb r f10), (F.ltb r f25), (F.ltb r f50), (F.ltb r f100);
    repeat split; intros; try discriminate; try reflexivity;
    try (left; reflexivity); try (right; reflexivity);
    match goal with H : _ \/ _ |- _ => destruct H; discriminate end.
Qed.

(** X3. More rain never activates a smaller fraction of the hotspots. *)
Theorem activation_fraction_monotone (r1 r2 : float) :
  F.leb r1 r2 = true ->
  F.leb (activation_fraction r1) (activation_fraction r2) = true.
Proof.
  intros H.
  pose proof (FOrder.leb_ltb_trans r1 r2 f10 H) as H10.
  pose proof (FOrder.leb_ltb_trans r1 r2 f25 H) as H25.
  pose proof (FOrder.leb_ltb_trans r1 r2 f50 H) as H50.
  pose proof (FOrder.leb_ltb_trans r1 r2 f100 H) as H100.
  unfold activation_fraction.
  destruct (F.ltb r2 f10); [rewrite H10 by reflexivity; reflexivity|].
  destruct (F.ltb r2 f25);
    [rewrite H25 by reflexivity; destruct (F.ltb r1 f10); reflexivity|].
  destruct (F.ltb r2 f50);
    [rewrite H50 by reflexivity;
     destruct (F.ltb r1 f10), (F.ltb r1 f25); reflexivity|].
  destruct (F.ltb r2 f100);
    [rewrite H100 by reflexivity;
     destruct (F.ltb r1 f10), (F.ltb r1 f25), (F.ltb r1 f50); reflexivity|].
  destruct (F.ltb r1 f10), (F.ltb r1 f25), (F.ltb r1 f50), (F.ltb r1 f100);
    reflexivity.
Qed.

Lemma activation_fraction_monotone_witness :
  F.leb (activation_fraction (F.of_Z 12)) (activation_fraction (F.of_Z 60)) = true.
Proof.
  apply (activation_fraction_monotone (F.of_Z 12) (F.of_Z 60)). reflexivity.
Defined.

Lemma in_firstn {A : Type} (n : nat) (l : list A) (x : A) :
  In x (firstn n l) -> In x l.
Proof.
  intros H. rewrite <- (firstn_skipn n l). apply in_or_app. now left.
Qed.

Section MoreAlertFacts.

Variable cx : float -> float -> float -> float -> Hotspot -> bool.

(** X4. [generate_alert_from_rainfall] raises exactly when the dataset is
    not loaded, and then a [RuntimeError]; with the dataset loaded it
    returns an alert that carries the rainfall it was given. *)
Theorem alert_raises_only_without_dataset
    (flood_points : option (list Hotspot)) (r : float) (bbox : option (list float)) :
  (forall pts, flood_points = Some pts ->
               Z.of_nat (length (restrict cx pts bbox)) < 2 ^ 64) ->
  (flood_points = None ->
     generate_alert_from_rainfall flood_points cx r bbox =
       Raise (RuntimeError "Flood points dataset not loaded on server.")) /\
  (forall pts, flood_points = Some pts ->
     exists a, generate_alert_from_rainfall flood_points cx r bbox = Ret a /\
               rainfall_mm a = r).
Proof.
  intros Hlen. split.
  - intros ->. reflexivity.
  - intros pts ->. specialize (Hlen pts eq_refl).
    destruct (restrict cx pts bbox) as [|p ps] eqn:E.
    + rewrite (alert_empty cx pts bbox r E). eauto.
    + assert (Hne : restrict cx pts bbox <> []) by (rewrite E; discriminate).
      rewrite <- E in Hlen.
      destruct (alert_nonempty cx pts bbox r Hne Hlen) as (n & _ & _ & ->). eauto.
Qed.

(** X5. A bounding box that is not a list of exactly four numbers is
    ignored: the alert is the one without a bounding box. With four numbers,
    every affected point comes from a hotspot of the dataset that lies in
    the window. *)
Theorem alert_bounding_box
    (flood_points : option (list Hotspot)) (r : float) :
  (forall b, length b <> 4%nat ->
     generate_alert_from_rainfall flood_points cx r (Some b) =
     generate_alert_from_rainfall flood_points cx r None) /\
  (forall pts minx miny maxx maxy a,
     flood_points = Some pts ->
     generate_alert_from_rainfall flood_points cx r (Some [minx; miny; maxx; maxy])
       = Ret a ->
     forall p, In p (affected_points a) ->
       exists h, In h pts /\ cx minx maxx miny maxy h = true /\ p = out_point h).
Proof.
  split.
  - intros b Hb. unfold generate_alert_from_rainfall, restrict.
    destruct b as [|b1 [|b2 [|b3 [|b4 [|b5 b]]]]]; try reflexivity.
    cbn in Hb. congruence.
  - intros pts minx miny maxx maxy a -> Ha p Hp.
    unfold generate_alert_from_rainfall in Ha.
    set (sel := restrict cx pts (Some [minx; miny; maxx; maxy])) in *.
    assert (Hsel : forall h, In h sel -> In h pts /\ cx minx maxx miny maxy h = true).
    { intros h Hh. subst sel. cbn in Hh. now apply List.filter_In in Hh. }
    destruct (Z.of_nat (length sel) =? 0); [injection Ha as <-; destruct Hp|].
    destruct (Py.float_of_int _) as [ft|e]; [|discriminate]. cbn [obind] in Ha.
    destruct (Py.int _) as [n|e]; [|discriminate]. cbn [obind] in Ha.
    injection Ha as <-. cbn in Hp.
    apply in_map_iff in Hp as (h & <- & Hh). exists h.
    apply in_firstn, Hsel in Hh. tauto.
Qed.

(** X6. Over a non-empty collection an alert always has at least one
    affected point, however little it rains, and never more than the
    collection holds; the number of points is the affected count, capped by
    the size of the collection. *)
Theorem alert_affected_points_count
    (all_pts : list Hotspot) (bbox : option (list float)) (r : float) :
  restrict cx all_pts bbox <> [] ->
  Z.of_nat (length (restrict cx all_pts bbox)) < 2 ^ 64 ->
  exists a,
    generate_alert_from_rainfall (Some all_pts) cx r bbox = Ret a /\
    1 <= affected_count a /\
    (1 <= length (affected_points a) <= length (restrict cx all_pts bbox))%nat /\
    length (affected_points a) =
      Nat.min (Z.to_nat (affected_count a)) (length (restrict cx all_pts bbox)).
Proof.
  intros Hne Hlen.
  destruct (alert_nonempty cx all_pts bbox r Hne Hlen) as (n & _ & Hn & ->).
  eexists. split; [reflexivity|]. cbn [affected_count affected_points].
  rewrite length_map, length_firstn.
  destruct (restrict cx all_pts bbox) as [|p ps]; [congruence|]. cbn [length].
  split; lia.
Qed.

End MoreAlertFacts.

Lemma alert_raises_only_without_dataset_witness :
  exists a,
    Example.alert (Some (Example.hotspots 20)) (F.of_Z 30)
      (Some [F.of_Z 0; F.of_Z 0; F.of_Z 9; F.of_Z 20]) = Ret a /\
    rainfall_mm a = F.of_Z 30.
Proof.
  apply (proj2 (alert_raises_only_without_dataset Example.window
                  (Some (Example.hotspots 20)) (F.of_Z 30)
                  (Some [F.of_Z 0; F.of_Z 0; F.of_Z 9; F.of_Z 20])
                  ltac:(intros pts [= <-]; reflexivity))
           (Example.hotspots 20) eq_refl).
Defined.

Lemma alert_affected_points_count_witness :
  exists a,
    Example.alert (Some (Example.hotspots 20)) (F.of_Z 1)
      (Some [F.of_Z 0; F.of_Z 0; F.of_Z 9; F.of_Z 20]) = Ret a /\
    1 <= affected_count a /\
    (1 <= length (affected_points a) <= 10)%nat.
Proof.
  destruct (alert_affected_points_count Example.window (Example.hotspots 20)
              (Some [F.of_Z 0; F.of_Z 0; F.of_Z 9; F.of_Z 20]) (F.of_Z 1))
    as (a & Ha & Hc & Hl & _).
  - discriminate.
  - reflexivity.
  - exists a. split; [exact Ha|]. split; [exact Hc|]. exact Hl.
Defined.

(** ** The properties of a row *)

Lemma fold_properties (cols : list (string * cell)) :
  forall (d : gmap string native) (k : string),
    fold_left (fun d kv => <[fst kv := to_native (snd kv)]> d) cols d !! k =
    match last_value k cols with
    | Some v => Some (to_native v)
    | None => d !! k
    end.
Proof.
  induction cols as [|[k' v] rest IH]; intros d k; [reflexivity|].
  cbn [fold_left last_value fst snd]. rewrite IH.
  destruct (last_value k rest); [reflexivity|].
  destruct (String.eqb_spec k' k) as [->|Hne].
  - apply lookup_insert_eq.
  - now apply lookup_insert_ne.
Qed.

Lemma last_value_none (k : string) (cols : list (string * cell)) :
  last_value k cols = None <-> ~ In k (map fst cols).
Proof.
  induction cols as [|[k' v] rest IH]; cbn; [tauto|].
  destruct (last_value k rest).
  - split; [discriminate|]. intros H. exfalso. apply H. right.
    destruct (in_dec string_dec k (map fst rest)) as [Hin|Hout]; [assumption|].
    apply IH in Hout. discriminate.
  - destruct (String.eqb_spec k' k) as [->|Hne].
    + split; [discriminate|]. intros H. exfalso. apply H. now left.
    + split; [|reflexivity]. intros _ [Heq|Hin]; [contradiction|].
      now apply (proj1 IH).
Qed.

Lemma last_value_nodup (k : string) (v : cell) (cols : list (string * cell)) :
  List.NoDup (map fst cols) -> In (k, v) cols -> last_value k cols = Some v.
Proof.
  induction cols as [|[k' v'] rest IH]; intros Hnd Hin; [destruct Hin|].
  cbn in Hnd. inversion Hnd as [|? ? Hnotin Hnd']; subst.
  cbn [last_value]. destruct Hin as [[= -> ->]|Hin].
  - apply last_value_none in Hnotin. now rewrite Hnotin, String.eqb_refl.
  - now rewrite (IH Hnd' Hin).
Qed.

(** X7. The properties of a row hold, for every column name, the native
    value of the last column of that name, and nothing else: a name that is
    not a column has no entry, and with distinct names every column is found
    under its name. *)
Theorem row_properties_lookup (row : Hotspot) :
  (forall k, row_properties_safe row !! k =
             option_map to_native (last_value k (columns row))) /\
  (forall k, row_properties_safe row !! k = None <->
             ~ In k (map fst (columns row))) /\
  (List.NoDup (map fst (columns row)) ->
   forall k v, In (k, v) (columns row) ->
               row_properties_safe row !! k = Some (to_native v)).
Proof.
  assert (H1 : forall k, row_properties_safe row !! k =
                         option_map to_native (last_value k (columns row))).
  { intros k. unfold row_properties_safe. rewrite fold_properties.
    destruct (last_value k (columns row)); [reflexivity|apply lookup_empty]. }
  split; [exact H1|]. split.
  - intros k. rewrite H1, <- last_value_none.
    destruct (last_value k (columns row)); cbn; split; congruence.
  - intros Hnd k v Hin. now rewrite H1, (last_value_nodup k v _ Hnd Hin).
Qed.

(* ===================================================================== *)
(** * Further properties: routing *)
(* ===================================================================== *)

Section MoreRoutingFacts.

Variable road_graph : option loc.
Variable ox_nearest_nodes : MultiDiGraph -> float -> float -> option node.

Local Abbreviation compute_od_time := (compute_od_time road_graph ox_nearest_nodes).

Lemma add_temp_edges_zero (G : loc) (temp_edges : list TempEdge) :
  Exists (fun te => F.is_zero (speed_of te) = true) temp_edges ->
  forall h, fst (add_temp_edges G temp_edges h) = Raise ZeroDivisionError.
Proof.
  induction temp_edges as [|[[[u v] len] sp] rest IH]; intros Hex h.
  - inversion Hex.
  - cbn [add_temp_edges]. unfold mbind, lift, Py.truediv.
    destruct (F.is_zero sp) eqn:Hsp; [reflexivity|].
    unfold Nx.add_edge. apply IH.
    inversion Hex as [? ? Hhd|? ? Htl]; subst; [|assumption].
    cbn in Hhd. congruence.
Qed.

(** X8. An overlay edge of speed zero makes [compute_od_time] raise
    [ZeroDivisionError] as soon as the road graph is loaded, before any
    node is resolved and outside the [try] that guards the routing; without
    a road graph the overlay is never read and the answer is [None]. *)
Theorem overlay_zero_speed_raises (origin dest : LatLng) (temp_edges : list TempEdge)
    (h : store) :
  Exists (fun te => F.is_zero (speed_of te) = true) temp_edges ->
  (forall rg, road_graph = Some rg ->
     fst (compute_od_time origin dest temp_edges h) = Raise ZeroDivisionError) /\
  (road_graph = None ->
     compute_od_time origin dest temp_edges h = (Ret None, h)).
Proof.
  intros Hex. split.
  - intros rg Hrg. unfold Main.compute_od_time. rewrite Hrg.
    unfold mbind at 1. unfold Nx.copy. unfold mbind at 1.
    pose proof (add_temp_edges_zero (fresh (dom h)) temp_edges Hex
                  (<[fresh (dom h) := default Nx.empty_graph (h !! rg)]> h)) as Hz.
    destruct (add_temp_edges _ _ _) as [[[]|e] h']; cbn in Hz; [discriminate|].
    now injection Hz as ->.
  - intros Hrg. unfold Main.compute_od_time. now rewrite Hrg.
Qed.

Lemma weights_not_nan (es : list Edge) (fuel : nat) (visited : list node)
    (cur tgt : node) :
  Forall (fun e => F.nonneg (travel_time e) = true) es ->
  Forall (fun w => F.is_nan w = false)
    (map Nx.path_weight (Nx.simple_paths fuel es visited cur tgt)).
Proof.
  intros Hnn. apply List.Forall_forall. intros w Hw.
  apply in_map_iff in Hw as (p & <- & Hp).
  apply FRound.nonneg_not_nan, Paths.path_weight_nonneg.
  apply List.Forall_forall. intros e He. rewrite List.Forall_forall in Hnn.
  apply Hnn. eapply Paths.simple_paths_edges; eauto.
Qed.

(** The least travel time is at most the travel time of any simple route. *)
Lemma route_time_le_route (g : MultiDiGraph) (u v : node) (p : list Edge) :
  Forall (fun e => F.nonneg (travel_time e) = true) (g_edges g) ->
  Nx.has_node g u = true -> Nx.has_node g v = true ->
  route (g_edges g) u v p -> simple_route u p ->
  exists t, Nx.route_time g u v = Some t /\ F.leb t (Nx.path_weight p) = true.
Proof.
  intros Hnn Hu Hv Hr Hs. unfold Nx.route_time. rewrite Hu, Hv. cbn [andb].
  assert (Hin : In p (Nx.simple_paths (length (g_edges g)) (g_edges g) [u] u v))
    by (apply Paths.simple_paths_exact; auto).
  apply (in_map Nx.path_weight) in Hin.
  destruct (Paths.lightest_some _ _ Hin) as (t & Ht).
  exists t. split; [exact Ht|].
  destruct (Paths.lightest_spec _ _ (weights_not_nan _ _ _ _ _ Hnn) Ht) as (_ & Hall).
  rewrite List.Forall_forall in Hall. now apply Hall.
Qed.

Lemma add_zero_leb (t : float) :
  F.nonneg t = true -> F.leb (F.add F.zero t) t = true.
Proof.
  destruct t as [[]|[]| |[] m e]; try discriminate; intros _; try reflexivity.
  change (F.add F.zero (S754_finite false m e)) with (S754_finite false m e).
  now apply FOrder.leb_refl.
Qed.

Lemma has_node_with_node (n m : node) (ns : list node) :
  existsb (Z.eqb m) (Nx.with_node n ns) = true <->
  m = n \/ existsb (Z.eqb m) ns = true.
Proof.
  unfold Nx.with_node. destruct (existsb (Z.eqb n) ns) eqn:E.
  - split; [auto|]. intros [->|H]; auto.
  - rewrite existsb_app. cbn. rewrite orb_false_r, orb_true_iff, Z.eqb_eq. tauto.
Qed.

(** X9. The overlay edge is usable in both directions and bounds the
    scenario time: on a network of non-negative travel times, when origin
    and destination resolve to the two ends of the overlay edge, in either
    order, the scenario time exists and is at most the travel time of the
    overlay edge, [(length_km / speed) * 3600]. *)
Theorem overlay_edge_bounds_time (rg : loc) (g : MultiDiGraph) (origin dest : LatLng)
    (a b : node) (length_km speed : float) (h : store) :
  road_graph = Some rg -> h !! rg = Some g ->
  Forall (fun e => F.nonneg (travel_time e) = true) (g_edges g) ->
  valid_overlay (a, b, length_km, speed) = true ->
  (ox_nearest_nodes g (lng origin) (lat origin) = Some a /\
   ox_nearest_nodes g (lng dest) (lat dest) = Some b) \/
  (ox_nearest_nodes g (lng origin) (lat origin) = Some b /\
   ox_nearest_nodes g (lng dest) (lat dest) = Some a) ->
  exists t,
    fst (compute_od_time origin dest [(a, b, length_km, speed)] h) = Ret (Some t) /\
    F.leb t (F.mul (F.div length_km speed) (F.of_Z 3600)) = true.
Proof.
  intros Hrg Hg Hnn Hval Hres.
  pose proof (Paths.overlay_time_nonneg _ Hval) as Ht.
  assert (Hsp : Forall (fun te => F.is_zero (speed_of te) = false)
                  [(a, b, length_km, speed)])
    by (constructor; [now apply Paths.valid_overlay_speed|constructor]).
  rewrite (compute_od_time_loaded road_graph ox_nearest_nodes rg g origin dest _ h
             Hrg Hg Hsp). cbn [fst].
  set (t := overlay_time (a, b, length_km, speed)) in *.
  change (F.mul (F.div length_km speed) (F.of_Z 3600)) with t.
  set (g' := with_overlay g [(a, b, length_km, speed)]).
  assert (He : g_edges g' = g_edges g ++
                 [ {| e_src := a; e_dst := b; travel_time := t |};
                   {| e_src := b; e_dst := a; travel_time := t |} ])
    by (subst g'; now rewrite with_overlay_edges).
  assert (Hnn' : Forall (fun e => F.nonneg (travel_time e) = true) (g_edges g')).
  { rewrite He. apply Forall_app. split; [assumption|]. repeat constructor; exact Ht. }
  assert (Ha : Nx.has_node g' a = true).
  { subst g'. cbn. unfold Nx.has_node, Nx.with_edge. cbn.
    rewrite !has_node_with_node. tauto. }
  assert (Hb : Nx.has_node g' b = true).
  { subst g'. cbn. unfold Nx.has_node, Nx.with_edge. cbn.
    rewrite !has_node_with_node. tauto. }
  assert (Hdir : forall u v e,
            In e (g_edges g') -> e_src e = u -> e_dst e = v -> travel_time e = t ->
            Nx.has_node g' u = true -> Nx.has_node g' v = true ->
            exists t', Nx.route_time g' u v = Some t' /\ F.leb t' t = true).
  { intros u v e Hin Hsrc Hdst Hw Hu Hv. destruct (Z.eq_dec u v) as [->|Hne].
    - destruct (route_time_le_route g' v v [] Hnn' Hv Hv eq_refl) as (t' & Ht' & Hle).
      { repeat constructor. intros []. }
      exists t'. split; [exact Ht'|].
      eapply FOrder.leb_trans; [exact Hle|]. now apply FOrder.zero_leb.
    - destruct (route_time_le_route g' u v [e] Hnn' Hu Hv) as (t' & Ht' & Hle).
      { cbn. auto. }
      { unfold simple_route. cbn. rewrite Hdst.
        repeat constructor; cbn; [intros [H|[]]; congruence|intros []]. }
      exists t'. split; [exact Ht'|].
      eapply FOrder.leb_trans; [exact Hle|].
      unfold Nx.path_weight. cbn. rewrite Hw. now apply add_zero_leb. }
  destruct Hres as [[-> ->]|[-> ->]].
  - destruct (Hdir a b {| e_src := a; e_dst := b; travel_time := t |})
      as (t' & Ht' & Hle); auto.
    { rewrite He. apply in_or_app. right. now left. }
    exists t'. now rewrite Ht'.
  - destruct (Hdir b a {| e_src := b; e_dst := a; travel_time := t |})
      as (t' & Ht' & Hle); auto.
    { rewrite He. apply in_or_app. right. right. now left. }
    exists t'. now rewrite Ht'.
Qed.

(** X10. A trip whose origin and destination resolve to the same node of
    the road graph takes 0 seconds, with any overlay of non-zero speeds. *)
Theorem same_node_takes_no_time (rg : loc) (g : MultiDiGraph) (origin dest : LatLng)
    (n : node) (temp_edges : list TempEdge) (h : store) :
  road_graph = Some rg -> h !! rg = Some g ->
  Forall (fun te => F.is_zero (speed_of te) = false) temp_edges ->
  ox_nearest_nodes g (lng origin) (lat origin) = Some n ->
  ox_nearest_nodes g (lng dest) (lat dest) = Some n ->
  Nx.has_node g n = true ->
  fst (compute_od_time origin dest temp_edges h) = Ret (Some F.zero).
Proof.
  intros Hrg Hg Hsp Ho Hd Hn.
  rewrite (compute_od_time_loaded road_graph ox_nearest_nodes rg g origin dest _ h
             Hrg Hg Hsp). cbn [fst]. rewrite Ho, Hd.
  unfold Nx.route_time. rewrite (with_overlay_nodes temp_edges g n Hn). cbn [andb].
  destruct (length _); cbn; now rewrite Z.eqb_refl.
Qed.

(** [compute_od_time] leaves every graph object of the store as it was. *)
Lemma compute_od_time_preserves (origin dest : LatLng) (temp_edges : list TempEdge)
    (h : store) (l : loc) :
  is_Some (h !! l) ->
  snd (compute_od_time origin dest temp_edges h) !! l = h !! l.
Proof.
  intros Hl. unfold Main.compute_od_time.
  destruct road_graph as [rg|]; [|reflexivity].
  assert (Hfresh : l <> fresh (dom h)).
  { intros E. pose proof (is_fresh (dom h)) as Hf. rewrite <- E in Hf.
    apply Hf, elem_of_dom. exact Hl. }
  unfold mbind at 1. unfold Nx.copy.
  set (h1 := <[fresh (dom h) := _]> h).
  assert (H1 : h1 !! l = h !! l) by (subst h1; now rewrite lookup_insert_ne).
  unfold mbind at 1.
  pose proof (add_temp_edges_frame (fresh (dom h)) temp_edges h1 l Hfresh) as H2.
  destruct (add_temp_edges (fresh (dom h)) temp_edges h1) as [[[]|e] h2];
    cbn [snd] in *; [|congruence].
  unfold Main.nearest_node, mbind, mret, Nx.read.
  repeat match goal with
         | |- context [match ox_nearest_nodes ?a ?b ?c with _ => _ end] =>
             destruct (ox_nearest_nodes a b c)
         end; cbn; congruence.
Qed.

Lemma scenario_seconds_preserves (req : ScenarioRequest) (o d : LatLng) (len : float)
    (base : option float) (h : store) (l : loc) :
  is_Some (h !! l) ->
  snd (scenario_seconds road_graph ox_nearest_nodes req o d len base h) !! l = h !! l.
Proof.
  intros Hl. unfold scenario_seconds.
  destruct (roadPoints req) as [|p0 rest]; [reflexivity|].
  unfold mbind at 1.
  assert (Ht : exists t, road_graph_truthy road_graph h = (Ret t, h))
    by (unfold road_graph_truthy; destruct road_graph; cbn; eauto).
  destruct Ht as (t & ->). destruct t; [|reflexivity].
  unfold mbind at 1.
  destruct (nearest_node_pure road_graph ox_nearest_nodes (lat p0) (lng p0) h)
    as (u & ->).
  unfold mbind at 1.
  destruct (nearest_node_pure road_graph ox_nearest_nodes
              (lat (List.last rest p0)) (lng (List.last rest p0)) h) as (v & ->).
  destruct u as [u|], v as [v|]; try reflexivity.
  now apply compute_od_time_preserves.
Qed.

Lemma traffic_model_preserves (req : ScenarioRequest) (len : float) (lanes : Z)
    (h : store) (l : loc) :
  is_Some (h !! l) ->
  snd (traffic_model road_graph ox_nearest_nodes req len lanes h) !! l = h !! l.
Proof.
  intros Hl. unfold traffic_model.
  destruct (origin req) as [o|]; [|reflexivity].
  destruct (destination req) as [d|]; [|reflexivity].
  unfold mbind at 1.
  pose proof (compute_od_time_preserves o d [] h l Hl) as H1.
  destruct (compute_od_time o d [] h) as [[base|e] h1]; cbn [snd] in *; [|exact H1].
  assert (Hl1 : is_Some (h1 !! l)) by (now rewrite H1).
  unfold mbind at 1.
  pose proof (scenario_seconds_preserves req o d len base h1 l Hl1) as H2.
  destruct (scenario_seconds _ _ req o d len base h1) as [[scen|e] h2];
    cbn [snd] in *; [|congruence].
  destruct base, scen; unfold mbind, lift, mret;
    try destruct (heuristic_minutes req len lanes); cbn; congruence.
Qed.

End MoreRoutingFacts.

(** X11. [simulate] never mutates a graph it did not create: every graph
    object the store holds before the request, the road graph among them, is
    the same after it, whether the request returns or raises. *)
Theorem simulate_preserves_store
    (flood_points : option (list Hotspot)) (road_graph : option loc)
    (m_sin m_cos : float -> float) (m_atan2 m_pow : float -> float -> float)
    (ox_nearest_nodes : MultiDiGraph -> float -> float -> option node)
    (within_buffer : list Point -> Z -> Hotspot -> bool)
    (req : ScenarioRequest) (h : store) (l : loc) :
  is_Some (h !! l) ->
  snd (simulate flood_points road_graph m_sin m_cos m_atan2 m_pow ox_nearest_nodes
         within_buffer req h) !! l = h !! l.
Proof.
  intros Hl. unfold simulate.
  unfold mbind at 1. unfold lift at 1.
  destruct (intervention_length m_sin m_cos m_atan2 m_pow req) as [len|e];
    [|reflexivity].
  unfold mbind at 1.
  pose proof (traffic_model_preserves road_graph ox_nearest_nodes req len
                (lane_count req) h l Hl) as H1.
  destruct (traffic_model road_graph ox_nearest_nodes req len (lane_count req) h)
    as [[[[mc bm] sm]|e] h1]; cbn [snd] in *; [|exact H1].
  unfold mbind at 1. unfold lift at 1.
  destruct (flood_model flood_points within_buffer req len) as [[cells pop]|e];
    cbn; exact H1.
Qed.

(* ===================================================================== *)
(** * Further properties: scenario simulation *)
(* ===================================================================== *)

Module FSign.

Lemma ltb_positive (c y : float) :
  F.pos_finite c = true -> F.ltb c y = true -> above_zero y = true.
Proof.
  destruct c as [| | |[] mc ec]; try discriminate.
  destruct y as [s|[]| |[] m e]; try discriminate; reflexivity.
Qed.

(** The product of a non-negative float and a positive one is non-negative,
    or a NaN (zero times infinity). *)
Lemma mul_sign (x y : float) :
  F.nonneg x = true -> above_zero y = true ->
  F.is_nan (F.mul x y) = true \/ F.nonneg (F.mul x y) = true.
Proof.
  intros Hx Hy.
  destruct y as [s|[]| |[] m e]; try discriminate.
  - destruct x as [sx|[]| |[] mx ex]; try discriminate; cbn; auto.
  - right. now apply FRound.mul_nonneg.
Qed.

Lemma mul_sign_nan (x y : float) :
  F.is_nan x = true -> F.is_nan (F.mul x y) = true.
Proof. now destruct x. Qed.

Lemma mul_nonneg_finite (x y : float) :
  F.nonneg x = true -> F.is_finite x = true ->
  F.nonneg y = true -> F.is_finite y = true ->
  F.nonneg (F.mul x y) = true.
Proof.
  intros Hx Hfx Hy Hfy.
  destruct y as [sy|sy| |[] my ey]; try discriminate.
  - destruct x as [sx|sx| |[] mx ex]; try discriminate;
      cbn; try destruct sx; now destruct sy.
  - now apply FRound.mul_nonneg.
Qed.

Lemma nearest_even_nonneg (m e : Z) : 0 <= m -> 0 <= F.nearest_even m e.
Proof.
  intros Hm. unfold F.nearest_even. destruct (0 <=? e) eqn:E.
  - apply Z.mul_nonneg_nonneg; [assumption|apply Z.pow_nonneg; lia].
  - apply Z.leb_gt in E.
    assert (0 <= m / 2 ^ (- e)) by (apply Z.div_pos; [lia|apply Z.pow_pos_nonneg; lia]).
    destruct (2 * (m mod 2 ^ (- e)) ?= 2 ^ (- e)); try lia.
    destruct (Z.even _); lia.
Qed.

Lemma round_nonneg (x : float) (r : Z) :
  F.is_nan x = true \/ F.nonneg x = true -> Py.round x = Ret r -> 0 <= r.
Proof.
  intros Hx Hr. destruct x as [s|s| |s m e]; try discriminate.
  - cbn in Hr. injection Hr as <-. lia.
  - destruct Hx as [Hx|Hx]; [discriminate|]. cbn in Hx.
    apply negb_true_iff in Hx; subst s. cbn in Hr. injection Hr as <-.
    apply nearest_even_nonneg. lia.
Qed.

Lemma int_nonneg (x : float) (n : Z) :
  F.nonneg x = true -> Py.int x = Ret n -> 0 <= n.
Proof.
  intros Hx Hn. destruct (F.is_finite x) eqn:Hf.
  - destruct (FRound.int_floor x Hx Hf) as (n' & _ & Hpos & Hint). congruence.
  - destruct x; try discriminate.
Qed.

Lemma int_truediv_nonneg (a b : Z) (x : float) :
  0 <= a -> 0 < b -> Py.int_truediv a b = Ret x -> F.nonneg x = true.
Proof.
  intros Ha Hb. unfold Py.int_truediv.
  destruct b as [|pb|pb]; try lia. destruct a as [|pa|pa]; try lia.
  - intros [= <-]. reflexivity.
  - cbn [Z.ltb Z.compare Z.abs Z.to_pos].
    pose proof (FRound.div_nonneg (S754_finite false pa 0) (S754_finite false pb 0)
                  eq_refl eq_refl) as Hnn.
    destruct (F.div _ _); intros [= <-]; assumption.
Qed.

End FSign.

Section MoreScenarioFacts.

Variable flood_points : option (list Hotspot).
Variable road_graph : option loc.
Variables m_sin m_cos : float -> float.
Variables m_atan2 m_pow : float -> float -> float.
Variable ox_nearest_nodes : MultiDiGraph -> float -> float -> option node.
Variable within_buffer : list Point -> Z -> Hotspot -> bool.

Local Abbreviation distance_km := (distance_km m_sin m_cos m_atan2 m_pow).
Local Abbreviation sum_segments := (sum_segments m_sin m_cos m_atan2 m_pow).
Local Abbreviation compute_length_from_points :=
  (compute_length_from_points m_sin m_cos m_atan2 m_pow).
Local Abbreviation intervention_length :=
  (intervention_length m_sin m_cos m_atan2 m_pow).
Local Abbreviation traffic_model := (traffic_model road_graph ox_nearest_nodes).
Local Abbreviation delta_cells := (delta_cells flood_points within_buffer).
Local Abbreviation flood_model := (flood_model flood_points within_buffer).
Local Abbreviation simulate :=
  (simulate flood_points road_graph m_sin m_cos m_atan2 m_pow ox_nearest_nodes
     within_buffer).

(** What a response of [simulate] is made of. *)
Lemma simulate_inv (req : ScenarioRequest) (h h' : store) (resp : ScenarioResponse) :
  simulate req h = (Ret resp, h') ->
  exists len mc bm sm cells pop,
    intervention_length req = Ret len /\
    traffic_model req len (lane_count req) h = (Ret (mc, bm, sm), h') /\
    flood_model req len = Ret (cells, pop) /\
    resp = {| traffic := {| minutesChange := mc; baselineMinutes := bm;
                            scenarioMinutes := sm |};
              flood := {| baselineHighRiskCells := baseline_cells;
                          scenarioHighRiskCells := cells;
                          baselinePop := baseline_pop;
                          scenarioPop := pop |};
              notes := ("Intervention length " ++ Py.format_2f len ++ " km.")%string |}.
Proof.
  unfold Main.simulate. unfold mbind at 1. unfold lift at 1.
  destruct (intervention_length req) as [len|e] eqn:Hlen; [|discriminate].
  unfold mbind at 1.
  destruct (traffic_model req len (lane_count req) h) as [[[[mc bm] sm]|e] h1] eqn:Ht;
    [|discriminate].
  unfold mbind at 1. unfold lift at 1.
  destruct (flood_model req len) as [[cells pop]|e] eqn:Hf; [|discriminate].
  cbn. intros [= <- <-]. exists len, mc, bm, sm, cells, pop.
  repeat split; assumption.
Qed.

Lemma flood_model_inv (req : ScenarioRequest) (len : float) (cells pop : Z) :
  flood_model req len = Ret (cells, pop) ->
  exists delta ratio,
    delta_cells req len = Ret delta /\
    cells = Z.max 0 (baseline_cells + delta) /\
    Py.int_truediv cells baseline_cells = Ret ratio /\
    Py.int (F.mul (F.of_Z baseline_pop) ratio) = Ret pop.
Proof.
  unfold Main.flood_model.
  destruct (delta_cells req len) as [delta|e]; [|discriminate]. cbn [obind].
  destruct (Py.int_truediv _ _) as [ratio|e] eqn:Hr; [|discriminate]. cbn [obind].
  destruct (Py.int _) as [p|e] eqn:Hp; [|discriminate]. cbn [obind].
  intros [= <- <-]. exists delta, ratio. auto.
Qed.

(** X12. Every response of [simulate] reports the fixed baseline of 1000
    risk cells and 500000 people, and scenario figures that are never
    negative; with no risk cell left, nobody is at risk. *)
Theorem simulate_flood_invariants (req : ScenarioRequest) (h h' : store)
    (resp : ScenarioResponse) :
  simulate req h = (Ret resp, h') ->
  baselineHighRiskCells (flood resp) = 1000 /\
  baselinePop (flood resp) = 500000 /\
  0 <= scenarioHighRiskCells (flood resp) /\
  0 <= scenarioPop (flood resp) /\
  (scenarioHighRiskCells (flood resp) = 0 -> scenarioPop (flood resp) = 0).
Proof.
  intros Hs.
  destruct (simulate_inv req h h' resp Hs)
    as (len & mc & bm & sm & cells & pop & _ & _ & Hf & ->).
  destruct (flood_model_inv req len cells pop Hf) as (delta & ratio & _ & Hc & Hr & Hp).
  cbn. split; [reflexivity|]. split; [reflexivity|].
  assert (Hcells : 0 <= cells) by lia. split; [exact Hcells|].
  pose proof (FSign.int_truediv_nonneg cells baseline_cells ratio Hcells eq_refl Hr)
    as Hnn.
  split.
  - apply (FSign.int_nonneg (F.mul (F.of_Z baseline_pop) ratio)); [|exact Hp].
    rewrite FArith.mul_comm. now apply FRound.mul_nonneg.
  - intros H0. rewrite H0 in Hr. vm_compute in Hr. injection Hr as <-.
    vm_compute in Hp. congruence.
Qed.

Lemma fallback_delta_sign (req : ScenarioRequest) (len : float) (delta : Z) :
  F.nonneg len = true -> fallback_delta req len = Ret delta ->
  match interventionType req with
  | road => 0 <= delta
  | _ => delta <= 0
  end.
Proof.
  intros Hlen. unfold fallback_delta.
  destruct (Py.float_of_int (rainfall req)) as [frain|e]; [|discriminate].
  cbn [obind]. set (rf := Py.max f0_01 (F.div frain f100)).
  assert (Hrf : above_zero rf = true).
  { subst rf. unfold Py.max. destruct (F.ltb f0_01 _) eqn:E; [|reflexivity].
    now apply (FSign.ltb_positive f0_01). }
  assert (Hk : forall k r, F.pos_finite k = true ->
                 Py.round (F.mul (F.mul len rf) k) = Ret r -> 0 <= r).
  { intros k r Hkpos. apply FSign.round_nonneg.
    destruct (FSign.mul_sign len rf Hlen Hrf) as [Hnan|Hnn].
    - left. now apply FSign.mul_sign_nan.
    - right. now apply FRound.mul_nonneg. }
  destruct (interventionType req).
  - now apply Hk.
  - destruct (Py.round _) as [r|e] eqn:Er; [|discriminate].
    intros [= <-]. apply Hk in Er; [lia|reflexivity].
  - destruct (Py.round _) as [r|e] eqn:Er; [|discriminate].
    intros [= <-]. apply Hk in Er; [lia|reflexivity].
  - destruct (Py.round _) as [r|e] eqn:Er; [|discriminate].
    intros [= <-]. apply Hk in Er; [lia|reflexivity].
Qed.

Lemma spatial_delta_sign (req : ScenarioRequest) (pts : list Hotspot) (delta : Z) :
  spatial_delta within_buffer req pts = Ret delta ->
  match interventionType req with
  | road => 0 <= delta
  | _ => delta <= 0
  end.
Proof.
  unfold spatial_delta. destruct (Shapely.LineString _); [|discriminate].
  cbn [obind]. intros [= <-]. destruct (interventionType req); lia.
Qed.

(** X13. An intervention moves the risk in one direction only: in every
    response to a request of non-negative length, a road leaves at least
    the 1000 baseline risk cells and a drain, a green area or a restriction
    at most 1000, whether the hotspots are counted or the length-based
    fallback is used. *)
Theorem intervention_direction (req : ScenarioRequest) (h h' : store)
    (resp : ScenarioResponse) (len : float) :
  simulate req h = (Ret resp, h') ->
  intervention_length req = Ret len -> F.nonneg len = true ->
  match interventionType req with
  | road => 1000 <= scenarioHighRiskCells (flood resp)
  | _ => scenarioHighRiskCells (flood resp) <= 1000
  end.
Proof.
  intros Hs Hlen Hnn.
  destruct (simulate_inv req h h' resp Hs)
    as (len' & mc & bm & sm & cells & pop & Hlen' & _ & Hf & ->).
  assert (len' = len) by congruence. subst len'.
  destruct (flood_model_inv req len cells pop Hf) as (delta & ratio & Hd & Hc & _).
  cbn [flood scenarioHighRiskCells].
  assert (Hsign : match interventionType req with
                  | road => 0 <= delta
                  | _ => delta <= 0
                  end).
  { unfold Main.delta_cells in Hd.
    destruct flood_points as [pts|]; [destruct (roadPoints req)|];
      try (now apply (fallback_delta_sign req len));
      now apply (spatial_delta_sign req pts). }
  unfold baseline_cells in Hc. destruct (interventionType req); lia.
Qed.

(** X14. The heuristic traffic change is bounded: for a finite
    non-negative length and a non-negative lane count it is computed, it
    lies between -20 and 0 minutes for a road, a drain or a green area, and
    it is never negative for a restriction. *)
Theorem heuristic_minutes_bounds (req : ScenarioRequest) (len : float) (lanes : Z) :
  F.nonneg len = true -> F.is_finite len = true -> 0 <= lanes < 2 ^ 1023 ->
  exists m,
    heuristic_minutes req len lanes = Ret m /\
    match interventionType req with
    | restriction => F.leb F.zero m = true
    | _ => F.leb (F.opp (F.of_Z 20)) m = true /\ F.leb m F.zero = true
    end.
Proof.
  intros Hnn Hfin Hlanes.
  rewrite (heuristic_minutes_ok req len lanes) by lia.
  eexists. split; [reflexivity|]. unfold heuristic_value.
  set (x := F.mul (F.mul len (F.of_Z lanes)) f0_6).
  assert (Hx : F.nonneg x = true).
  { subst x. apply FRound.mul_nonneg; [|reflexivity].
    apply FSign.mul_nonneg_finite; auto.
    - apply FRound.of_Z_sign. lia.
    - apply (FRound.mag_le_finite _ 1024), (FRound.of_Z_finite lanes 1023); lia. }
  assert (Hmin : F.nonneg (Py.min f20 x) = true /\ F.leb (Py.min f20 x) f20 = true).
  { unfold Py.min. destruct (F.ltb x f20) eqn:E.
    - split; [assumption|now apply FOrder.ltb_leb].
    - split; reflexivity. }
  destruct Hmin as (Hm1 & Hm2).
  assert (Hboth : F.leb (F.opp (F.of_Z 20)) (F.opp (Py.min f20 x)) = true /\
                  F.leb (F.opp (Py.min f20 x)) F.zero = true).
  { split; [now apply FOrder.leb_opp|now apply FOrder.nonneg_leb_zero]. }
  destruct (interventionType req); try exact Hboth.
  apply FOrder.zero_leb, FRound.div_nonneg; [|reflexivity].
  now destruct (Py.min f20 x) as [s|s| |s m e].
Qed.

Lemma traffic_model_shape (req : ScenarioRequest) (len : float) (lanes : Z)
    (h h' : store) (mc : float) (bm sm : option float) :
  traffic_model req len lanes h = (Ret (mc, bm, sm), h') ->
  (bm = None <-> sm = None) /\
  (forall b s, bm = Some b -> sm = Some s -> mc = F.sub s b) /\
  (origin req = None \/ destination req = None ->
     mc = F.zero /\ bm = None /\ h' = h).
Proof.
  unfold Main.traffic_model.
  assert (Hnone : forall A (x : A), Some x = None <-> False) by (split; [discriminate|tauto]).
  destruct (origin req) as [o|] eqn:Ho, (destination req) as [d|] eqn:Hd;
    try (cbn; intros [= <- <- <- <-]; split; [tauto|];
         split; [discriminate|]; intros _; auto).
  assert (Hsome : Some o = None \/ Some d = None -> mc = F.zero /\ bm = None /\ h' = h)
    by (intros [?|?]; discriminate).
  unfold mbind at 1.
  destruct (compute_od_time road_graph ox_nearest_nodes o d [] h) as [[base|e] h1];
    [|discriminate].
  unfold mbind at 1.
  destruct (scenario_seconds road_graph ox_nearest_nodes req o d len base h1)
    as [[scen|e] h2]; [|discriminate].
  assert (Hheur : (do minutes_change <- lift (heuristic_minutes req len lanes);
                   mret (minutes_change, None, None))%M h2 = (Ret (mc, bm, sm), h') ->
                  bm = None /\ sm = None).
  { unfold mbind, lift, mret. destruct (heuristic_minutes req len lanes); [|discriminate].
    intros [= <- <- <- <-]. auto. }
  destruct base as [b|], scen as [s|].
  - cbn. intros [= <- <- <- <-]. split; [split; discriminate|].
    split; [|exact Hsome]. intros b' s' [= <-] [= <-]. reflexivity.
  - intros Hx. apply Hheur in Hx as (-> & ->).
    split; [tauto|]. split; [discriminate|exact Hsome].
  - intros Hx. apply Hheur in Hx as (-> & ->).
    split; [tauto|]. split; [discriminate|exact Hsome].
  - intros Hx. apply Hheur in Hx as (-> & ->).
    split; [tauto|]. split; [discriminate|exact Hsome].
Qed.

(** X15. In every response of [simulate] the baseline and the scenario
    minutes are present together or absent together; present, the change is
    their difference; and a request without origin or without destination
    gets the change 0.0 with no minutes, and leaves the store as it was: no
    graph is copied. *)
Theorem traffic_result_shape (req : ScenarioRequest) (h h' : store)
    (resp : ScenarioResponse) :
  simulate req h = (Ret resp, h') ->
  (baselineMinutes (traffic resp) = None <-> scenarioMinutes (traffic resp) = None) /\
  (forall b s,
     baselineMinutes (traffic resp) = Some b ->
     scenarioMinutes (traffic resp) = Some s ->
     minutesChange (traffic resp) = F.sub s b) /\
  (origin req = None \/ destination req = None ->
     minutesChange (traffic resp) = F.zero /\
     baselineMinutes (traffic resp) = None /\ h' = h).
Proof.
  intros Hs.
  destruct (simulate_inv req h h' resp Hs)
    as (len & mc & bm & sm & cells & pop & _ & Ht & _ & ->).
  cbn. exact (traffic_model_shape req len (lane_count req) h h' mc bm sm Ht).
Qed.

(** ** The polyline length *)

Lemma last_cons_default (l : list LatLng) :
  forall p d : LatLng, List.last (p :: l) d = List.last l p.
Proof.
  induction l as [|a l IH]; intros p d; [reflexivity|].
  change (List.last (p :: a :: l) d) with (List.last (a :: l) d).
  now rewrite (IH a d), (IH a p).
Qed.

Lemma sum_segments_app (rest : list LatLng) (q : LatLng) :
  forall (total : float) (prev : LatLng),
    sum_segments total prev (rest ++ [q]) =
    (let! t := sum_segments total prev rest in
     let! d := distance_km (List.last rest prev) q in
     Ret (F.add t d))%outcome.
Proof.
  induction rest as [|p rest IH]; intros total prev.
  - cbn. destruct (distance_km prev q); reflexivity.
  - cbn [app Main.sum_segments].
    destruct (distance_km prev p) as [d0|e]; [|reflexivity]. cbn [obind].
    rewrite IH. now rewrite (last_cons_default rest p prev).
Qed.

(** X16. The polyline length is built segment by segment: the length of a
    non-empty path extended by a point is the length of the path plus the
    distance from its last point to the new one, and it raises where either
    of the two raises. *)
Theorem polyline_length_extends (points : list LatLng) (q : LatLng) :
  points <> [] ->
  compute_length_from_points (points ++ [q]) =
  (let! t := compute_length_from_points points in
   let! d := distance_km (List.last points q) q in
   Ret (F.add t d))%outcome.
Proof.
  intros Hne. destruct points as [|p0 [|p1 rest]]; [congruence| |].
  - cbn. destruct (distance_km p0 q); reflexivity.
  - change (compute_length_from_points ((p0 :: p1 :: rest) ++ [q]))
      with (sum_segments F.zero p0 ((p1 :: rest) ++ [q])).
    rewrite sum_segments_app.
    now rewrite (last_cons_default (p1 :: rest) p0 q).
Qed.

End MoreScenarioFacts.

(* ===================================================================== *)
(** * The intervention length *)
(* ===================================================================== *)

Section LengthFacts.

Variable flood_points : option (list Hotspot).
Variable road_graph : option loc.
Variables m_sin m_cos : float -> float.
Variables m_atan2 m_pow : float -> float -> float.
Variable ox_nearest_nodes : MultiDiGraph -> float -> float -> option node.
Variable within_buffer : list Point -> Z -> Hotspot -> bool.

Local Abbreviation compute_length_from_points :=
  (compute_length_from_points m_sin m_cos m_atan2 m_pow).
Local Abbreviation intervention_length :=
  (intervention_length m_sin m_cos m_atan2 m_pow).
Local Abbreviation traffic_model := (traffic_model road_graph ox_nearest_nodes).
Local Abbreviation flood_model := (flood_model flood_points within_buffer).
Local Abbreviation simulate :=
  (simulate flood_points road_graph m_sin m_cos m_atan2 m_pow ox_nearest_nodes
     within_buffer).

(** The traffic block without baseline minutes took the heuristic branch. *)
Lemma traffic_model_heuristic (req : ScenarioRequest) (len : float) (lanes : Z)
    (h h' : store) (mc : float) (sm : option float) (o d : LatLng) :
  origin req = Some o -> destination req = Some d ->
  traffic_model req len lanes h = (Ret (mc, None, sm), h') ->
  heuristic_minutes req len lanes = Ret mc.
Proof.
  intros Ho Hd. unfold Main.traffic_model. rewrite Ho, Hd.
  unfold mbind at 1.
  destruct (compute_od_time road_graph ox_nearest_nodes o d [] h) as [[base|e] h1];
    [|discriminate].
  unfold mbind at 1.
  destruct (scenario_seconds road_graph ox_nearest_nodes req o d len base h1)
    as [[scen|e] h2]; [|discriminate].
  assert (Hheur : (do minutes_change <- lift (heuristic_minutes req len lanes);
                   mret (minutes_change, @None float, @None float))%M h2
                  = (Ret (mc, None, sm), h') ->
                  heuristic_minutes req len lanes = Ret mc).
  { unfold mbind, lift, mret. destruct (heuristic_minutes req len lanes); [|discriminate].
    intros [= <- <- <-]. reflexivity. }
  destruct base as [b|], scen as [s|]; try exact Hheur.
  cbn. discriminate.
Qed.

(** C10. A length of zero, like any falsy length, is treated as an absent
    length. The intervention length is then the polyline length of the path
    (0 for fewer than 2 points), the simulation answers as for the request
    without a length, and in every response the length of the notes, of the
    traffic block and its heuristic, and of the flood block and its fallback
    is the polyline length, not the length that was sent. *)
Theorem zero_length_is_absent_length (req : ScenarioRequest) :
  approxLength req = None \/
  (exists x, approxLength req = Some x /\ F.is_zero x = true) ->
  intervention_length req = compute_length_from_points (roadPoints req) /\
  ((length (roadPoints req) < 2)%nat -> intervention_length req = Ret F.zero) /\
  (forall h, simulate req h = simulate (with_length req None) h) /\
  (forall h h' resp,
     simulate req h = (Ret resp, h') ->
     exists len,
       compute_length_from_points (roadPoints req) = Ret len /\
       notes resp = ("Intervention length " ++ Py.format_2f len ++ " km.")%string /\
       traffic_model req len (lane_count req) h =
         (Ret (minutesChange (traffic resp), baselineMinutes (traffic resp),
               scenarioMinutes (traffic resp)), h') /\
       flood_model req len =
         Ret (scenarioHighRiskCells (flood resp), scenarioPop (flood resp)) /\
       (forall o d,
          origin req = Some o -> destination req = Some d ->
          baselineMinutes (traffic resp) = None ->
          heuristic_minutes req len (lane_count req) =
            Ret (minutesChange (traffic resp))) /\
       (flood_points = None \/ roadPoints req = [] ->
          exists delta,
            fallback_delta req len = Ret delta /\
            scenarioHighRiskCells (flood resp) = Z.max 0 (baseline_cells + delta))).
Proof.
  intros H.
  pose proof (intervention_length_falsy m_sin m_cos m_atan2 m_pow req H) as Hlen.
  split; [exact Hlen|]. split; [|split].
  - intros Hshort. rewrite Hlen. now apply compute_length_short.
  - intros h. unfold Main.simulate. rewrite Hlen. reflexivity.
  - intros h h' resp Hs.
    destruct (simulate_inv flood_points road_graph m_sin m_cos m_atan2 m_pow
                ox_nearest_nodes within_buffer req h h' resp Hs)
      as (len & mc & bm & sm & cells & pop & Hil & Ht & Hf & ->).
    exists len. cbn [notes traffic flood minutesChange baselineMinutes scenarioMinutes
                     scenarioHighRiskCells scenarioPop].
    split; [now rewrite <- Hlen|]. split; [reflexivity|].
    split; [exact Ht|]. split; [exact Hf|]. split.
    + intros o d Ho Hd Hbm. subst bm.
      exact (traffic_model_heuristic req len (lane_count req) h h' mc sm o d Ho Hd Ht).
    + intros Hfb.
      destruct (flood_model_inv flood_points within_buffer req len cells pop Hf)
        as (delta & ratio & Hd & Hc & _).
      exists delta. split; [|exact Hc].
      unfold delta_cells in Hd.
      destruct Hfb as [Hnone|Hempty].
      * now rewrite Hnone in Hd.
      * rewrite Hempty in Hd. now destruct flood_points.
Qed.

End LengthFacts.

(** C10 on a drain along one degree of latitude that is sent with an
    explicit length of 0.0: the length used is the 111.19 km of the path.
    The notes carry it, the heuristic gives -20 minutes (it would give -0.0
    for a length of 0.0) and the fallback leaves 333 risk cells (it would
    leave 1000). *)
Lemma zero_length_is_absent_length_witness :
  exists len resp,
    intervention_length LibmExample.sin LibmExample.cos LibmExample.atan2
      LibmExample.pow Example.meridian_request = Ret len /\
    Example.length_small_angle (roadPoints Example.meridian_request) = Ret len /\
    F.is_zero len = false /\
    Example.run_small_angle Example.meridian_request Example.heap
      = (Ret resp, Example.heap) /\
    Example.run_small_angle (with_length Example.meridian_request None) Example.heap
      = (Ret resp, Example.heap) /\
    notes resp = "Intervention length 111.19 km."%string /\
    heuristic_minutes Example.meridian_request len
      (lane_count Example.meridian_request) = Ret (minutesChange (traffic resp)) /\
    minutesChange (traffic resp) = F.opp (F.of_Z 20) /\
    (exists delta,
       fallback_delta Example.meridian_request len = Ret delta /\
       scenarioHighRiskCells (flood resp) = Z.max 0 (baseline_cells + delta)) /\
    scenarioHighRiskCells (flood resp) = 333.
Proof.
  destruct (zero_length_is_absent_length None None LibmExample.sin LibmExample.cos
              LibmExample.atan2 LibmExample.pow Example.resolver Example.on_vertex
              Example.meridian_request)
    as (Hlen & _ & Hsame & Hused).
  { right. exists F.zero. split; reflexivity. }
  let l := eval vm_compute in
             (Example.length_small_angle (roadPoints Example.meridian_request)) in
  let r := eval vm_compute in
             (fst (Example.run_small_angle Example.meridian_request Example.heap)) in
  match l with
  | Ret ?len => match r with Ret ?resp => exists len, resp end
  end.
  match goal with
  | |- _ /\ _ /\ _ /\ ?run = (Ret ?resp, _) /\ _ =>
      assert (Hrun : run = (Ret resp, Example.heap)) by (vm_compute; reflexivity)
  end.
  destruct (Hused Example.heap Example.heap _ Hrun)
    as (len' & Hcl & Hnotes & _ & _ & Hheur & Hfb).
  assert (Hcl' := Hcl). vm_compute in Hcl'. injection Hcl' as <-.
  split; [rewrite Hlen; exact Hcl|]. split; [exact Hcl|].
  split; [reflexivity|]. split; [exact Hrun|].
  split; [unfold Example.run_small_angle in *; rewrite <- Hsame; exact Hrun|].
  split; [rewrite Hnotes; vm_compute; reflexivity|].
  split; [exact (Hheur _ _ eq_refl eq_refl eq_refl)|].
  split; [vm_compute; reflexivity|].
  split; [exact (Hfb (or_introl eq_refl))|reflexivity].
Defined.

(* ===================================================================== *)
(** * Further properties: the rainfall forecast *)
(* ===================================================================== *)

Section ForecastFacts.

Variable cx : float -> float -> float -> float -> Hotspot -> bool.
Variable http_get : nat -> float -> float -> attempt ForecastData.
Variable utcnow : nat -> datetime.
Variable fromisoformat : string -> option datetime.
Variable builtin_str : exn -> string.

Local Abbreviation sum_rain := (sum_rain fromisoformat).
Local Abbreviation rain_total := (rain_total fromisoformat).
Local Abbreviation get_forecast_rainfall :=
  (get_forecast_rainfall http_get utcnow fromisoformat).
Local Abbreviation forecast_days fp := (forecast_days fp cx http_get utcnow fromisoformat).
Local Abbreviation flood_forecast fp :=
  (flood_forecast fp cx http_get utcnow fromisoformat builtin_str).

(** The loop adds up the first [hours - count] samples that count. *)
Lemma sum_rain_spec (now : datetime) (hours : Z) (samples : list (string * jnum)) :
  forall (total : float) (count : Z),
    sum_rain now hours total count samples =
    sum_values total (firstn (Z.to_nat (hours - count)) (eligible fromisoformat now samples)).
Proof.
  induction samples as [|[t_str rr] rest IH]; intros total count.
  - cbn. now rewrite firstn_nil.
  - cbn [Forecast.sum_rain eligible flat_map fst snd].
    destruct (fromisoformat t_str) as [dt|]; [|apply IH].
    destruct (instant now <=? instant (as_utc dt)); [|apply IH].
    cbn [andb app]. destruct (count <? hours) eqn:E.
    + apply Z.ltb_lt in E.
      replace (Z.to_nat (hours - count)) with (S (Z.to_nat (hours - (count + 1)))) by lia.
      cbn [firstn sum_values]. destruct (rain_value rr) as [x|e]; [|reflexivity].
      cbn [obind]. apply IH.
    + apply Z.ltb_ge in E. rewrite IH.
      replace (Z.to_nat (hours - count)) with 0%nat by lia. reflexivity.
Qed.

Lemma rain_total_eq (data : ForecastData) (now : datetime) (hours : Z) :
  rain_total data now hours =
  sum_values F.zero (firstn (Z.to_nat hours) (eligible fromisoformat now (samples_of data))).
Proof.
  unfold Forecast.rain_total, samples_of.
  destruct (hourly data) as [hr|]; cbn [default from_option id];
    [|now rewrite firstn_nil].
  destruct (h_time hr) as [[|t ts]|]; cbn [default from_option id h_time h_rain];
    try (cbn; now rewrite firstn_nil).
  destruct (h_rain hr) as [[|r rs]|]; cbn [default from_option id];
    try (cbn; now rewrite firstn_nil).
  rewrite sum_rain_spec. now rewrite Z.sub_0_r.
Qed.

(** X17. [get_forecast_rainfall] sends one request. A failure of the
    request is passed on; otherwise the result is the sum, in the order of
    the feed and starting from 0.0, of the first [hours] values whose time
    stamp reads and is not before the clock, a [null] or zero value counting
    as 0.0. Samples with an unreadable time stamp are skipped and take no
    place among the [hours]; a feed without times or without values gives
    0.0. *)
Theorem forecast_rain_is_sum_of_next_hours (lat lng : float) (hours : Z) (n : nat) :
  get_forecast_rainfall lat lng hours n =
  (match http_get n lat lng with
   | Failed r => Failed r
   | Got data =>
       of_outcome
         (sum_values F.zero
            (firstn (Z.to_nat hours) (eligible fromisoformat (utcnow n) (samples_of data))))
   end, S n).
Proof.
  unfold Forecast.get_forecast_rainfall.
  destruct (http_get n lat lng) as [data|r]; [|reflexivity].
  now rewrite rain_total_eq.
Qed.

(** X18. The horizon saturates: a horizon of zero hours or less gives 0.0,
    and once the horizon covers every sample that counts, a longer horizon
    gives the same total. *)
Theorem forecast_horizon_saturates (data : ForecastData) (now : datetime) (hours : Z) :
  (hours <= 0 -> rain_total data now hours = Ret F.zero) /\
  (forall longer,
     Z.of_nat (length (eligible fromisoformat now (samples_of data))) <= hours -> hours <= longer ->
     rain_total data now longer = rain_total data now hours).
Proof.
  split.
  - intros H. rewrite rain_total_eq.
    replace (Z.to_nat hours) with 0%nat by lia. reflexivity.
  - intros longer H1 H2. rewrite !rain_total_eq.
    rewrite !firstn_all2 by lia. reflexivity.
Qed.

Lemma rain_value_nonneg (rr : jnum) :
  rain_ok rr = true -> exists x, rain_value rr = Ret x /\ F.nonneg x = true.
Proof.
  destruct rr as [|k|x]; cbn [rain_ok rain_value].
  - eauto.
  - intros H. apply andb_true_iff in H as (H1 & H2).
    apply Z.leb_le in H1. apply Z.ltb_lt in H2.
    destruct (k =? 0); [eauto|].
    rewrite (FRound.float_of_int_ok k 1023) by lia.
    eexists. split; [reflexivity|]. now apply FRound.of_Z_sign.
  - intros H. destruct (Py.truthy x); eauto.
Qed.

Lemma sum_values_nonneg (vals : list jnum) :
  forall total,
    F.nonneg total = true -> Forall (fun rr => rain_ok rr = true) vals ->
    exists t, sum_values total vals = Ret t /\ F.nonneg t = true.
Proof.
  induction vals as [|rr vals IH]; intros total Ht Hok.
  - cbn. eauto.
  - apply Forall_cons_1 in Hok as (Hrr & Hok).
    destruct (rain_value_nonneg rr Hrr) as (x & Hx & Hnn).
    cbn [sum_values]. rewrite Hx. cbn [obind].
    apply IH; [now apply FRound.add_nonneg|assumption].
Qed.

Lemma eligible_ok (now : datetime) (samples : list (string * jnum)) :
  Forall (fun s => rain_ok (snd s) = true) samples ->
  Forall (fun rr => rain_ok rr = true) (eligible fromisoformat now samples).
Proof.
  induction 1 as [|[t rr] rest Hs _ IH]; cbn [eligible flat_map]; [constructor|].
  cbn [fst snd] in *. destruct (fromisoformat t) as [dt|]; [|exact IH].
  destruct (instant now <=? instant (as_utc dt)); [|exact IH].
  now constructor.
Qed.

Lemma rain_total_nonneg (data : ForecastData) (now : datetime) (hours : Z) :
  feed_ok data ->
  exists t, rain_total data now hours = Ret t /\ F.nonneg t = true.
Proof.
  intros Hok. rewrite rain_total_eq. apply sum_values_nonneg; [reflexivity|].
  apply Forall_take. now apply eligible_ok.
Qed.

(** X19. Over a feed whose rain values are [null] or non-negative numbers
    within the floats, the rainfall is computed, whatever the clock and the
    horizon, and it is a non-negative number, never a NaN. *)
Theorem forecast_rain_nonneg (data : ForecastData) (now : datetime) (hours : Z) :
  feed_ok data ->
  exists t, rain_total data now hours = Ret t /\ F.nonneg t = true.
Proof.
  intros Hok. rewrite rain_total_eq.
  apply sum_values_nonneg; [reflexivity|].
  apply Forall_take, eligible_ok. exact Hok.
Qed.

(** What the loop over the horizons leaves: all the keys after one request
    each, or a failure after at least one and at most that many requests. *)
Lemma forecast_days_shape (fp : option (list Hotspot)) (hs : list (string * Z)) :
  forall (out : list (string * Alert)) (n : nat),
    match forecast_days fp hs out n with
    | (Got out', n') =>
        n' = (n + length hs)%nat /\ map fst out' = map fst out ++ map fst hs
    | (Failed r, n') => (n < n' <= n + length hs)%nat
    end.
Proof.
  induction hs as [|[key hrs] rest IH]; intros out n.
  - cbn. split; [lia|now rewrite app_nil_r].
  - cbn [Forecast.forecast_days]. unfold io_bind at 1.
    unfold Forecast.get_forecast_rainfall at 1.
    destruct (http_get n city_lat city_lng) as [data|r]; [|cbn [length]; lia].
    destruct (Forecast.rain_total fromisoformat data (utcnow n) hrs) as [x|e];
      cbn [of_outcome]; [|cbn [length]; lia].
    unfold io_bind at 1.
    destruct (generate_alert_from_rainfall fp cx x None) as [a|e];
      cbn [of_outcome]; [|cbn [length]; lia].
    specialize (IH (out ++ [(key, a)]) (S n)).
    destruct (forecast_days fp rest (out ++ [(key, a)]) (S n)) as [[out'|r] n'].
    + destruct IH as (-> & ->). cbn [length map fst]. split; [lia|].
      now rewrite map_app, <- app_assoc.
    + cbn [length]. lia.
Qed.

(** X20. The forecast endpoint answers all or nothing: either the alerts
    of exactly the keys day1, day2 and day3, in this order, after three
    requests to the forecast service, or a response of status 500 after
    one, two or three requests; it never answers a part of the horizons. *)
Theorem flood_forecast_all_or_nothing (fp : option (list Hotspot)) (n : nat) :
  (exists out,
     flood_forecast fp n = (Forecasts out, (n + 3)%nat) /\
     map fst out = ["day1"; "day2"; "day3"]%string) \/
  (exists detail k,
     flood_forecast fp n = (JSONResponse 500 detail, (n + k)%nat) /\
     (1 <= k <= 3)%nat).
Proof.
  unfold Forecast.flood_forecast.
  pose proof (forecast_days_shape fp horizons [] n) as H.
  destruct (forecast_days fp horizons [] n) as [[out|r] n'].
  - left. destruct H as (-> & H). exists out. split; [reflexivity|exact H].
  - right. exists (str_raised builtin_str r), (n' - n)%nat.
    cbn [length horizons] in H. split; [|lia].
    now replace (n + (n' - n))%nat with n' by lia.
Qed.

(** X21. Without the flood dataset the forecast endpoint always answers
    with status 500, after exactly one request; when that request succeeds
    and the rainfall is computed, the detail is the message of the alert
    generator. *)
Theorem flood_forecast_without_dataset (n : nat) :
  exists detail,
    flood_forecast None n = (JSONResponse 500 detail, S n) /\
    (forall data r,
       http_get n city_lat city_lng = Got data ->
       rain_total data (utcnow n) 24 = Ret r ->
       detail = "Flood points dataset not loaded on server."%string).
Proof.
  unfold Forecast.flood_forecast, horizons. cbn [Forecast.forecast_days].
  unfold io_bind at 1. unfold Forecast.get_forecast_rainfall at 1.
  destruct (http_get n city_lat city_lng) as [data|r] eqn:Hget.
  - destruct (rain_total data (utcnow n) 24) as [x|e] eqn:Hr; cbn [of_outcome].
    + unfold io_bind at 1. cbn. eexists. split; reflexivity.
    + eexists. split; [reflexivity|]. intros data' r' [= <-] Hr'. congruence.
  - eexists. split; [reflexivity|]. intros ? ? [=].
Qed.

Lemma alert_returns (pts : list Hotspot) (r : float) :
  Z.of_nat (length pts) < 2 ^ 64 ->
  exists a, generate_alert_from_rainfall (Some pts) cx r None = Ret a /\
            rainfall_mm a = r.
Proof.
  intros Hlen. destruct pts as [|p ps] eqn:E.
  - rewrite (alert_empty cx [] None r eq_refl). eauto.
  - rewrite <- E in *.
    assert (Hne : restrict cx pts None <> []) by (subst pts; discriminate).
    destruct (alert_nonempty cx pts None r Hne Hlen) as (k & _ & _ & ->). eauto.
Qed.

Lemma forecast_step (pts : list Hotspot) (key : string) (hrs : Z)
    (rest : list (string * Z)) (out : list (string * Alert)) (n : nat) :
  Z.of_nat (length pts) < 2 ^ 64 ->
  (exists data, http_get n city_lat city_lng = Got data /\ feed_ok data) ->
  exists r a,
    get_forecast_rainfall city_lat city_lng hrs n = (Got r, S n) /\
    F.nonneg r = true /\
    generate_alert_from_rainfall (Some pts) cx r None = Ret a /\
    rainfall_mm a = r /\
    forecast_days (Some pts) ((key, hrs) :: rest) out n =
    forecast_days (Some pts) rest (out ++ [(key, a)]) (S n).
Proof.
  intros Hlen (data & Hget & Hok).
  destruct (rain_total_nonneg data (utcnow n) hrs Hok) as (r & Hr & Hnn).
  destruct (alert_returns pts r Hlen) as (a & Ha & Hrain).
  assert (Hg : get_forecast_rainfall city_lat city_lng hrs n = (Got r, S n)).
  { unfold Forecast.get_forecast_rainfall. now rewrite Hget, Hr. }
  exists r, a. repeat split; try assumption.
  cbn [Forecast.forecast_days]. unfold io_bind at 1. rewrite Hg.
  unfold io_bind at 1. now rewrite Ha.
Qed.

(** X22. With the dataset loaded (fewer than 2^64 hotspots) and a forecast
    service that answers every request with a feed of non-negative values,
    the forecast endpoint answers the three alerts: the alert of each
    horizon is the one generated, without bounding box, from the rainfall
    that the request of its turn fetched for 24, 48 and 72 hours, and it
    carries that rainfall, a non-negative number. *)
Theorem flood_forecast_answers (pts : list Hotspot) (n : nat) :
  Z.of_nat (length pts) < 2 ^ 64 ->
  (forall k, exists data, http_get k city_lat city_lng = Got data /\ feed_ok data) ->
  exists r1 r2 r3 a1 a2 a3,
    get_forecast_rainfall city_lat city_lng 24 n = (Got r1, S n) /\
    get_forecast_rainfall city_lat city_lng 48 (S n) = (Got r2, S (S n)) /\
    get_forecast_rainfall city_lat city_lng 72 (S (S n)) = (Got r3, S (S (S n))) /\
    generate_alert_from_rainfall (Some pts) cx r1 None = Ret a1 /\
    generate_alert_from_rainfall (Some pts) cx r2 None = Ret a2 /\
    generate_alert_from_rainfall (Some pts) cx r3 None = Ret a3 /\
    (rainfall_mm a1 = r1 /\ rainfall_mm a2 = r2 /\ rainfall_mm a3 = r3) /\
    (F.nonneg r1 = true /\ F.nonneg r2 = true /\ F.nonneg r3 = true) /\
    flood_forecast (Some pts) n =
      (Forecasts [("day1", a1); ("day2", a2); ("day3", a3)]%string, S (S (S n))).
Proof.
  intros Hlen Hup.
  destruct (forecast_step pts "day1" 24 [("day2", 48); ("day3", 72)]%string [] n
              Hlen (Hup n)) as (r1 & a1 & Hg1 & Hn1 & Ha1 & Hr1 & E1).
  destruct (forecast_step pts "day2" 48 [("day3", 72)]%string ([] ++ [("day1"%string, a1)])
              (S n) Hlen (Hup (S n))) as (r2 & a2 & Hg2 & Hn2 & Ha2 & Hr2 & E2).
  destruct (forecast_step pts "day3" 72 [] (([] ++ [("day1"%string, a1)]) ++ [("day2"%string, a2)])
              (S (S n)) Hlen (Hup (S (S n)))) as (r3 & a3 & Hg3 & Hn3 & Ha3 & Hr3 & E3).
  exists r1, r2, r3, a1, a2, a3. repeat split; try assumption.
  unfold Forecast.flood_forecast, horizons. rewrite E1, E2, E3. reflexivity.
Qed.

End ForecastFacts.

(* ===================================================================== *)
(** * Further properties: distances *)
(* ===================================================================== *)

Section DistanceFacts.

Variables m_sin m_cos : float -> float.
Variables m_atan2 m_pow : float -> float -> float.

Local Abbreviation distance_km := (distance_km m_sin m_cos m_atan2 m_pow).
Local Abbreviation sum_segments := (sum_segments m_sin m_cos m_atan2 m_pow).
Local Abbreviation compute_length_from_points :=
  (compute_length_from_points m_sin m_cos m_atan2 m_pow).

(** What the C library guarantees at zero, and the range of the cosine of a
    finite angle; nothing is asked of the cosine of an infinity or a NaN. *)
Hypothesis sin_zero : m_sin F.zero = F.zero.
Hypothesis pow_zero : m_pow F.zero f2 = F.zero.
Hypothesis atan2_zero : m_atan2 F.zero f1 = F.zero.
Hypothesis cos_range : forall x, F.is_finite x = true -> F.mag_le (m_cos x) 1.

Lemma sub_self (x : float) : F.is_finite x = true -> F.sub x x = F.zero.
Proof.
  destruct x as [[]| | |s m e]; try discriminate; intros _; try reflexivity.
  unfold F.sub, SFsub.
  replace (cond_Zopp s (Z.pos (fst (shl_align m e (Z.min e e)))) -
           cond_Zopp s (Z.pos (fst (shl_align m e (Z.min e e))))) with 0 by lia.
  reflexivity.
Qed.

Lemma radians_finite (x : float) :
  F.mag_le x 1024 -> F.is_finite (radians x) = true.
Proof.
  intros Hx. unfold radians.
  assert (Hd : exists m, deg_to_rad = S754_finite false m (-58) /\ Z.pos m < 2 ^ 53).
  { eexists. split; [reflexivity|]. reflexivity. }
  destruct Hd as (m & -> & Hm).
  eapply FRound.mag_le_finite.
  apply (FRound.mul_finite x 1024 false m (-58) 53); try lia. exact Hx.
Qed.

Lemma square_cos_times_zero (c : float) :
  F.mag_le c 1 -> F.add F.zero (F.mul (F.mul c c) F.zero) = F.zero.
Proof.
  intros Hc.
  assert (Hfin : F.is_finite (F.mul c c) = true).
  { destruct c as [s|s| |s m e]; cbn in Hc; try contradiction; [reflexivity|].
    destruct Hc as (He & j & Hj & Hm & Hje).
    assert (1 <= j).
    { destruct (Z.eq_dec j 0) as [->|]; [|lia]. cbn in Hm. lia. }
    eapply FRound.mag_le_finite.
    apply (FRound.mul_finite (S754_finite s m e) 1 s m e j); try lia.
    cbn. split; [exact He|]. exists j. auto. }
  destruct (F.mul c c) as [[]|s| |[] m e]; try discriminate; reflexivity.
Qed.

Lemma distance_self (a : LatLng) :
  F.mag_le (lat a) 1024 -> F.is_finite (lng a) = true ->
  distance_km a a = Ret F.zero.
Proof.
  intros Hlat Hlng. unfold Main.distance_km.
  rewrite (sub_self (lat a)) by (now apply (FRound.mag_le_finite _ 1024)).
  rewrite (sub_self (lng a)) by exact Hlng.
  assert (Hz : F.div (radians F.zero) f2 = F.zero) by reflexivity.
  assert (Hs : math_sin m_sin F.zero = Ret F.zero)
    by (unfold math_sin; rewrite sin_zero; reflexivity).
  assert (Hq : square m_pow F.zero = Ret F.zero)
    by (unfold square; rewrite pow_zero; reflexivity).
  pose proof (radians_finite (lat a) Hlat) as Hr.
  assert (Hc : math_cos m_cos (radians (lat a)) = Ret (m_cos (radians (lat a)))).
  { unfold math_cos. destruct (radians (lat a)); try discriminate; reflexivity. }
  assert (Hr0 : math_sqrt F.zero = Ret F.zero) by reflexivity.
  assert (Hr1 : math_sqrt (F.sub f1 F.zero) = Ret f1) by reflexivity.
  rewrite Hz, Hs. cbn [obind]. rewrite Hq. cbn [obind]. rewrite Hc. cbn [obind].
  rewrite (square_cos_times_zero _ (cos_range _ Hr)), Hr0. cbn [obind].
  rewrite Hr1. cbn [obind]. rewrite atan2_zero. reflexivity.
Qed.

Lemma sum_segments_standing (a : LatLng) (k : nat) :
  F.mag_le (lat a) 1024 -> F.is_finite (lng a) = true ->
  sum_segments F.zero a (List.repeat a k) = Ret F.zero.
Proof.
  intros Hlat Hlng. induction k as [|k IH]; [reflexivity|].
  cbn [List.repeat Main.sum_segments]. rewrite (distance_self a Hlat Hlng).
  cbn [obind]. exact IH.
Qed.

(** X23. A path that does not move has no length: with a C library that
    maps zero to zero ([sin 0 = 0], [0 ** 2 = 0], [atan2(0, 1) = 0]) and
    whose cosine of a finite angle is below 2 in magnitude, the distance of
    a point of finite coordinates to itself is 0.0, and so is the length of
    every path that repeats this point; none of them raises. *)
Theorem standing_path_has_no_length (a : LatLng) :
  F.mag_le (lat a) 1024 -> F.is_finite (lng a) = true ->
  distance_km a a = Ret F.zero /\
  forall k, compute_length_from_points (List.repeat a k) = Ret F.zero.
Proof.
  intros Hlat Hlng. split; [now apply distance_self|].
  intros [|[|k]]; try reflexivity.
  change (compute_length_from_points (List.repeat a (S (S k))))
    with (sum_segments F.zero a (List.repeat a (S k))).
  now apply sum_segments_standing.
Qed.

End DistanceFacts.

(* ===================================================================== *)
(** * The further properties on the example deployment *)
(* ===================================================================== *)

(** X8 on the two-node network: an overlay edge of speed 0.0. *)
Lemma overlay_zero_speed_raises_witness :
  fst (Example.od_time (Some Example.rg) (Example.place 17 0) (Example.place 17 20)
         [(1, 2, F.of_Z 10, F.zero)] Example.heap) = Raise ZeroDivisionError.
Proof.
  apply (proj1 (overlay_zero_speed_raises (Some Example.rg) Example.resolver
                  (Example.place 17 0) (Example.place 17 20)
                  [(1, 2, F.of_Z 10, F.zero)] Example.heap
                  ltac:(constructor; reflexivity))
           Example.rg eq_refl).
Defined.

(** X9 on the two-node network, against the direction of its only edge:
    from node 2 to node 1 over an overlay edge given from 1 to 2. *)
Lemma overlay_edge_bounds_time_witness :
  exists t,
    fst (Example.od_time (Some Example.rg) (Example.place 17 20) (Example.place 17 0)
           [(1, 2, F.of_Z 10, F.of_Z 180)] Example.heap) = Ret (Some t) /\
    F.leb t (F.mul (F.div (F.of_Z 10) (F.of_Z 180)) (F.of_Z 3600)) = true.
Proof.
  apply (overlay_edge_bounds_time (Some Example.rg) Example.resolver Example.rg
           Example.two_nodes (Example.place 17 20) (Example.place 17 0)
           1 2 (F.of_Z 10) (F.of_Z 180) Example.heap).
  - reflexivity.
  - vm_compute. reflexivity.
  - repeat constructor.
  - reflexivity.
  - right. split; reflexivity.
Defined.

(** X10 on the two-node network: origin and destination both west of
    longitude 10. *)
Lemma same_node_takes_no_time_witness :
  fst (Example.od_time (Some Example.rg) (Example.place 17 0) (Example.place 17 5)
         [(1, 2, F.of_Z 10, F.of_Z 180)] Example.heap) = Ret (Some F.zero).
Proof.
  apply (same_node_takes_no_time (Some Example.rg) Example.resolver Example.rg
           Example.two_nodes (Example.place 17 0) (Example.place 17 5) 1
           [(1, 2, F.of_Z 10, F.of_Z 180)] Example.heap).
  - reflexivity.
  - vm_compute. reflexivity.
  - repeat constructor.
  - reflexivity.
  - reflexivity.
  - reflexivity.
Defined.

(** X11 on the two-node network: a road along the route, with origin and
    destination. *)
Lemma simulate_preserves_store_witness :
  snd (Example.run (Some (Example.hotspots 3)) (Some Example.rg)
         (Example.request road 20 (Some (F.of_Z 5))
            [Example.place 17 0; Example.place 17 20]
            (Some (Example.place 17 0, Example.place 17 20)))
         Example.heap) !! Example.rg = Example.heap !! Example.rg.
Proof.
  apply (simulate_preserves_store (Some (Example.hotspots 3)) (Some Example.rg)
           Example.libm1 Example.libm1 Example.libm2 Example.libm2
           Example.resolver Example.on_vertex).
  exists Example.two_nodes. vm_compute. reflexivity.
Defined.

(** X12 on the drain of 2 km under 40 mm of rain. *)
Lemma simulate_flood_invariants_witness :
  exists resp,
    Example.run None None (Example.request drain 40 (Some (F.of_Z 2)) [] None)
      Example.heap = (Ret resp, Example.heap) /\
    baselineHighRiskCells (flood resp) = 1000 /\
    baselinePop (flood resp) = 500000 /\
    0 <= scenarioHighRiskCells (flood resp) /\
    0 <= scenarioPop (flood resp) /\
    (scenarioHighRiskCells (flood resp) = 0 -> scenarioPop (flood resp) = 0).
Proof.
  returns_response.
  apply (simulate_flood_invariants None None Example.libm1 Example.libm1
           Example.libm2 Example.libm2 Example.resolver Example.on_vertex
           (Example.request drain 40 (Some (F.of_Z 2)) [] None)
           Example.heap Example.heap).
  vm_compute. reflexivity.
Defined.

(** X13 on the same drain. *)
Lemma intervention_direction_witness :
  exists resp,
    Example.run None None (Example.request drain 40 (Some (F.of_Z 2)) [] None)
      Example.heap = (Ret resp, Example.heap) /\
    scenarioHighRiskCells (flood resp) <= 1000.
Proof.
  returns_response.
  apply (intervention_direction None None Example.libm1 Example.libm1
           Example.libm2 Example.libm2 Example.resolver Example.on_vertex
           (Example.request drain 40 (Some (F.of_Z 2)) [] None)
           Example.heap Example.heap _ (F.of_Z 2)).
  - vm_compute. reflexivity.
  - reflexivity.
  - reflexivity.
Defined.

(** X14 on a road of 5 km with 2 lanes. *)
Lemma heuristic_minutes_bounds_witness :
  exists m,
    heuristic_minutes (Example.request road 20 (Some (F.of_Z 5)) [] None) (F.of_Z 5) 2
      = Ret m /\
    (F.leb (F.opp (F.of_Z 20)) m = true /\ F.leb m F.zero = true).
Proof.
  apply (heuristic_minutes_bounds (Example.request road 20 (Some (F.of_Z 5)) [] None)
           (F.of_Z 5) 2).
  - reflexivity.
  - reflexivity.
  - split; [lia|reflexivity].
Defined.

(** X15 on a request without origin and destination. *)
Lemma traffic_result_shape_witness :
  exists resp,
    Example.run None (Some Example.rg)
      (Example.request road 20 (Some (F.of_Z 5)) [] None) Example.heap
      = (Ret resp, Example.heap) /\
    minutesChange (traffic resp) = F.zero /\
    baselineMinutes (traffic resp) = None /\
    scenarioMinutes (traffic resp) = None.
Proof.
  returns_response.
  match goal with
  | |- minutesChange (traffic ?r) = _ /\ _ =>
      destruct (traffic_result_shape None (Some Example.rg) Example.libm1 Example.libm1
                  Example.libm2 Example.libm2 Example.resolver Example.on_vertex
                  (Example.request road 20 (Some (F.of_Z 5)) [] None)
                  Example.heap Example.heap r)
        as (Hiff & _ & Hnone)
  end.
  - vm_compute. reflexivity.
  - destruct (Hnone (or_introl eq_refl)) as (Hmc & Hbm & _).
    split; [exact Hmc|]. split; [exact Hbm|]. apply Hiff, Hbm.
Defined.

(** X16 on a path of two points extended by a third. *)
Lemma polyline_length_extends_witness :
  compute_length_from_points LibmExample.sin LibmExample.cos LibmExample.atan2
    LibmExample.pow
    ([Example.place 17 0; Example.place 17 1] ++ [Example.place 17 2]) =
  (let! t := compute_length_from_points LibmExample.sin LibmExample.cos
               LibmExample.atan2 LibmExample.pow
               [Example.place 17 0; Example.place 17 1] in
   let! d := distance_km LibmExample.sin LibmExample.cos LibmExample.atan2
               LibmExample.pow (Example.place 17 1) (Example.place 17 2) in
   Ret (F.add t d))%outcome.
Proof.
  apply (polyline_length_extends LibmExample.sin LibmExample.cos LibmExample.atan2
           LibmExample.pow [Example.place 17 0; Example.place 17 1]
           (Example.place 17 2)).
  discriminate.
Defined.

(** X19 on the example feed at 2 o'clock. *)
Lemma forecast_rain_nonneg_witness :
  exists t,
    rain_total ForecastExample.read_hour ForecastExample.feed
      (ForecastExample.noon_minus 2) 24 = Ret t /\
    F.nonneg t = true.
Proof.
  apply (forecast_rain_nonneg ForecastExample.read_hour ForecastExample.feed
           (ForecastExample.noon_minus 2) 24).
  unfold feed_ok. cbn. repeat constructor.
Defined.

(** X22 on three hotspots and a service that always answers the example
    feed. *)
Lemma flood_forecast_answers_witness :
  exists a1 a2 a3,
    flood_forecast (Some (Example.hotspots 3)) Example.window ForecastExample.service
      ForecastExample.clock ForecastExample.read_hour ForecastExample.no_str 0%nat =
    (Forecasts [("day1"%string, a1); ("day2"%string, a2); ("day3"%string, a3)], 3%nat).
Proof.
  destruct (flood_forecast_answers Example.window ForecastExample.service
              ForecastExample.clock ForecastExample.read_hour ForecastExample.no_str
              (Example.hotspots 3) 0%nat)
    as (r1 & r2 & r3 & a1 & a2 & a3 & _ & _ & _ & _ & _ & _ & _ & _ & H).
  - vm_compute. reflexivity.
  - intros k. exists ForecastExample.feed. split; [reflexivity|].
    unfold feed_ok. cbn. repeat constructor.
  - exists a1, a2, a3. exact H.
Defined.

(** X23 on a path that stays at latitude 17, longitude 78. *)
Lemma standing_path_has_no_length_witness :
  distance_km LibmExample.sin LibmExample.cos LibmExample.atan2 LibmExample.pow
    (Example.place 17 78) (Example.place 17 78) = Ret F.zero /\
  compute_length_from_points LibmExample.sin LibmExample.cos LibmExample.atan2
    LibmExample.pow (List.repeat (Example.place 17 78) 5) = Ret F.zero.
Proof.
  destruct (standing_path_has_no_length LibmExample.sin LibmExample.cos
              LibmExample.atan2 LibmExample.pow) with (a := Example.place 17 78)
    as (Hd & Hl).
  - reflexivity.
  - reflexivity.
  - reflexivity.
  - intros x Hx. unfold LibmExample.cos. rewrite Hx. cbn.
    split; [lia|]. exists 53. split; [lia|]. split; [reflexivity|lia].
  - apply (FRound.of_Z_finite 17 1023); [lia|reflexivity].
  - reflexivity.
  - split; [exact Hd|exact (Hl 5%nat)].
Defined.
